(** * Excel-to-OCR converter: column slicing, cell formatting, Markdown
      rendering, artifact combination and the PDF pipeline.

    A shallow embedding of [src/excel_to_ocr] (column_slicer.py,
    markdown_exporter.py, html_renderer.py, pdf_exporter.py, pipeline.py),
    of the Markdown run of run_enhanced.py and of the table parser of
    analyze_data.py.
    Python integers are [Z]; [//] and [%] are [Z.div] and [Z.modulo] (both
    floor towards minus infinity, like Python's); strings are byte strings
    (UTF-8); exceptions are an explicit result type; the [while] loop of the
    slicer runs on fuel, [None] meaning that the loop has not finished.

    What the code calls outside the repository (pandas' reader and
    [to_markdown], [str.format], Jinja2, WeasyPrint, the YAML loader) enters
    as a section variable of the module that calls it; the file system is a
    finite map from paths to contents, the PDF merger a list of pages. The
    records handed to the logger are kept for the two combiners, where the
    specification speaks of them, and nowhere else. *)

From Stdlib Require Import ZArith String Ascii DecimalString DecimalZ Lia.
From Stdlib Require Import Floats.SpecFloat.
From stdpp Require Import gmap strings list.

Open Scope Z_scope.

(** ** Exceptions and results *)

Inductive exn_kind :=
| ZeroDivisionError
| OverflowError
| AttributeError
| OtherError.

(** An exception with the text [str(e)] gives. *)
Record exn := Exn { exn_type : exn_kind; exn_str : string }.

Inductive result (A : Type) :=
| Ok (a : A)
| Raise (e : exn).
Arguments Ok {A} a.
Arguments Raise {A} e.

Definition rbind {A B} (r : result A) (k : A -> result B) : result B :=
  match r with
  | Ok a => k a
  | Raise e => Raise e
  end.

Notation "'let!' x := c 'in' k" := (rbind c (fun x => k))
  (at level 10, x name, c at level 100, k at level 200, only parsing).

Fixpoint rmap {A B} (f : A -> result B) (l : list A) : result (list B) :=
  match l with
  | [] => Ok []
  | x :: l' => let! y := f x in let! ys := rmap f l' in Ok (y :: ys)
  end.

(** [str(n)] for a Python int. *)
Definition str_int (n : Z) : string := NilEmpty.string_of_int (Z.to_int n).

(** ** Tables *)

(** A cell value, as the formatter distinguishes them: the missing values
    [pd.isna] recognises, floats (IEEE doubles, [S754_nan] being NaN), and
    the other scalars with what [str] returns on them. Cells are scalars. *)
Inductive Cell :=
| VNone
| VNaT
| VNA
| VFloat (f : spec_float)
| VInt (n : Z)
| VBool (b : bool)
| VStr (s : string)
| VObj (str : string).

(** A column or row label with what [str] returns on it. *)
Inductive Label :=
| LStr (s : string)
| LInt (n : Z)
| LObj (str : string).

Definition str_label (l : Label) : string :=
  match l with
  | LStr s => s
  | LInt n => str_int n
  | LObj s => s
  end.

Record Column := { col_name : Label; col_values : list Cell }.

(** A DataFrame: the row index and the columns in order. *)
Record DataFrame := { df_index : list Label; df_columns : list Column }.

(** Every column has one value per row. *)
Definition well_formed (df : DataFrame) : Prop :=
  Forall (fun c => length (col_values c) = length (df_index df)) (df_columns df).

(** Python's slice [l[s:e]]: negative bounds count from the end, and both
    are clamped to the list. *)
Definition clamp_index (len i : Z) : Z :=
  if i <? 0 then Z.max (i + len) 0 else Z.min i len.

Definition py_slice {A} (l : list A) (s e : Z) : list A :=
  let n := Z.of_nat (length l) in
  let s' := clamp_index n s in
  let e' := clamp_index n e in
  take (Z.to_nat (e' - s')) (drop (Z.to_nat s') l).

(** [df.iloc[:, s:e].copy()] *)
Definition iloc_columns (df : DataFrame) (s e : Z) : DataFrame :=
  {| df_index := df_index df; df_columns := py_slice (df_columns df) s e |}.

(** ** column_slicer.py *)

Module ColumnSlicer.

Record t := { max_columns_per_page : Z }.

(** Stores the argument. *)
Definition __init__ (max_columns_per_page : Z) : result t :=
  Ok {| max_columns_per_page := max_columns_per_page |}.

(** An entry of the list [slice_dataframe] returns:
    [(sliced_df, start_col_idx, end_col_idx)]. *)
Definition Slice : Type := DataFrame * Z * Z.

Definition slice_df (s : Slice) : DataFrame := s.1.1.
Definition slice_start (s : Slice) : Z := s.1.2.
Definition slice_end (s : Slice) : Z := s.2.

(** The [while start_idx < total_columns] loop. One unit of fuel pays for
    one evaluation of the loop condition. *)
Fixpoint slice_loop (fuel : nat) (self : t) (df : DataFrame)
    (total_columns start_idx : Z) (slices : list Slice) : option (list Slice) :=
  match fuel with
  | O => None
  | S fuel' =>
      if start_idx <? total_columns then
        let end_idx := Z.min (start_idx + max_columns_per_page self) total_columns in
        let sliced_df := iloc_columns df start_idx end_idx in
        slice_loop fuel' self df total_columns end_idx
          (slices ++ [(sliced_df, start_idx, end_idx - 1)])
      else Some slices
  end.

Definition slice_dataframe (fuel : nat) (self : t) (df : DataFrame)
    : option (list Slice) :=
  let total_columns := Z.of_nat (length (df_columns df)) in
  if total_columns =? 0 then Some []
  else slice_loop fuel self df total_columns 0 [].

(** The dictionary [get_slice_info] returns. *)
Record SliceInfo := {
  total_columns : Z;
  info_max_columns_per_page : Z;
  num_pages : Z;
  last_page_columns : Z
}.

(** [a // b] and [a % b], which raise on a zero divisor. *)
Definition zero_division : exn :=
  Exn ZeroDivisionError "integer division or modulo by zero".

Definition floordiv (a b : Z) : result Z :=
  if b =? 0 then Raise zero_division else Ok (a / b).

Definition pymod (a b : Z) : result Z :=
  if b =? 0 then Raise zero_division else Ok (a mod b).

(** [x or y] on ints. *)
Definition int_or (x y : Z) : Z := if x =? 0 then y else x.

Definition get_slice_info (self : t) (df : DataFrame) : result SliceInfo :=
  let total := Z.of_nat (length (df_columns df)) in
  let M := max_columns_per_page self in
  let! pages := floordiv (total + M - 1) M in
  let! rem := pymod total M in
  Ok {| total_columns := total;
        info_max_columns_per_page := M;
        num_pages := pages;
        last_page_columns := int_or rem M |}.

End ColumnSlicer.

(** ** The cell formatter

    [_format_cell] is written out twice in the source, in
    markdown_exporter.py and in html_renderer.py; the helpers below are the
    Python and pandas primitives both copies call. *)

Definition LF : string := String (ascii_of_nat 10) "".

(** [pd.isna(value)] on a scalar. *)
Definition isna (value : Cell) : bool :=
  match value with
  | VNone | VNaT | VNA | VFloat S754_nan => true
  | _ => false
  end.

(** [int(value)] on a float: truncation towards zero; infinities and NaN
    raise. *)
Definition float_to_int (f : spec_float) : result Z :=
  match f with
  | S754_zero _ => Ok 0
  | S754_infinity _ =>
      Raise (Exn OverflowError "cannot convert float infinity to integer")
  | S754_nan => Raise (Exn OtherError "cannot convert float NaN to integer")
  | S754_finite s m e =>
      let a := if 0 <=? e then Z.pos m * 2 ^ e else Z.pos m / 2 ^ (- e) in
      Ok (if s then - a else a)
  end.

(** [value != n] for a float and an int, which Python compares exactly. *)
Definition float_ne_int (f : spec_float) (n : Z) : bool :=
  match f with
  | S754_zero _ => negb (n =? 0)
  | S754_infinity _ | S754_nan => true
  | S754_finite s m e =>
      let a := if s then Z.neg m else Z.pos m in
      if 0 <=? e then negb (a * 2 ^ e =? n) else negb (a =? n * 2 ^ (- e))
  end.

(** [n / d] rounded to the nearest integer, ties to even ([0 <= n], [0 < d]). *)
Definition round_half_even (n d : Z) : Z :=
  let q := n / d in
  let r := n mod d in
  if 2 * r <? d then q
  else if d <? 2 * r then q + 1
  else if Z.even q then q else q + 1.

Definition two_digits (n : Z) : string :=
  if n <? 10 then "0" +:+ str_int n else str_int n.

Definition sign_text (s : bool) : string := if s then "-" else "".

(** [f"{value:.2f}"]: the exact value rounded to two decimals (ties to
    even), in fixed notation. *)
Definition format_2f (f : spec_float) : string :=
  match f with
  | S754_zero s => sign_text s +:+ "0.00"
  | S754_infinity s => sign_text s +:+ "inf"
  | S754_nan => "nan"
  | S754_finite s m e =>
      let q := if 0 <=? e then 100 * Z.pos m * 2 ^ e
               else round_half_even (100 * Z.pos m) (2 ^ (- e)) in
      sign_text s +:+ str_int (q / 100) +:+ "." +:+ two_digits (q mod 100)
  end.

Definition str_bool (b : bool) : string := if b then "True" else "False".

(** ** markdown_exporter.py: rendering *)

(** The options the exporters and the pipeline read from the configuration
    dictionary; [None] is an absent key. *)
Record Config := {
  cfg_max_columns_per_page : option Z;
  cfg_output_dir : option string;
  cfg_combine_pdfs : option bool;
  cfg_keep_individual_pages : option bool;
  cfg_page_label_format : option string
}.

Definition empty_config : Config :=
  {| cfg_max_columns_per_page := None; cfg_output_dir := None;
     cfg_combine_pdfs := None; cfg_keep_individual_pages := None;
     cfg_page_label_format := None |}.

(** [df.iterrows()]: the row label with the row's values, column by
    column (a column too short for the row, which a DataFrame does not have,
    would read as missing). *)
Definition row_values (df : DataFrame) (i : nat) : list Cell :=
  map (fun c => default VNone (col_values c !! i)) (df_columns df).

Definition iterrows (df : DataFrame) : list (Label * list Cell) :=
  imap (fun i idx => (idx, row_values df i)) (df_index df).

(** [s.replace('|', '\\|')] *)
Fixpoint replace_pipe (s : string) : string :=
  match s with
  | EmptyString => EmptyString
  | String c s' =>
      if Ascii.eqb c "|" then String "\" (String "|" (replace_pipe s'))
      else String c (replace_pipe s')
  end.

(** ** The file system and the log

    A path holds a readable file, or something that exists but cannot be
    read (a directory, a damaged file); writing fails on the paths of
    [readonly]. *)

Inductive Node (A : Type) :=
| File (content : A)
| Unreadable.
Arguments File {A} content.
Arguments Unreadable {A}.

Module FS.

Record t (A : Type) := Make { files : gmap string (Node A); readonly : gset string }.
Arguments Make {A} files readonly.
Arguments files {A} _.
Arguments readonly {A} _.

Section Ops.
Context {A : Type}.

(** [Path(p).exists()], [os.path.exists(p)] *)
Definition exists_ (fs : t A) (p : string) : bool :=
  bool_decide (is_Some (files fs !! p)).

Definition read (fs : t A) (p : string) : result A :=
  match files fs !! p with
  | Some (File c) => Ok c
  | Some Unreadable => Raise (Exn OtherError "cannot read file")
  | None => Raise (Exn OtherError "No such file or directory")
  end.

Definition write (fs : t A) (p : string) (c : A) : result unit * t A :=
  if bool_decide (p ∈ readonly fs) then
    (Raise (Exn OtherError "Permission denied"), fs)
  else (Ok tt, Make (<[p := File c]> (files fs)) (readonly fs)).

Definition unlink (fs : t A) (p : string) : result unit * t A :=
  if bool_decide (p ∈ readonly fs) then
    (Raise (Exn OtherError "Permission denied"), fs)
  else if exists_ fs p then (Ok tt, Make (delete p (files fs)) (readonly fs))
  else (Raise (Exn OtherError "No such file or directory"), fs).

End Ops.

End FS.

Inductive Level := DEBUG | INFO | WARNING | ERROR.

(** The records a call hands to the logger, oldest first. *)
Abbreviation Log := (list (Level * string)).

Definition str_len {A} (l : list A) : string := str_int (Z.of_nat (length l)).

(** ** Paths

    [pathlib] on a POSIX system. A path is its root ([/], [//] for exactly
    two leading slashes, or none) and its components; the components that
    are empty or [.] are dropped, [..] is kept; the path without root and
    components is written [.]. *)

(** [s.split('/')] *)
Fixpoint path_split (s : string) : list string :=
  match s with
  | EmptyString => [EmptyString]
  | String a r =>
      if Ascii.eqb a "/" then EmptyString :: path_split r
      else
        match path_split r with
        | x :: l => String a x :: l
        | [] => [String a EmptyString]
        end
  end.

Definition is_absolute (p : string) : bool :=
  match p with
  | String a _ => Ascii.eqb a "/"
  | EmptyString => false
  end.

Definition path_root (p : string) : string :=
  match p with
  | String a r =>
      if Ascii.eqb a "/" then
        match r with
        | String b r2 =>
            if Ascii.eqb b "/" then
              match r2 with
              | String c _ => if Ascii.eqb c "/" then "/" else "//"
              | EmptyString => "//"
              end
            else "/"
        | EmptyString => "/"
        end
      else ""
  | EmptyString => ""
  end.

Definition path_parts (p : string) : list string :=
  List.filter (fun x => negb (String.eqb x "" || String.eqb x "."))
    (path_split p).

(** [str] of the path with this root and these components. *)
Definition path_str (root : string) (parts : list string) : string :=
  match root, parts with
  | EmptyString, [] => "."
  | _, _ => root +:+ String.concat "/" parts
  end.

(** [str(Path(d) / name)]: an absolute [name] replaces [d], any other is
    appended to it. *)
Definition path_join (d name : string) : string :=
  if is_absolute name then path_str (path_root name) (path_parts name)
  else path_str (path_root d) (path_parts d ++ path_parts name).

(** ** Text files

    What [read_text] and [open(.., 'r')] return for the text of a file:
    in text mode a carriage return, alone or before a line feed, is read
    as a line feed. Writing in text mode leaves the text as it is (the line
    separator of the system being the line feed). A file whose bytes are
    not UTF-8 is an unreadable one. *)
Fixpoint universal_newlines (s : string) : string :=
  match s with
  | EmptyString => EmptyString
  | String a r =>
      if Ascii.eqb a (ascii_of_nat 13) then
        match r with
        | String b r2 =>
            if Ascii.eqb b (ascii_of_nat 10)
            then String (ascii_of_nat 10) (universal_newlines r2)
            else String (ascii_of_nat 10) (universal_newlines r)
        | EmptyString => String (ascii_of_nat 10) EmptyString
        end
      else String a (universal_newlines r)
  end.

(** [Path(p).read_text(encoding='utf-8')] *)
Definition read_text (fs : FS.t string) (p : string) : result string :=
  match FS.read fs p with
  | Ok content => Ok (universal_newlines content)
  | Raise e => Raise e
  end.

Module MarkdownExporter.

Section Builtins.

(** [template.format(page_num=.., start_col=.., end_col=..)] *)
Variable str_format : string -> Z -> Z -> Z -> result string.

(** [df.to_markdown(index=..)], the pandas built-in; it raises
    [AttributeError] on a pandas that has no such method. *)
Variable to_markdown : DataFrame -> bool -> result string.

Definition _format_cell (value : Cell) : result string :=
  if isna value then Ok ""
  else match value with
       | VFloat f =>
           let! i := float_to_int f in
           if float_ne_int f i then Ok (format_2f f) else Ok (str_int i)
       | VNone => Ok "None"
       | VNaT => Ok "NaT"
       | VNA => Ok "<NA>"
       | VInt n => Ok (str_int n)
       | VBool b => Ok (str_bool b)
       | VStr s => Ok s
       | VObj s => Ok s
       end.

Definition _manual_markdown_conversion (df : DataFrame) (include_index : bool)
    : result string :=
  let headers :=
    if include_index then "Index" :: map (fun c => str_label (col_name c)) (df_columns df)
    else map (fun c => str_label (col_name c)) (df_columns df) in
  let headers := map replace_pipe headers in
  let markdown := "| " +:+ String.concat " | " headers +:+ " |" +:+ LF in
  let markdown :=
    markdown +:+ "| " +:+ String.concat " | " (map (fun _ => "---") headers)
      +:+ " |" +:+ LF in
  fold_left
    (fun (acc : result string) '(idx, row) =>
       let! markdown := acc in
       let! cells := rmap _format_cell row in
       let row_data := if include_index then str_label idx :: cells else cells in
       let row_data := map replace_pipe row_data in
       Ok (markdown +:+ "| " +:+ String.concat " | " row_data +:+ " |" +:+ LF))
    (iterrows df) (Ok markdown).

Definition default_page_label_format : string :=
  "Page {page_num} – Columns {start_col}-{end_col}".

Definition dataframe_to_markdown (config : Config) (df : DataFrame)
    (page_num start_col end_col : Z) (include_index : bool) : result string :=
  let! page_label :=
    str_format (default default_page_label_format (cfg_page_label_format config))
      page_num start_col end_col in
  let markdown := "# " +:+ page_label +:+ LF +:+ LF in
  let markdown :=
    markdown +:+ "**Page:** " +:+ str_int page_num +:+ " | **Columns:** "
      +:+ str_int start_col +:+ " to " +:+ str_int end_col +:+ LF +:+ LF in
  let markdown := markdown +:+ "---" +:+ LF +:+ LF in
  let! table_md :=
    match to_markdown df include_index with
    | Raise (Exn AttributeError _) => _manual_markdown_conversion df include_index
    | r => r
    end in
  let markdown := markdown +:+ table_md in
  let markdown := markdown +:+ LF +:+ LF +:+ "---" +:+ LF +:+ LF in
  Ok markdown.

End Builtins.

(** One turn of the loop of [combine_markdown_files]. *)
Definition combine_step (fs : FS.t string) (st : string * Log) (md_path : string)
    : string * Log :=
  let '(combined_content, log) := st in
  if negb (FS.exists_ fs md_path) then
    (combined_content, log ++ [(WARNING, "Markdown file not found: " +:+ md_path)])
  else
    match read_text fs md_path with
    | Ok content =>
        (combined_content +:+ content +:+ LF +:+ LF,
         log ++ [(DEBUG, "Added to combined file: " +:+ md_path)])
    | Raise e =>
        (combined_content,
         log ++ [(ERROR, "Error reading Markdown file " +:+ md_path +:+ ": "
                           +:+ exn_str e)])
    end.

Definition combine_markdown_files (markdown_paths : list string)
    (output_path : string) (fs : FS.t string) : bool * FS.t string * Log :=
  let log :=
    [(INFO, "Combining " +:+ str_len markdown_paths +:+ " Markdown files into "
              +:+ output_path)] in
  let combined_content := "# Combined Excel Data Export" +:+ LF +:+ LF in
  let combined_content :=
    combined_content +:+ "This document contains " +:+ str_len markdown_paths
      +:+ " pages of data." +:+ LF +:+ LF in
  let combined_content := combined_content +:+ "---" +:+ LF +:+ LF in
  let '(combined_content, log) :=
    fold_left (combine_step fs) markdown_paths (combined_content, log) in
  match FS.write fs output_path combined_content with
  | (Ok _, fs') =>
      (true, fs',
       log ++ [(INFO, "Successfully created combined Markdown file: "
                        +:+ output_path)])
  | (Raise e, fs') =>
      (false, fs', log ++ [(ERROR, "Error combining Markdown files: " +:+ exn_str e)])
  end.

(** The exporter object: [self.output_dir] and [self.config]. *)
Record t := { output_dir : string; config : Config }.

(** [mkdir] is [Path(output_dir).mkdir(parents=True, exist_ok=True)];
    [config or {}] turns an absent configuration into the empty one. *)
Definition __init__ (mkdir : string -> result unit) (output_dir : string)
    (config : option Config) : result t :=
  let! _ := mkdir output_dir in
  Ok {| output_dir := output_dir; config := default empty_config config |}.

Section Writing.

Variable str_format : string -> Z -> Z -> Z -> result string.
Variable to_markdown : DataFrame -> bool -> result string.

Definition export_dataframe_slice (self : t) (df : DataFrame)
    (page_num start_col end_col : Z) (fs : FS.t string)
    : result string * FS.t string :=
  let output_filename := "page_" +:+ str_int page_num +:+ ".md" in
  let output_path := path_join (output_dir self) output_filename in
  match dataframe_to_markdown str_format to_markdown (config self) df
          page_num start_col end_col false with
  | Raise e => (Raise e, fs)
  | Ok markdown_content =>
      match FS.write fs output_path markdown_content with
      | (Ok _, fs') => (Ok output_path, fs')
      | (Raise e, fs') => (Raise e, fs')
      end
  end.

End Writing.

(** [create_index]; [sheet_info] is a dictionary, given as its items in
    insertion order, or [None]. *)
Definition create_index (num_pages : Z) (sheet_info : option (list (Label * Label)))
    : string :=
  let markdown := "# Excel Data Extraction Index" +:+ LF +:+ LF in
  let markdown :=
    match sheet_info with
    | Some (item :: items) =>
        let markdown := markdown +:+ "## Source Information" +:+ LF +:+ LF in
        let markdown :=
          fold_left
            (fun (markdown : string) '(key, value) =>
               markdown +:+ "- **" +:+ str_label key +:+ ":** " +:+ str_label value
                 +:+ LF)
            (item :: items) markdown in
        markdown +:+ LF
    | _ => markdown
    end in
  let markdown := markdown +:+ "## Pages" +:+ LF +:+ LF in
  let markdown :=
    markdown +:+ "Total pages generated: " +:+ str_int num_pages +:+ LF +:+ LF in
  let markdown :=
    fold_left
      (fun (markdown : string) (i : Z) =>
         markdown +:+ "- [Page " +:+ str_int i +:+ "](page_" +:+ str_int i +:+ ".md)"
           +:+ LF)
      (seqZ 1 num_pages) markdown in
  let markdown := markdown +:+ LF +:+ "---" +:+ LF +:+ LF in
  let markdown := markdown +:+ "*Generated by Excel to Markdown Converter*" +:+ LF in
  markdown.

End MarkdownExporter.

(** A PDF document: its pages in order. *)
Abbreviation Pdf := (list string).

(** ** pdf_exporter.py *)

Module PDFExporter.

Record t := { output_dir : string; config : Config }.

(** [mkdir] is [Path(output_dir).mkdir(parents=True,
    exist_ok=True)], which the file system of the model, having no
    directories, does not record. *)
Definition __init__ (mkdir : string -> result unit) (output_dir : string)
    (config : Config) : result t :=
  let! _ := mkdir output_dir in
  Ok {| output_dir := output_dir; config := config |}.

(** One turn of the loop of [combine_pdfs]; [merger] is the content the
    [PdfMerger] has been given so far. *)
Definition combine_step (fs : FS.t Pdf) (st : Pdf * Log) (pdf_path : string)
    : Pdf * Log :=
  let '(merger, log) := st in
  if negb (FS.exists_ fs pdf_path) then
    (merger, log ++ [(WARNING, "PDF file not found: " +:+ pdf_path)])
  else
    match FS.read fs pdf_path with
    | Ok pages => (merger ++ pages, log ++ [(DEBUG, "Added to merger: " +:+ pdf_path)])
    | Raise e =>
        (merger,
         log ++ [(ERROR, "Error adding PDF " +:+ pdf_path +:+ ": " +:+ exn_str e)])
    end.

Definition combine_pdfs (pdf_paths : list string) (output_path : string)
    (fs : FS.t Pdf) : bool * FS.t Pdf * Log :=
  let log :=
    [(INFO, "Combining " +:+ str_len pdf_paths +:+ " PDFs into " +:+ output_path)] in
  let '(merger, log) := fold_left (combine_step fs) pdf_paths ([], log) in
  match FS.write fs output_path merger with
  | (Ok _, fs') =>
      (true, fs', log ++ [(INFO, "Successfully combined PDFs into: " +:+ output_path)])
  | (Raise e, fs') =>
      (false, fs', log ++ [(ERROR, "Error combining PDFs: " +:+ exn_str e)])
  end.

Section Engine.

(** WeasyPrint's [HTML(string=html).write_pdf(path, ..)]; the flag tells
    whether the page stylesheet is passed. *)
Variable write_pdf : string -> bool -> string -> FS.t Pdf -> result unit * FS.t Pdf.

Definition html_to_pdf (html_content output_path : string) (fs : FS.t Pdf)
    : bool * FS.t Pdf :=
  match write_pdf html_content true output_path fs with
  | (Ok _, fs') => (true, fs')
  | (Raise _, fs') =>
      match write_pdf html_content false output_path fs' with
      | (Ok _, fs'') => (true, fs'')
      | (Raise _, fs'') => (false, fs'')
      end
  end.

Definition export_dataframe_slice (self : t) (html_content : string) (page_num : Z)
    (fs : FS.t Pdf) : result string * FS.t Pdf :=
  let output_filename := "page_" +:+ str_int page_num +:+ ".pdf" in
  let output_path := path_join (output_dir self) output_filename in
  let '(success, fs') := html_to_pdf html_content output_path fs in
  if success then (Ok output_path, fs')
  else (Raise (Exn OtherError ("Failed to create PDF for page " +:+ str_int page_num)),
        fs').

End Engine.

End PDFExporter.

(** ** html_renderer.py *)

Module HTMLRenderer.

(** What [render_table] hands to the template, besides the style settings
    of the configuration. *)
Record TemplateArgs := {
  arg_page_label : string;
  arg_headers : list Label;
  arg_rows : list (list string);
  arg_page_num : Z;
  arg_start_col : Z;
  arg_end_col : Z
}.

Record t := { template_dir : string; config : Config }.

Definition _format_cell (value : Cell) : result string :=
  if isna value then Ok ""
  else match value with
       | VFloat f =>
           let! i := float_to_int f in
           if float_ne_int f i then Ok (format_2f f) else Ok (str_int i)
       | VNone => Ok "None"
       | VNaT => Ok "NaT"
       | VNA => Ok "<NA>"
       | VInt n => Ok (str_int n)
       | VBool b => Ok (str_bool b)
       | VStr s => Ok s
       | VObj s => Ok s
       end.

(** [environment] is the construction of the Jinja2
    environment over the template directory. *)
Definition __init__ (environment : string -> result unit) (template_dir : string)
    (config : Config) : result t :=
  let! _ := environment template_dir in
  Ok {| template_dir := template_dir; config := config |}.

Section Jinja.

Variable Template : Type.
Variable str_format : string -> Z -> Z -> Z -> result string.
(** [env.get_template(name)] and [template.render(..)] *)
Variable get_template : string -> string -> result Template.
Variable render : Template -> Config -> TemplateArgs -> result string.

Definition default_page_label_format : string :=
  "Page {page_num} – Columns {start_col}-{end_col}".

Definition render_table (self : t) (df : DataFrame) (page_num start_col end_col : Z)
    (page_label : option string) : result string :=
  let! template := get_template (template_dir self) "table.html" in
  let! page_label :=
    match page_label with
    | None =>
        str_format
          (default default_page_label_format (cfg_page_label_format (config self)))
          page_num start_col end_col
    | Some l => Ok l
    end in
  let headers := map col_name (df_columns df) in
  let rows := map snd (iterrows df) in
  let! rows := rmap (rmap _format_cell) rows in
  render template (config self)
    {| arg_page_label := page_label; arg_headers := headers; arg_rows := rows;
       arg_page_num := page_num; arg_start_col := start_col;
       arg_end_col := end_col |}.

End Jinja.

End HTMLRenderer.

(** ** pipeline.py *)

Module ExcelToPDFPipeline.

Record t := {
  config : Config;
  slicer : ColumnSlicer.t;
  renderer : HTMLRenderer.t;
  exporter : PDFExporter.t
}.

Definition _get_default_config : Config :=
  {| cfg_max_columns_per_page := Some 12;
     cfg_output_dir := Some "output";
     cfg_combine_pdfs := Some true;
     cfg_keep_individual_pages := Some true;
     cfg_page_label_format := Some "Page {page_num} â€“ Columns {start_col}-{end_col}" |}.

(** The dictionary [process] returns. *)
Inductive ProcessResult :=
| Success (input_file : string) (total_pages : Z) (individual_pdfs : list string)
    (combined_pdf : option string) (slice_info : ColumnSlicer.SliceInfo)
| Failure (error : string) (input_file : string).

Section Collaborators.

(** [yaml.safe_load] on the opened configuration file: an exception when
    the file cannot be read or parsed, [None] for an empty document. *)
Variable yaml_load : string -> result (option Config).
(** [_setup_logging], which raises on an unknown level or an unusable log
    file, and the environment and directory set-up of the renderer and of
    the exporter. *)
Variable setup_logging : Config -> result unit.
Variable environment : string -> result unit.
Variable mkdir : string -> result unit.
(** [pd.read_excel(file, sheet_name=.., engine='openpyxl')] *)
Variable pd_read_excel : string -> option string -> result DataFrame.
Variable Template : Type.
Variable str_format : string -> Z -> Z -> Z -> result string.
Variable get_template : string -> string -> result Template.
Variable render : Template -> Config -> HTMLRenderer.TemplateArgs -> result string.
Variable write_pdf : string -> bool -> string -> FS.t Pdf -> result unit * FS.t Pdf.

Definition _load_config (config_path : string) : option Config :=
  match yaml_load config_path with
  | Ok config => config
  | Raise _ => Some _get_default_config
  end.

(** [self.config.get] raises [AttributeError] when the loaded
    document is [None]. *)
Definition __init__ (config_path : string) : result t :=
  match _load_config config_path with
  | None =>
      Raise (Exn AttributeError "'NoneType' object has no attribute 'get'")
  | Some config =>
      let! _ := setup_logging config in
      let max_cols := default 12 (cfg_max_columns_per_page config) in
      let output_dir := default "output" (cfg_output_dir config) in
      let! slicer := ColumnSlicer.__init__ max_cols in
      let! renderer := HTMLRenderer.__init__ environment "templates" config in
      let! exporter := PDFExporter.__init__ mkdir output_dir config in
      Ok {| config := config; slicer := slicer; renderer := renderer;
            exporter := exporter |}
  end.

Definition read_excel (file_path : string) (sheet_name : option string)
    : result DataFrame :=
  match sheet_name with
  | Some name =>
      if String.eqb name "" then pd_read_excel file_path None
      else pd_read_excel file_path (Some name)
  | None => pd_read_excel file_path None
  end.

(** [enumerate(slices, start=1)] *)
Definition enumerate1 {A} (l : list A) : list (Z * A) :=
  imap (fun i x => (Z.of_nat i + 1, x)) l.

(** The body of the [try] of one turn of the page loop. *)
Definition process_page (self : t) (idx : Z) (s : ColumnSlicer.Slice)
    (fs : FS.t Pdf) : result string * FS.t Pdf :=
  let '(slice_df, start_col, end_col) := s in
  match HTMLRenderer.render_table Template str_format get_template render
          (renderer self) slice_df idx start_col end_col None with
  | Raise e => (Raise e, fs)
  | Ok html_content =>
      PDFExporter.export_dataframe_slice write_pdf (exporter self) html_content idx fs
  end.

(** One turn of the page loop: an exception is caught and the loop goes
    on. *)
Definition page_step (self : t) (st : list string * FS.t Pdf)
    (item : Z * ColumnSlicer.Slice) : list string * FS.t Pdf :=
  let '(pdf_paths, fs) := st in
  let '(idx, s) := item in
  match process_page self idx s fs with
  | (Ok pdf_path, fs') => (pdf_paths ++ [pdf_path], fs')
  | (Raise _, fs') => (pdf_paths, fs')
  end.

(** [Path(p).unlink()] inside its own [try]. *)
Definition unlink_quietly (fs : FS.t Pdf) (p : string) : FS.t Pdf :=
  (FS.unlink fs p).2.

(** [process]; [None] when the slicing loop has not finished within
    [fuel]. *)
Definition process (fuel : nat) (self : t) (input_file : string)
    (sheet_name : option string) (fs : FS.t Pdf)
    : option (ProcessResult * FS.t Pdf) :=
  match read_excel input_file sheet_name with
  | Raise e => Some (Failure (exn_str e) input_file, fs)
  | Ok df =>
      match ColumnSlicer.get_slice_info (slicer self) df with
      | Raise e => Some (Failure (exn_str e) input_file, fs)
      | Ok slice_info =>
          match ColumnSlicer.slice_dataframe fuel (slicer self) df with
          | None => None
          | Some slices =>
              let '(pdf_paths, fs) :=
                fold_left (page_step self) (enumerate1 slices) ([], fs) in
              let '(combined_path, fs) :=
                if default true (cfg_combine_pdfs (config self))
                   && (0 <? Z.of_nat (length pdf_paths)) then
                  let output_dir := default "output" (cfg_output_dir (config self)) in
                  let combined_path := path_join output_dir "combined_output.pdf" in
                  let '(success, fs', _) :=
                    PDFExporter.combine_pdfs pdf_paths combined_path fs in
                  if success then (Some combined_path, fs') else (None, fs')
                else (None, fs) in
              let fs :=
                if negb (default true (cfg_keep_individual_pages (config self)))
                then fold_left unlink_quietly pdf_paths fs
                else fs in
              Some (Success input_file (Z.of_nat (length pdf_paths)) pdf_paths
                      combined_path slice_info, fs)
          end
      end
  end.

End Collaborators.

End ExcelToPDFPipeline.

(** ** run_enhanced.py: the Markdown path *)

Module RunEnhanced.

(** [s.replace(' ', '_')] *)
Fixpoint replace_space (s : string) : string :=
  match s with
  | EmptyString => EmptyString
  | String c s' =>
      if Ascii.eqb c " " then String "_" (replace_space s')
      else String c (replace_space s')
  end.

(** The dictionary [process_markdown_format] returns. *)
Inductive MarkdownResult :=
| Success (sheet_name : string) (total_pages : Z) (individual_files : list string)
    (combined_file index_file output_dir : string)
| Failure (error : string).

Section Builtins.

Variable str_format : string -> Z -> Z -> Z -> result string.
Variable to_markdown : DataFrame -> bool -> result string.
Variable mkdir : string -> result unit.

(** One turn of the page loop. Nothing in the loop catches an exception:
    the first one ends it. *)
Definition export_step (md_exporter : MarkdownExporter.t)
    (st : result (list string) * FS.t string) (item : Z * ColumnSlicer.Slice)
    : result (list string) * FS.t string :=
  let '(acc, fs) := st in
  match acc with
  | Raise e => (Raise e, fs)
  | Ok md_paths =>
      let '(idx, (slice_df, start_col, end_col)) := item in
      match MarkdownExporter.export_dataframe_slice str_format to_markdown
              md_exporter slice_df idx start_col end_col fs with
      | (Ok md_path, fs') => (Ok (md_paths ++ [md_path]), fs')
      | (Raise e, fs') => (Raise e, fs')
      end
  end.

(** [process_markdown_format]; [None] when the slicing loop has not
    finished within [fuel]. *)
Definition process_markdown_format (fuel : nat) (df : DataFrame)
    (sheet_name : string) (max_cols : Z) (output_dir : string) (fs : FS.t string)
    : option (MarkdownResult * FS.t string) :=
  let sheet_dir := path_join output_dir ("markdown_" +:+ replace_space sheet_name) in
  match mkdir sheet_dir with
  | Raise e => Some (Failure (exn_str e), fs)
  | Ok _ =>
  match ColumnSlicer.__init__ max_cols with
  | Raise e => Some (Failure (exn_str e), fs)
  | Ok slicer =>
  match MarkdownExporter.__init__ mkdir sheet_dir None with
  | Raise e => Some (Failure (exn_str e), fs)
  | Ok md_exporter =>
  match ColumnSlicer.get_slice_info slicer df with
  | Raise e => Some (Failure (exn_str e), fs)
  | Ok slice_info =>
  match ColumnSlicer.slice_dataframe fuel slicer df with
  | None => None
  | Some slices =>
  match fold_left (export_step md_exporter) (ExcelToPDFPipeline.enumerate1 slices)
          (Ok [], fs) with
  | (Raise e, fs) => Some (Failure (exn_str e), fs)
  | (Ok md_paths, fs) =>
      let combined_path := path_join sheet_dir "combined_output.md" in
      let '(_, fs, _) :=
        MarkdownExporter.combine_markdown_files md_paths combined_path fs in
      let index_content :=
        MarkdownExporter.create_index (Z.of_nat (length md_paths))
          (Some [(LStr "Sheet Name", LStr sheet_name);
                 (LStr "Total Rows", LInt (Z.of_nat (length (df_index df))));
                 (LStr "Total Columns", LInt (Z.of_nat (length (df_columns df))));
                 (LStr "Pages Generated", LInt (Z.of_nat (length md_paths)))]) in
      let index_path := path_join sheet_dir "index.md" in
      match FS.write fs index_path index_content with
      | (Raise e, fs) => Some (Failure (exn_str e), fs)
      | (Ok _, fs) =>
          Some (Success sheet_name (Z.of_nat (length md_paths)) md_paths
                  combined_path index_path sheet_dir, fs)
      end
  end end end end end end.

End Builtins.

End RunEnhanced.

(** ** analyze_data.py *)

Module AnalyzeData.

(** The characters [str.isspace] and the pattern [\s] accept, in their
    UTF-8 encoding: of one byte TAB to CR, FS to US and the space; of two
    bytes U+0085 and U+00A0; of three bytes U+1680, U+2000 to U+200A,
    U+2028, U+2029, U+202F, U+205F and U+3000. *)
Definition space1 (a : ascii) : bool :=
  let n := N_of_ascii a in
  (((9 <=? n) && (n <=? 13)) || ((28 <=? n) && (n <=? 32)))%N.

Definition space2 (a b : ascii) : bool :=
  let x := N_of_ascii a in
  let y := N_of_ascii b in
  (((y =? 133) || (y =? 160)) && (x =? 194))%N.

Definition space3 (a b c : ascii) : bool :=
  let x := N_of_ascii a in
  let y := N_of_ascii b in
  let z := N_of_ascii c in
  (((z =? 128) && (y =? 154) && (x =? 225))
   || ((((128 <=? z) && (z <=? 138)) || (z =? 168) || (z =? 169) || (z =? 175))
       && (y =? 128) && (x =? 226))
   || ((z =? 159) && (y =? 129) && (x =? 226))
   || ((z =? 128) && (y =? 128) && (x =? 227)))%N.

(** [s.lstrip()] *)
Fixpoint lstrip (s : string) : string :=
  match s with
  | EmptyString => EmptyString
  | String a r =>
      if space1 a then lstrip r
      else
        match r with
        | String b r2 =>
            if space2 a b then lstrip r2
            else
              match r2 with
              | String c r3 => if space3 a b c then lstrip r3 else s
              | EmptyString => s
              end
        | EmptyString => s
        end
  end.

(** [s.isspace()] or [s] is empty. *)
Definition all_space (s : string) : bool :=
  match lstrip s with
  | EmptyString => true
  | String _ _ => false
  end.

(** [s.rstrip()]: [s] without its longest suffix of white space. *)
Fixpoint rstrip (s : string) : string :=
  match s with
  | EmptyString => EmptyString
  | String a r => if all_space s then EmptyString else String a (rstrip r)
  end.

(** [s.strip()] *)
Definition strip (s : string) : string := rstrip (lstrip s).

(** [s.startswith(p)] *)
Definition startswith (p s : string) : bool := String.prefix p s.

(** [sub in s] *)
Fixpoint is_in (sub s : string) : bool :=
  String.prefix sub s
  || match s with
     | EmptyString => false
     | String _ r => is_in sub r
     end.

(** [s.split(sep)] for a separator of one character. *)
Fixpoint split (sep : ascii) (s : string) : list string :=
  match s with
  | EmptyString => [EmptyString]
  | String a r =>
      if Ascii.eqb a sep then EmptyString :: split sep r
      else
        match split sep r with
        | x :: l => String a x :: l
        | [] => [String a EmptyString]
        end
  end.

(** [re.match(r'^\|\s*[-:]+', line)] finds a match. *)
Definition re_match_separator (line : string) : bool :=
  match line with
  | String a r =>
      Ascii.eqb a "|"
      && match lstrip r with
         | String c _ => Ascii.eqb c "-" || Ascii.eqb c ":"
         | EmptyString => false
         end
  | EmptyString => false
  end.

(** The first loop: the index of the first line that starts a table. *)
Fixpoint table_start (lines : list string) : option nat :=
  match lines with
  | [] => None
  | line :: rest =>
      if startswith "|" (strip line) && negb (is_in "---" line) then Some O
      else S <$> table_start rest
  end.

(** The second loop, with the [table_lines] collected so far. *)
Fixpoint table_loop (lines : list string) (table_lines : list string) : list string :=
  match lines with
  | [] => table_lines
  | line :: rest =>
      if startswith "|" (strip line) then
        if negb (re_match_separator line) then table_loop rest (table_lines ++ [line])
        else table_loop rest table_lines
      else
        match table_lines with
        | [] => table_loop rest table_lines
        | _ :: _ => table_lines
        end
  end.

(** [[c.strip() for c in line.split('|')[1:-1]]] *)
Definition row_cells (line : string) : list string :=
  strip <$> py_slice (split "|" line) 1 (-1).

#[global] Instance Label_eq_dec : EqDecision Label.
Proof. solve_decision. Defined.

Section Pandas.

(** [pd.DataFrame(data, columns=headers)] and [pd.to_numeric(series,
    errors='ignore')]. *)
Variable pd_DataFrame : list (list string) -> list string -> result DataFrame.
Variable to_numeric : list Cell -> result (list Cell).

(** One turn of the loop over [df.columns]: [df[col]] is the column when
    one column has the label (with several it is a table, on which
    [to_numeric] raises); whatever is raised is swallowed. *)
Definition numeric_step (df : DataFrame) (col : Label) : DataFrame :=
  match List.filter (fun c => bool_decide (col_name c = col)) (df_columns df) with
  | [c] =>
      match to_numeric (col_values c) with
      | Ok values =>
          {| df_index := df_index df;
             df_columns :=
               (fun c' => if bool_decide (col_name c' = col)
                          then {| col_name := col; col_values := values |}
                          else c') <$> df_columns df |}
      | Raise _ => df
      end
  | _ => df
  end.

Definition numeric_columns (df : DataFrame) : DataFrame :=
  fold_left numeric_step (col_name <$> df_columns df) df.

(** [pd.DataFrame()] *)
Definition empty_frame : DataFrame := {| df_index := []; df_columns := [] |}.

Definition parse_markdown_table (md_content : string) : result DataFrame :=
  let lines := split (ascii_of_nat 10) md_content in
  match table_start lines with
  | None => Ok empty_frame
  | Some i =>
      let table_lines := table_loop (drop i lines) [] in
      match table_lines with
      | header :: _ :: rest =>
          let headers := row_cells header in
          let data :=
            row_cells <$> List.filter (fun line => negb (is_in "---" line)) rest in
          let! df := pd_DataFrame data headers in
          Ok (numeric_columns df)
      | _ => Ok empty_frame
      end
  end.

End Pandas.

End AnalyzeData.

(** ** The slicing contract, in the specification's words *)

Module SlicerSpec.

(** The [k]-th span starts at [k*M] and ends at [min((k+1)*M, C) - 1]. *)
Definition span_start (M : Z) (k : nat) : Z := Z.of_nat k * M.
Definition span_end (C M : Z) (k : nat) : Z := Z.min ((Z.of_nat k + 1) * M) C - 1.

(** The column indices [s, s+1, .., e]. *)
Definition span (s e : Z) : list Z := seqZ s (e - s + 1).

(** The columns of [l] at the indices [s..e]. *)
Definition columns_at {A} (l : list A) (s e : Z) : list A :=
  take (Z.to_nat (e - s + 1)) (drop (Z.to_nat s) l).

Definition n_columns (df : DataFrame) : Z := Z.of_nat (length (df_columns df)).

Definition kth_slice (df : DataFrame) (M : Z) (k : nat) : ColumnSlicer.Slice :=
  ({| df_index := df_index df;
      df_columns := columns_at (df_columns df) (span_start M k)
                      (span_end (n_columns df) M k) |},
   span_start M k, span_end (n_columns df) M k).

(** [n] is the ceiling of [C / M]. *)
Definition is_ceil (C M n : Z) : Prop := M * (n - 1) < C <= M * n.

End SlicerSpec.

(** ** The value of a finite float *)

Module CellSpec.

(** The float with sign [s], mantissa [m] and exponent [e], that is
    [(-1)^s * m * 2^e], is the integer [n]. *)
Definition finite_is_int (s : bool) (m : positive) (e n : Z) : Prop :=
  let a := if s then Z.neg m else Z.pos m in
  if 0 <=? e then n = a * 2 ^ e else a = n * 2 ^ (- e).

End CellSpec.

(** A table one of whose cells is an infinite float. *)
Definition has_infinite_cell (df : DataFrame) : Prop :=
  exists (i : nat) (c : Column) (s : bool),
    (i < length (df_index df))%nat /\ c ∈ df_columns df /\
    col_values c !! i = Some (VFloat (S754_infinity s)).

(** What [int] raises on an infinite float. *)
Definition overflow : exn :=
  Exn OverflowError "cannot convert float infinity to integer".

(** ** The Markdown page, in the specification's words *)

Module MarkdownSpec.

(** Every pipe character becomes a backslash and a pipe. *)
Definition escape (s : string) : string :=
  string_of_list_ascii
    (flat_map (fun c : ascii => if Ascii.eqb c "|" then ["\"; "|"] else [c])%char
       (list_ascii_of_string s)).

(** A pipe-delimited line of escaped texts. *)
Definition table_line (texts : list string) : string :=
  "| " +:+ String.concat " | " (escape <$> texts) +:+ " |" +:+ LF.

Definition header_line (headers : list string) : string := table_line headers.

Definition separator_line (n : nat) : string :=
  "| " +:+ String.concat " | " (replicate n "---") +:+ " |" +:+ LF.

Definition table (headers : list string) (rows : list (list string)) : string :=
  header_line headers +:+ separator_line (length headers)
    +:+ String.concat "" (table_line <$> rows).

Definition heading (label : string) : string := "# " +:+ label +:+ LF +:+ LF.

Definition metadata_line (page_num start_col end_col : Z) : string :=
  "**Page:** " +:+ str_int page_num +:+ " | **Columns:** " +:+ str_int start_col
    +:+ " to " +:+ str_int end_col +:+ LF +:+ LF.

Definition rule : string := "---" +:+ LF +:+ LF.

(** Heading, metadata line, rule, the table as given, trailing rule. *)
Definition page_around (label : string) (page_num start_col end_col : Z)
    (table_md : string) : string :=
  heading label +:+ metadata_line page_num start_col end_col +:+ rule
    +:+ table_md +:+ LF +:+ LF +:+ rule.

(** The header texts and the row texts of a table whose cells have been
    formatted to [cells], row by row. *)
Definition header_texts (df : DataFrame) (include_index : bool) : list string :=
  (if include_index then ["Index"] else [])
    ++ ((fun c => str_label (col_name c)) <$> df_columns df).

Definition row_texts (df : DataFrame) (include_index : bool)
    (cells : list (list string)) : list (list string) :=
  zip_with (fun idx row => (if include_index then [str_label idx] else []) ++ row)
    (df_index df) cells.

(** The page of a slice whose cells the cell formatter has rendered to
    [cells]. *)
Definition page_of (label : string) (page_num start_col end_col : Z)
    (df : DataFrame) (include_index : bool) (cells : list (list string)) : string :=
  page_around label page_num start_col end_col
    (table (header_texts df include_index) (row_texts df include_index cells)).

(** The label template in force. *)
Definition label_template (config : Config) : string :=
  default MarkdownExporter.default_page_label_format (cfg_page_label_format config).

End MarkdownSpec.

(** ** The combined artifact, in the specification's words *)

Module CombinerSpec.

(** The contents of the artifacts that exist and can be read, in the order
    of the given paths. *)
Definition available {A} (fs : FS.t A) (paths : list string) : list A :=
  omap (fun p => match FS.files fs !! p with
                 | Some (File c) => Some c
                 | _ => None
                 end) paths.

(** The banner of the combined Markdown document for [n] pages. *)
Definition banner (n : nat) : string :=
  "# Combined Excel Data Export" +:+ LF +:+ LF
    +:+ "This document contains " +:+ str_int (Z.of_nat n) +:+ " pages of data."
    +:+ LF +:+ LF +:+ "---" +:+ LF +:+ LF.

Definition combined_markdown (n : nat) (contents : list string) : string :=
  banner n +:+ String.concat "" ((fun c => c +:+ LF +:+ LF) <$> contents).

Definition combined_pdf (contents : list Pdf) : Pdf := concat contents.

End CombinerSpec.

(** ** The page loop as a list of per-slice outcomes *)

Module PipelineSpec.

Section Collaborators.

Variable Template : Type.
Variable str_format : string -> Z -> Z -> Z -> result string.
Variable get_template : string -> string -> result Template.
Variable render : Template -> Config -> HTMLRenderer.TemplateArgs -> result string.
Variable write_pdf : string -> bool -> string -> FS.t Pdf -> result unit * FS.t Pdf.

(** The outcome of every slice, in order: the path of its artifact or the
    exception that ended it. Each slice starts from the file system the
    previous one left. *)
Fixpoint page_outcomes (self : ExcelToPDFPipeline.t)
    (items : list (Z * ColumnSlicer.Slice)) (fs : FS.t Pdf) : list (result string) :=
  match items with
  | [] => []
  | (idx, s) :: rest =>
      let '(r, fs') :=
        ExcelToPDFPipeline.process_page Template str_format get_template render
          write_pdf self idx s fs in
      r :: page_outcomes self rest fs'
  end.

Fixpoint fs_after_pages (self : ExcelToPDFPipeline.t)
    (items : list (Z * ColumnSlicer.Slice)) (fs : FS.t Pdf) : FS.t Pdf :=
  match items with
  | [] => fs
  | (idx, s) :: rest =>
      let '(r, fs') :=
        ExcelToPDFPipeline.process_page Template str_format get_template render
          write_pdf self idx s fs in
      fs_after_pages self rest fs'
  end.

End Collaborators.

Definition successes (outcomes : list (result string)) : list string :=
  omap (fun r => match r with Ok p => Some p | Raise _ => None end) outcomes.

End PipelineSpec.

(** ** Instances of the collaborators, to run the model *)

Module Demo.

(** [str.format] on templates made of text and the fields [{page_num}],
    [{start_col}] and [{end_col}]; [field] is the name read so far inside
    braces. *)
Fixpoint format_from (s : string) (field : option string)
    (page_num start_col end_col : Z) : result string :=
  match s with
  | EmptyString =>
      match field with
      | None => Ok ""
      | Some _ => Raise (Exn OtherError "expected '}' before end of string")
      end
  | String c s' =>
      match field with
      | None =>
          if Ascii.eqb c "{" then format_from s' (Some "") page_num start_col end_col
          else let! r := format_from s' None page_num start_col end_col in
               Ok (String c r)
      | Some name =>
          if Ascii.eqb c "}" then
            let! v :=
              if String.eqb name "page_num" then Ok (str_int page_num)
              else if String.eqb name "start_col" then Ok (str_int start_col)
              else if String.eqb name "end_col" then Ok (str_int end_col)
              else Raise (Exn OtherError name) in
            let! r := format_from s' None page_num start_col end_col in
            Ok (v +:+ r)
          else format_from s' (Some (name +:+ String c "")) page_num start_col end_col
      end
  end.

Definition str_format (template : string) (page_num start_col end_col : Z)
    : result string :=
  format_from template None page_num start_col end_col.

(** A pandas without [DataFrame.to_markdown]. *)
Definition old_pandas (df : DataFrame) (include_index : bool) : result string :=
  Raise (Exn AttributeError "'DataFrame' object has no attribute 'to_markdown'").

Definition nan : Cell := VFloat S754_nan.

(** One column named [a|b] holding one missing value. *)
Definition nan_frame : DataFrame :=
  {| df_index := [LInt 0];
     df_columns := [{| col_name := LStr "a|b"; col_values := [nan] |}] |}.

(** What the built-in [to_markdown(index=False)] of a current pandas
    returns on [nan_frame]. *)
Definition new_pandas (df : DataFrame) (include_index : bool) : result string :=
  Ok ("|   a|b |" +:+ LF +:+ "|------:|" +:+ LF +:+ "|   nan |").

(** A table of [n] columns and two rows. *)
Definition wide_frame (n : nat) : DataFrame :=
  {| df_index := [LInt 0; LInt 1];
     df_columns :=
       (fun i => {| col_name := LStr ("c" +:+ str_int (Z.of_nat i));
                    col_values := [VInt (Z.of_nat i); VStr "x|y"] |})
         <$> seq 0 n |}.

Definition empty_frame : DataFrame := {| df_index := []; df_columns := [] |}.

(** The doubles 1234.0 and 1234.5 and positive infinity. *)
Definition f1234_0 : spec_float := S754_finite false 5427189394702336 (-42).
Definition f1234_5 : spec_float := S754_finite false 5429388417957888 (-42).
Definition inf : spec_float := S754_infinity false.

(** A file system of Markdown pages in which [page_2.md] is missing. *)
Definition md_fs : FS.t string :=
  FS.Make (<["out/page_1.md" := File "one"]>
             (<["out/page_3.md" := File "three"]> ∅)) ∅.

Definition pdf_fs : FS.t Pdf :=
  FS.Make (<["out/page_1.pdf" := File ["p1"]]>
             (<["out/page_3.pdf" := File ["p3a"; "p3b"]]> ∅)) ∅.

Definition pages3 (ext : string) : list string :=
  ["out/page_1" +:+ ext; "out/page_2" +:+ ext; "out/page_3" +:+ ext].

(** Collaborators of the pipeline: a reader that returns [wide_frame 3] for
    [book.xlsx] and fails on any other path, a template that prints the
    label, and a PDF engine that fails on page 2 and writes one page per
    document otherwise. *)
Definition pd_read_excel (file : string) (sheet : option string) : result DataFrame :=
  if String.eqb file "book.xlsx" then Ok (wide_frame 3)
  else Raise (Exn OtherError ("No such file or directory: " +:+ file)).

Definition get_template (dir name : string) : result unit := Ok tt.

Definition render (t : unit) (c : Config) (a : HTMLRenderer.TemplateArgs)
    : result string :=
  Ok (HTMLRenderer.arg_page_label a).

Definition write_pdf (html : string) (styled : bool) (path : string) (fs : FS.t Pdf)
    : result unit * FS.t Pdf :=
  if String.eqb path "output/page_2.pdf" then
    (Raise (Exn OtherError "engine failure"), fs)
  else FS.write fs path [html].

(** A configuration file that sets the page width and nothing else, and
    the pipeline built from it. *)
Definition config (width : Z) : Config :=
  {| cfg_max_columns_per_page := Some width;
     cfg_output_dir := None; cfg_combine_pdfs := None;
     cfg_keep_individual_pages := None;
     cfg_page_label_format := None |}.

Definition yaml_load (width : Z) (path : string) : result (option Config) :=
  Ok (Some (config width)).

Definition pipeline (width : Z) : ExcelToPDFPipeline.t :=
  {| ExcelToPDFPipeline.config := config width;
     ExcelToPDFPipeline.slicer := {| ColumnSlicer.max_columns_per_page := width |};
     ExcelToPDFPipeline.renderer :=
       {| HTMLRenderer.template_dir := "templates";
          HTMLRenderer.config := config width |};
     ExcelToPDFPipeline.exporter :=
       {| PDFExporter.output_dir := "output";
          PDFExporter.config := config width |} |}.

(** A set-up step that succeeds. *)
Definition fine {A} (x : A) : result unit := Ok tt.

Definition no_files : FS.t Pdf := FS.Make ∅ ∅.

(** File systems in which the combined output cannot be written. *)
Definition locked_md : FS.t string :=
  FS.Make (<["out/page_1.md" := File "one"]> ∅) {["out/combined_output"]}.

Definition locked_pdf : FS.t Pdf :=
  FS.Make (<["out/page_1.pdf" := File ["p1"]]> ∅) {["out/combined_output"]}.

(** File systems in which the second page exists and cannot be read. *)
Definition damaged_md : FS.t string :=
  FS.Make (<["out/page_1.md" := File "one"]>
             (<["out/page_2.md" := Unreadable]>
                (<["out/page_3.md" := File "three"]> ∅))) ∅.

Definition damaged_pdf : FS.t Pdf :=
  FS.Make (<["out/page_1.pdf" := File ["p1"]]>
             (<["out/page_2.pdf" := Unreadable]>
                (<["out/page_3.pdf" := File ["p3a"; "p3b"]]> ∅))) ∅.

(** One row, one column, holding positive infinity. *)
Definition inf_frame : DataFrame :=
  {| df_index := [LInt 0];
     df_columns := [{| col_name := LStr "v"; col_values := [VFloat inf] |}] |}.

(** A pipeline that does not keep the individual pages, and a reader that
    returns a table without columns. *)
Definition tidy_config : Config :=
  {| cfg_max_columns_per_page := Some 1;
     cfg_output_dir := None; cfg_combine_pdfs := None;
     cfg_keep_individual_pages := Some false;
     cfg_page_label_format := None |}.

Definition tidy_pipeline : ExcelToPDFPipeline.t :=
  {| ExcelToPDFPipeline.config := tidy_config;
     ExcelToPDFPipeline.slicer := {| ColumnSlicer.max_columns_per_page := 1 |};
     ExcelToPDFPipeline.renderer :=
       {| HTMLRenderer.template_dir := "templates";
          HTMLRenderer.config := tidy_config |};
     ExcelToPDFPipeline.exporter :=
       {| PDFExporter.output_dir := "output";
          PDFExporter.config := tidy_config |} |}.

Definition read_empty (file : string) (sheet : option string) : result DataFrame :=
  Ok empty_frame.

(** An empty file system for the Markdown run. *)
Definition no_pages : FS.t string := FS.Make ∅ ∅.

End Demo.

(** ** Files written one after the other *)

Module FilesSpec.

(** The files after writing the given contents at the given paths, in
    order. *)
Definition write_all {A} (kvs : list (string * A)) (m : gmap string (Node A))
    : gmap string (Node A) :=
  fold_left (fun m (pc : string * A) => <[pc.1 := File pc.2]> m) kvs m.

End FilesSpec.

(** ** Page files and the index, in closed form *)

Module IndexSpec.

(** The file name of page [i] with the extension [ext]. *)
Definition page_file (i : Z) (ext : string) : string :=
  "page_" +:+ str_int i +:+ ext.

Definition link_line (i : Z) : string :=
  "- [Page " +:+ str_int i +:+ "](" +:+ page_file i ".md" +:+ ")" +:+ LF.

Definition info_line (item : Label * Label) : string :=
  "- **" +:+ str_label item.1 +:+ ":** " +:+ str_label item.2 +:+ LF.

Definition source_section (items : list (Label * Label)) : string :=
  match items with
  | [] => ""
  | _ => "## Source Information" +:+ LF +:+ LF
           +:+ String.concat "" (info_line <$> items) +:+ LF
  end.

Definition index (num_pages : Z) (items : list (Label * Label)) : string :=
  "# Excel Data Extraction Index" +:+ LF +:+ LF
    +:+ source_section items
    +:+ "## Pages" +:+ LF +:+ LF
    +:+ "Total pages generated: " +:+ str_int num_pages +:+ LF +:+ LF
    +:+ String.concat "" (link_line <$> seqZ 1 num_pages)
    +:+ LF +:+ "---" +:+ LF +:+ LF
    +:+ "*Generated by Excel to Markdown Converter*" +:+ LF.

End IndexSpec.

(** ** The lines of a rendered table *)

Module ParserSpec.

(** A line of the table without its line feed. *)
Definition line_of (texts : list string) : string :=
  "| " +:+ String.concat " | " (MarkdownSpec.escape <$> texts) +:+ " |".

(** The text holds the character. *)
Fixpoint has_char (c : ascii) (s : string) : bool :=
  match s with
  | EmptyString => false
  | String a r => Ascii.eqb a c || has_char c r
  end.

(** A text that stays on one line. *)
Definition one_line (t : string) : Prop := has_char (ascii_of_nat 10) t = false.

(** A text without a pipe. *)
Definition no_pipe (t : string) : Prop := has_char "|" t = false.

(** A line the parser keeps as a row. *)
Definition kept (line : string) : bool := negb (AnalyzeData.re_match_separator line).

Definition no_rule (line : string) : bool := negb (AnalyzeData.is_in "---" line).

(** How often the character occurs in the text. *)
Fixpoint count_char (c : ascii) (s : string) : nat :=
  match s with
  | EmptyString => O
  | String a r => ((if Ascii.eqb a c then 1 else 0) + count_char c r)%nat
  end.

End ParserSpec.

Module ParseDemo.

(** A stand-in for [pd.DataFrame(data, columns=headers)] on rows as long
    as the header, and for [pd.to_numeric] where it leaves the values. *)
Definition frame_of (data : list (list string)) (headers : list string)
    : result DataFrame :=
  Ok {| df_index := LInt <$> seqZ 0 (Z.of_nat (length data));
        df_columns :=
          imap (fun j h =>
                  {| col_name := LStr h;
                     col_values :=
                       (fun row : list string => from_option VStr VNone (row !! j))
                         <$> data |})
            headers |}.

Definition unchanged (values : list Cell) : result (list Cell) := Ok values.

Definition ledger : DataFrame :=
  {| df_index := [LInt 0; LInt 1];
     df_columns :=
       [{| col_name := LStr "Item"; col_values := [VStr "rent"; VStr "food"] |};
        {| col_name := LStr "Cost"; col_values := [VInt 12; VInt 7] |}] |}.

Definition deltas : DataFrame :=
  {| df_index := [LInt 0; LInt 1; LInt 2];
     df_columns :=
       [{| col_name := LStr "Delta"; col_values := [VInt (-5); VInt 3; VInt 4] |};
        {| col_name := LStr "Note"; col_values := [VStr "a"; VStr "b"; VStr "c"] |}] |}.

End ParseDemo.

(** * Properties *)

(** ** Slicing *)

Section Slicing.

Import ColumnSlicer SlicerSpec.

Variable M : Z.
Variable df : DataFrame.
Hypothesis HM : 1 <= M.

Let self : ColumnSlicer.t := {| max_columns_per_page := M |}.
Let C : Z := n_columns df.
Let pages : nat := Z.to_nat ((C + M - 1) / M).

Lemma C_nonneg : 0 <= C.
Proof. unfold C, n_columns. lia. Qed.

Lemma pages_ceil : is_ceil C M (Z.of_nat pages).
Proof.
  pose proof C_nonneg. unfold is_ceil, pages.
  assert (0 <= (C + M - 1) / M) by (apply Z.div_pos; lia).
  rewrite Z2Nat.id by lia.
  pose proof (Z.div_mod (C + M - 1) M ltac:(lia)).
  pose proof (Z.mod_pos_bound (C + M - 1) M ltac:(lia)).
  nia.
Qed.

Lemma before_last (k : nat) : (k < pages)%nat <-> Z.of_nat k * M < C.
Proof.
  pose proof pages_ceil as [H1 H2]. split; intros H; [nia|].
  apply Nat2Z.inj_lt. nia.
Qed.

Lemma py_slice_columns_at {A} (l : list A) (s e : Z) :
  0 <= s -> s <= e -> e <= Z.of_nat (length l) ->
  py_slice l s e = columns_at l s (e - 1).
Proof.
  intros Hs Hse He. unfold py_slice, columns_at, clamp_index.
  destruct (Z.ltb_spec s 0); [lia|]. destruct (Z.ltb_spec e 0); [lia|].
  rewrite !Z.min_l by lia. f_equal. lia.
Qed.

(** What one turn of the loop appends. *)
Lemma loop_turn (k : nat) :
  (k < pages)%nat ->
  let start_idx := Z.min (Z.of_nat k * M) C in
  let end_idx := Z.min (start_idx + M) C in
  end_idx = Z.min (Z.of_nat (S k) * M) C /\
  (iloc_columns df start_idx end_idx, start_idx, end_idx - 1) = kth_slice df M k.
Proof.
  intros Hk%before_last start_idx end_idx.
  assert (start_idx = Z.of_nat k * M) as Hs by (unfold start_idx; lia).
  assert (end_idx = Z.min (Z.of_nat (S k) * M) C) as He by (unfold end_idx; lia).
  split; [exact He|].
  unfold kth_slice, span_start, span_end, iloc_columns. fold C.
  rewrite Hs in *. replace (Z.of_nat (S k)) with (Z.of_nat k + 1) in He by lia.
  rewrite <- He. do 3 f_equal.
  apply py_slice_columns_at; fold (n_columns df); fold C; lia.
Qed.

(** The loop, started at the [k]-th span with enough fuel, appends the
    spans [k], [k+1], .. up to the last. *)
Lemma slice_loop_closed (r : nat) : forall (fuel k : nat) acc,
  (k + r = pages)%nat -> (r < fuel)%nat ->
  slice_loop fuel self df C (Z.min (Z.of_nat k * M) C) acc
  = Some (acc ++ (kth_slice df M <$> seq k r)).
Proof.
  induction r as [|r IH]; intros fuel k acc Hk Hf.
  - destruct fuel as [|fuel]; [lia|]. simpl.
    assert (~ Z.of_nat k * M < C) by (rewrite <- before_last; lia).
    destruct (Z.ltb_spec (Z.min (Z.of_nat k * M) C) C); [lia|].
    by rewrite app_nil_r.
  - destruct fuel as [|fuel]; [lia|]. simpl.
    assert (Z.of_nat k * M < C) by (rewrite <- before_last; lia).
    destruct (Z.ltb_spec (Z.min (Z.of_nat k * M) C) C); [|lia].
    destruct (loop_turn k ltac:(lia)) as [He Hs].
    cbn zeta in He, Hs. unfold self at 1. simpl max_columns_per_page.
    rewrite Hs, He, (IH fuel (S k)) by lia.
    by rewrite <- app_assoc.
Qed.

Lemma slice_dataframe_closed (fuel : nat) :
  (pages < fuel)%nat ->
  slice_dataframe fuel self df = Some (kth_slice df M <$> seq 0 pages).
Proof.
  intros Hf. unfold slice_dataframe. fold (n_columns df). fold C.
  destruct (Z.eqb_spec C 0) as [H0|H0].
  - assert (pages = 0%nat) as ->; [|done].
    pose proof pages_ceil as [H1 H2]. rewrite H0 in *. nia.
  - pose proof (slice_loop_closed pages fuel 0 [] eq_refl Hf) as H.
    pose proof C_nonneg. simpl in H. rewrite Z.min_l in H by lia. exact H.
Qed.

Lemma pages_le_columns : (pages <= length (df_columns df))%nat.
Proof.
  pose proof pages_ceil as [H1 H2].
  apply Nat2Z.inj_le. fold (n_columns df). fold C.
  pose proof C_nonneg.
  destruct (decide (pages = 0%nat)) as [Hp|Hp]; [lia|].
  assert (Z.of_nat pages - 1 <= M * (Z.of_nat pages - 1)) by nia. lia.
Qed.

Lemma lookup_closed (k : nat) (s : Slice) :
  (kth_slice df M <$> seq 0 pages) !! k = Some s ->
  (k < pages)%nat /\ s = kth_slice df M k.
Proof.
  rewrite list_lookup_fmap. intros H.
  destruct (seq 0 pages !! k) as [j|] eqn:Hj; [|done].
  apply lookup_seq in Hj as [-> Hk]. simpl in H. by inversion H.
Qed.

(** The spans [k .. k+r-1] put end to end are the indices from [k*M] up to
    where the last of them ends. *)
Lemma spans_concat (r : nat) : forall k : nat,
  (k + r <= pages)%nat ->
  concat ((fun s => span (slice_start s) (slice_end s)) <$> (kth_slice df M <$> seq k r))
  = seqZ (Z.of_nat k * M) (Z.min (Z.of_nat (k + r) * M) C - Z.of_nat k * M).
Proof.
  induction r as [|r IH]; intros k Hk.
  - simpl. rewrite seqZ_nil; [done|]. replace (k + 0)%nat with k by lia. lia.
  - simpl. rewrite IH by lia.
    assert (Z.of_nat k * M < C) by (apply before_last; lia).
    unfold span, slice_start, slice_end. simpl.
    unfold span_start, span_end. fold C.
    destruct (decide (r = 0%nat)) as [->|Hr].
    + rewrite (seqZ_nil (Z.of_nat (S k) * M)) by lia.
      rewrite app_nil_r. f_equal. lia.
    + assert (Z.of_nat (S k) * M < C) by (apply before_last; lia).
      replace (Z.of_nat (S k) * M)
        with (Z.of_nat k * M + (Z.min ((Z.of_nat k + 1) * M) C - 1 - Z.of_nat k * M + 1))
        at 1 by lia.
      rewrite <- seqZ_app by lia. f_equal. lia.
Qed.

Lemma columns_concat (r : nat) : forall k : nat,
  (k + r <= pages)%nat ->
  concat ((fun s => df_columns (slice_df s)) <$> (kth_slice df M <$> seq k r))
  = take (Z.to_nat (Z.min (Z.of_nat (k + r) * M) C - Z.of_nat k * M))
      (drop (Z.to_nat (Z.of_nat k * M)) (df_columns df)).
Proof.
  induction r as [|r IH]; intros k Hk.
  - simpl. replace (k + 0)%nat with k by lia.
    replace (Z.to_nat _) with 0%nat by lia. done.
  - simpl. rewrite IH by lia.
    assert (Z.of_nat k * M < C) by (apply before_last; lia).
    unfold slice_df. simpl. unfold columns_at, span_start, span_end. fold C.
    destruct (decide (r = 0%nat)) as [->|Hr].
    + match goal with
      | |- _ ++ take ?n _ = _ => replace n with 0%nat by lia
      end.
      rewrite take_0, app_nil_r. f_equal. lia.
    + assert (Z.of_nat (S k) * M < C) by (apply before_last; lia).
      match goal with
      | |- take ?a _ ++ take _ (drop ?c _) = _ =>
          replace c with (Z.to_nat (Z.of_nat k * M) + a)%nat by lia
      end.
      rewrite <- drop_drop, take_take_drop. f_equal. lia.
Qed.

End Slicing.

Import ColumnSlicer SlicerSpec.

(** With a positive page width every turn of the loop moves the start index
    forward, by at least one column and never past the last. *)
Lemma slice_loop_turn (self : ColumnSlicer.t) (df : DataFrame) (C start : Z)
    (fuel : nat) (acc : list Slice) :
  start < C ->
  slice_loop (S fuel) self df C start acc
  = slice_loop fuel self df C (Z.min (start + max_columns_per_page self) C)
      (acc ++ [(iloc_columns df start (Z.min (start + max_columns_per_page self) C),
                start, Z.min (start + max_columns_per_page self) C - 1)]).
Proof.
  intros H. simpl. destruct (Z.ltb_spec start C); [done | lia].
Qed.

(** Termination by the measure [C - start]. *)
Lemma slice_loop_terminates (self : ColumnSlicer.t) (df : DataFrame) (C : Z) :
  1 <= max_columns_per_page self ->
  forall (fuel : nat) (start : Z) (acc : list Slice),
    (Z.to_nat (C - start) < fuel)%nat ->
    is_Some (slice_loop fuel self df C start acc).
Proof.
  intros HM. induction fuel as [|fuel IH]; intros start acc Hf; [lia|].
  simpl. destruct (Z.ltb_spec start C); [|by eexists].
  apply IH. lia.
Qed.

(** With a page width of zero or less the start index never passes the
    first column, and the loop does not end. *)
Lemma slice_loop_stuck (self : ColumnSlicer.t) (df : DataFrame) (C : Z) :
  max_columns_per_page self <= 0 ->
  forall (fuel : nat) (start : Z) (acc : list Slice),
    start < C -> slice_loop fuel self df C start acc = None.
Proof.
  intros HM. induction fuel as [|fuel IH]; intros start acc Hs; [done|].
  simpl. destruct (Z.ltb_spec start C); [|lia]. apply IH. lia.
Qed.

Lemma slice_dataframe_diverges (M : Z) (df : DataFrame) (fuel : nat) :
  M <= 0 -> df_columns df <> [] ->
  slice_dataframe fuel {| max_columns_per_page := M |} df = None.
Proof.
  intros HM Hc. unfold slice_dataframe.
  destruct (df_columns df) as [|c cols]; [done|].
  destruct (Z.eqb_spec (Z.of_nat (length (c :: cols))) 0) as [H0|H0];
    [simpl in H0; lia|].
  apply slice_loop_stuck; simpl; lia.
Qed.

(** With a positive page width [slice_dataframe] returns, and returns the same list
    however much fuel it is given beyond the number of columns. *)
Lemma slice_dataframe_returns (M : Z) (df : DataFrame) :
  1 <= M ->
  exists slices, forall fuel : nat,
    (length (df_columns df) < fuel)%nat ->
    slice_dataframe fuel {| max_columns_per_page := M |} df = Some slices.
Proof.
  intros HM. eexists. intros fuel Hf. apply slice_dataframe_closed; [done|].
  pose proof (pages_le_columns M df HM). lia.
Qed.

(** C10: for every table and every page width [M >= 1] the slicing loop
    terminates: each turn moves the start index forward by at least one
    column, never past the column count, so the loop started anywhere ends
    within [C - start] turns and [slice_dataframe] returns a list whenever it
    is given more fuel than the table has columns. *)
Theorem slice_dataframe_terminates (M : Z) (df : DataFrame) (HM : 1 <= M) :
  let self := {| max_columns_per_page := M |} in
  let C := n_columns df in
  (forall (fuel : nat) (start : Z) (acc : list Slice),
     start < C ->
     let next := Z.min (start + M) C in
     start + 1 <= next <= C /\
     slice_loop (S fuel) self df C start acc
     = slice_loop fuel self df C next
         (acc ++ [(iloc_columns df start next, start, next - 1)])) /\
  (forall (fuel : nat) (start : Z) (acc : list Slice),
     (Z.to_nat (C - start) < fuel)%nat ->
     is_Some (slice_loop fuel self df C start acc)) /\
  (exists slices, forall fuel : nat,
     (length (df_columns df) < fuel)%nat ->
     slice_dataframe fuel self df = Some slices).
Proof.
  intros self C. split; [|split].
  - intros fuel start acc Hs next. split; [unfold next; lia|].
    by apply slice_loop_turn.
  - intros fuel start acc Hf. by apply slice_loop_terminates.
  - by apply slice_dataframe_returns.
Qed.

(** C2: for a table with [C] columns and [M >= 1], [slice_dataframe]
    returns exactly ceil(C/M) slices, the [k]-th spanning the columns
    [k*M .. min((k+1)*M, C) - 1]: it is labelled with these two bounds and
    holds the source columns at these indices, in order, with the row index
    of the source; and the empty list when [C = 0]. *)
Theorem slice_dataframe_count_and_spans (M : Z) (df : DataFrame) (HM : 1 <= M) :
  let self := {| max_columns_per_page := M |} in
  let C := n_columns df in
  exists slices,
    (forall fuel : nat,
       (length (df_columns df) < fuel)%nat ->
       slice_dataframe fuel self df = Some slices) /\
    is_ceil C M (Z.of_nat (length slices)) /\
    (forall (k : nat) (s : Slice),
       slices !! k = Some s ->
       slice_start s = Z.of_nat k * M /\
       slice_end s = Z.min ((Z.of_nat k + 1) * M) C - 1 /\
       df_columns (slice_df s)
       = columns_at (df_columns df) (Z.of_nat k * M)
           (Z.min ((Z.of_nat k + 1) * M) C - 1) /\
       (forall j : nat,
          df_columns (slice_df s) !! j
          = if bool_decide (Z.of_nat k * M + Z.of_nat j < Z.min ((Z.of_nat k + 1) * M) C)
            then df_columns df !! (Z.to_nat (Z.of_nat k * M) + j)%nat
            else None) /\
       df_index (slice_df s) = df_index df) /\
    (C = 0 -> slices = [] /\ forall fuel, slice_dataframe fuel self df = Some []).
Proof.
  intros self C.
  exists (kth_slice df M <$> seq 0 (Z.to_nat ((C + M - 1) / M))).
  split; [|split; [|split]].
  - intros fuel Hf. apply slice_dataframe_closed; [done|].
    pose proof (pages_le_columns M df HM). lia.
  - rewrite length_fmap, length_seq. by apply pages_ceil.
  - intros k s [_ ->]%lookup_closed.
    split; [done|]. split; [done|]. split; [done|]. split; [|done].
    intros j. unfold kth_slice, slice_df, columns_at, span_start, span_end.
    cbn [fst snd df_columns]. fold C.
    case_bool_decide as Hj.
    + rewrite lookup_take_lt by lia. by rewrite lookup_drop.
    + apply lookup_take_ge. lia.
  - intros H0. split.
    + replace (Z.to_nat ((C + M - 1) / M)) with 0%nat; [done|].
      pose proof (pages_ceil M df HM) as [H1 H2]. fold C in H1, H2.
      rewrite H0 in *. nia.
    + intros fuel. unfold slice_dataframe. fold (n_columns df). fold C.
      by rewrite H0.
Qed.

(** C1: for a table with [C] columns and [M >= 1], the spans of the slices
    [slice_dataframe] returns are non-empty, ascending, pairwise disjoint
    and contiguous; put end to end in emission order they are exactly the
    column indices [0 .. C-1]; each slice holds the source columns of its
    span, so the slices' columns put end to end are the source columns; and
    every slice has the row index of the source table, its [i]-th row being
    the [i]-th source row cut to the span. *)
Theorem slice_dataframe_partitions_columns (M : Z) (df : DataFrame) (HM : 1 <= M) :
  let self := {| max_columns_per_page := M |} in
  let C := n_columns df in
  exists slices,
    (forall fuel : nat,
       (length (df_columns df) < fuel)%nat ->
       slice_dataframe fuel self df = Some slices) /\
    Forall (fun s => 0 <= slice_start s <= slice_end s /\ slice_end s < C) slices /\
    (forall (i j : nat) (si sj : Slice),
       (i < j)%nat -> slices !! i = Some si -> slices !! j = Some sj ->
       slice_end si < slice_start sj) /\
    (forall (i : nat) (si sj : Slice),
       slices !! i = Some si -> slices !! S i = Some sj ->
       slice_start sj = slice_end si + 1) /\
    concat ((fun s => span (slice_start s) (slice_end s)) <$> slices) = seqZ 0 C /\
    Forall (fun s => df_columns (slice_df s)
                     = columns_at (df_columns df) (slice_start s) (slice_end s))
      slices /\
    concat ((fun s => df_columns (slice_df s)) <$> slices) = df_columns df /\
    Forall (fun s => df_index (slice_df s) = df_index df) slices /\
    Forall (fun s => forall i : nat,
              row_values (slice_df s) i
              = columns_at (row_values df i) (slice_start s) (slice_end s))
      slices.
Proof.
  intros self C.
  set (pages := Z.to_nat ((C + M - 1) / M)).
  pose proof (pages_ceil M df HM) as [Hc1 Hc2]. fold C in Hc1, Hc2. fold pages in Hc1, Hc2.
  assert (forall k : nat, (k < pages)%nat <-> Z.of_nat k * M < C) as Hlast
    by (intros k; apply (before_last M df HM)).
  exists (kth_slice df M <$> seq 0 pages).
  split; [|split; [|split; [|split; [|split; [|split; [|split; [|split]]]]]]].
  - intros fuel Hf. apply slice_dataframe_closed; [done|].
    assert ((pages <= length (df_columns df))%nat)
      by apply (pages_le_columns M df HM).
    change (pages < fuel)%nat. lia.
  - apply Forall_forall. intros s Hs.
    apply list_elem_of_lookup in Hs as [k [Hk ->]%lookup_closed]; try done.
    apply Hlast in Hk. unfold slice_start, slice_end. simpl.
    unfold span_start, span_end. fold C. lia.
  - intros i j si sj Hij [Hi ->]%lookup_closed [Hj ->]%lookup_closed; try done.
    unfold slice_start, slice_end. simpl. unfold span_start, span_end. fold C. nia.
  - intros i si sj [Hi ->]%lookup_closed [Hj ->]%lookup_closed; try done.
    apply Hlast in Hj. unfold slice_start, slice_end. simpl.
    unfold span_start, span_end. fold C. lia.
  - pose proof (spans_concat M df HM pages 0 ltac:(fold C pages; lia)) as H.
    fold C pages in H. rewrite H. simpl. f_equal. lia.
  - apply Forall_forall. intros s Hs.
    apply list_elem_of_lookup in Hs as [k [Hk ->]%lookup_closed]; done.
  - pose proof (columns_concat M df HM pages 0 ltac:(fold C pages; lia)) as H.
    fold C pages in H. rewrite H.
    replace (Z.to_nat (Z.of_nat 0 * M)) with 0%nat by lia. rewrite drop_0.
    apply take_ge. unfold C, n_columns in *. lia.
  - apply Forall_forall. intros s Hs.
    apply list_elem_of_lookup in Hs as [k [Hk ->]%lookup_closed]; done.
  - apply Forall_forall. intros s Hs i.
    apply list_elem_of_lookup in Hs as [k [Hk ->]%lookup_closed]; try done.
    unfold row_values, slice_df, slice_start, slice_end, columns_at. simpl.
    by rewrite skipn_map, firstn_map.
Qed.

(** The slices of a rectangular table are rectangular, with as many rows. *)
Lemma slices_well_formed (M : Z) (df : DataFrame) (fuel : nat) (slices : list Slice) :
  1 <= M -> well_formed df -> (length (df_columns df) < fuel)%nat ->
  slice_dataframe fuel {| max_columns_per_page := M |} df = Some slices ->
  Forall (fun s => well_formed (slice_df s) /\
                   length (df_index (slice_df s)) = length (df_index df)) slices.
Proof.
  intros HM Hwf Hf Hrun.
  rewrite slice_dataframe_closed in Hrun;
    [|done|pose proof (pages_le_columns M df HM); lia].
  injection Hrun as <-. apply Forall_forall. intros s Hs.
  apply list_elem_of_lookup in Hs as [k [Hk ->]%lookup_closed]; try done.
  split; [|done]. unfold well_formed, slice_df, columns_at. simpl.
  by apply Forall_take, Forall_drop.
Qed.

Lemma slice_dataframe_terminates_witness :
  1 <= 12 /\
  exists slices, forall fuel : nat,
    (length (df_columns (Demo.wide_frame 25)) < fuel)%nat ->
    slice_dataframe fuel {| max_columns_per_page := 12 |} (Demo.wide_frame 25)
    = Some slices.
Proof.
  split; [lia|].
  destruct (slice_dataframe_terminates 12 (Demo.wide_frame 25) ltac:(lia))
    as (_ & _ & H).
  exact H.
Defined.

Lemma slice_dataframe_count_and_spans_witness :
  1 <= 12 /\
  exists slices,
    slice_dataframe 26 {| max_columns_per_page := 12 |} (Demo.wide_frame 25)
    = Some slices /\
    is_ceil 25 12 (Z.of_nat (length slices)).
Proof.
  split; [lia|].
  destruct (slice_dataframe_count_and_spans 12 (Demo.wide_frame 25) ltac:(lia))
    as (slices & Hrun & Hceil & _).
  exists slices. split; [apply Hrun; simpl; lia | exact Hceil].
Defined.

Lemma slice_dataframe_partitions_columns_witness :
  1 <= 12 /\
  exists slices,
    slice_dataframe 26 {| max_columns_per_page := 12 |} (Demo.wide_frame 25)
    = Some slices /\
    concat ((fun s => span (slice_start s) (slice_end s)) <$> slices) = seqZ 0 25 /\
    concat ((fun s => df_columns (slice_df s)) <$> slices)
    = df_columns (Demo.wide_frame 25).
Proof.
  split; [lia|].
  destruct (slice_dataframe_partitions_columns 12 (Demo.wide_frame 25) ltac:(lia))
    as (slices & Hrun & _ & _ & _ & Hspans & _ & Hcols & _ & _).
  exists slices. split; [apply Hrun; simpl; lia | split; [exact Hspans | exact Hcols]].
Defined.

(** The scenario of the specification: 25 columns at width 12. *)
Example slice_25_by_12 :
  (fun l : list Slice => (fun s : Slice => (slice_start s, slice_end s)) <$> l)
    <$> slice_dataframe 26 {| max_columns_per_page := 12 |} (Demo.wide_frame 25)
  = Some [(0, 11); (12, 23); (24, 24)].
Proof. reflexivity. Qed.

(** ** The slicing plan *)

(** For [M >= 1] the plan has [ceil(C/M)] pages, and its last-page count is
    the remainder [C mod M], or [M] when the remainder is zero, whatever
    [C] is. *)
Lemma get_slice_info_plan (M : Z) (df : DataFrame) :
  1 <= M ->
  exists info,
    get_slice_info {| max_columns_per_page := M |} df = Ok info /\
    total_columns info = n_columns df /\
    info_max_columns_per_page info = M /\
    is_ceil (n_columns df) M (num_pages info) /\
    last_page_columns info
    = (if n_columns df mod M =? 0 then M else n_columns df mod M).
Proof.
  intros HM. unfold get_slice_info, floordiv, pymod. simpl.
  destruct (Z.eqb_spec M 0); [lia|]. simpl. eexists. split; [reflexivity|].
  simpl. fold (n_columns df). repeat split; try done.
  - pose proof (pages_ceil M df HM) as [H1 H2].
    rewrite Z2Nat.id in H1 by (apply Z.div_pos; unfold n_columns; lia). lia.
  - pose proof (pages_ceil M df HM) as [H1 H2].
    rewrite Z2Nat.id in H2 by (apply Z.div_pos; unfold n_columns; lia). lia.
Qed.

(** On a table with columns the last-page count of the plan is the width
    of the last slice. *)
Lemma last_page_columns_is_last_slice (M : Z) (df : DataFrame) (info : SliceInfo)
    (slices : list Slice) (s : Slice) :
  1 <= M ->
  get_slice_info {| max_columns_per_page := M |} df = Ok info ->
  slice_dataframe (S (length (df_columns df))) {| max_columns_per_page := M |} df
  = Some slices ->
  last slices = Some s ->
  last_page_columns info = slice_end s - slice_start s + 1.
Proof.
  intros HM Hinfo Hrun Hlast.
  destruct (get_slice_info_plan M df HM) as (info' & Hi & _ & _ & _ & Hl).
  rewrite Hinfo in Hi. inversion Hi; subst info'. rewrite Hl. clear Hi Hl Hinfo.
  rewrite slice_dataframe_closed in Hrun; [|done|pose proof (pages_le_columns M df HM); lia].
  inversion Hrun; subst slices. clear Hrun.
  pose proof (pages_ceil M df HM) as [H1 H2].
  set (C := n_columns df) in *. set (p := Z.to_nat ((C + M - 1) / M)) in *.
  rewrite last_lookup, length_fmap, length_seq in Hlast.
  apply lookup_closed in Hlast as [Hp ->]; try done. fold C p in Hp.
  unfold slice_start, slice_end. simpl. unfold span_start, span_end. fold C.
  assert (Z.of_nat (Nat.pred p) = Z.of_nat p - 1) as -> by lia.
  assert (0 <= C) by (unfold C, n_columns; lia).
  destruct (Z.eqb_spec (C mod M) 0) as [Hz|Hz].
  - apply Z.mod_divide in Hz as [q Hq]; [|lia]. clearbody C p.
    assert (q = Z.of_nat p) by nia. subst q. nia.
  - pose proof (Z.div_mod C M ltac:(lia)). pose proof (Z.mod_pos_bound C M ltac:(lia)).
    clearbody C p.
    assert (C / M = Z.of_nat p - 1) by nia. nia.
Qed.

(** C3 (the code departs from the claim on a table without columns): for
    every page width [M >= 1] and every table with no column,
    [get_slice_info] reports no page and a last page of [M] columns, where
    the claim has 0. *)
Theorem get_slice_info_empty_table (M : Z) (df : DataFrame)
    (HM : 1 <= M) (HC : df_columns df = []) :
  get_slice_info {| max_columns_per_page := M |} df
  = Ok {| total_columns := 0; info_max_columns_per_page := M;
          num_pages := 0; last_page_columns := M |} /\
  slice_dataframe 1 {| max_columns_per_page := M |} df = Some [].
Proof.
  unfold get_slice_info, slice_dataframe, floordiv, pymod. rewrite HC. simpl.
  destruct (Z.eqb_spec M 0) as [?|_]; [lia|]. simpl.
  replace (0 + M - 1) with (M - 1) by lia.
  rewrite Z.div_small, Z.mod_0_l by lia. done.
Qed.

Lemma get_slice_info_empty_table_witness :
  1 <= 12 /\ df_columns Demo.empty_frame = [] /\
  last_page_columns
    <$> (match get_slice_info {| max_columns_per_page := 12 |} Demo.empty_frame with
         | Ok info => Some info
         | Raise _ => None
         end)
  = Some 12.
Proof.
  split; [lia|]. split; [reflexivity|].
  destruct (get_slice_info_empty_table 12 Demo.empty_frame ltac:(lia) eq_refl)
    as [-> _].
  reflexivity.
Defined.

(** ** The cell formatter *)

Lemma format_cell_missing (value : Cell) :
  isna value = true -> MarkdownExporter._format_cell value = Ok "".
Proof. intros H. unfold MarkdownExporter._format_cell. by rewrite H. Qed.

(** The scenario of the specification. *)
Example format_cell_1234 :
  MarkdownExporter._format_cell (VFloat Demo.f1234_0) = Ok "1234" /\
  MarkdownExporter._format_cell (VFloat Demo.f1234_5) = Ok "1234.50".
Proof. split; reflexivity. Qed.

Import CellSpec.

Lemma uint_text_has_no_point (d : Decimal.uint) :
  "."%char ∉ list_ascii_of_string (NilEmpty.string_of_uint d).
Proof.
  induction d; simpl; rewrite ?not_elem_of_cons;
    try (split; [discriminate | assumption]).
  apply not_elem_of_nil.
Qed.

(** The text of an integer has no decimal point. *)
Lemma str_int_has_no_point (n : Z) : "."%char ∉ list_ascii_of_string (str_int n).
Proof.
  unfold str_int. destruct (Z.to_int n) as [d|d]; simpl.
  - apply uint_text_has_no_point.
  - rewrite not_elem_of_cons. split; [discriminate | apply uint_text_has_no_point].
Qed.

(** Rounding to nearest: the result is within half a unit, and even on a
    tie. *)
Lemma round_half_even_nearest (n d : Z) :
  0 <= n -> 0 < d ->
  let q := round_half_even n d in
  0 <= q /\ Z.abs (2 * (n - q * d)) <= d /\
  (Z.abs (2 * (n - q * d)) = d -> Z.even q = true).
Proof.
  intros Hn Hd q. subst q. unfold round_half_even.
  pose proof (Z.div_mod n d ltac:(lia)) as Hdm.
  pose proof (Z.mod_pos_bound n d Hd) as Hr.
  assert (0 <= n / d) as Hq by (apply Z.div_pos; lia).
  set (q := n / d) in *. set (r := n mod d) in *. clearbody q r.
  destruct (Z.ltb_spec (2 * r) d); [split; [lia|split; [nia|nia]]|].
  destruct (Z.ltb_spec d (2 * r)); [split; [lia|split; [nia|nia]]|].
  destruct (Z.even q) eqn:He.
  - split; [lia|split; [nia|done]].
  - split; [lia|split; [nia|]]. intros _.
    rewrite Z.even_add, He. reflexivity.
Qed.

(** A number below one hundred is written with exactly two characters. *)
Lemma two_digits_length (n : Z) :
  0 <= n < 100 -> String.length (two_digits n) = 2%nat.
Proof.
  intros Hn.
  assert (forallb (fun k => Nat.eqb (String.length (two_digits k)) 2) (seqZ 0 100)
          = true) as Hall by (vm_compute; reflexivity).
  rewrite forallb_forall in Hall.
  apply Nat.eqb_eq, Hall, list_elem_of_In, elem_of_seqZ. lia.
Qed.

(** A finite float whose value is the integer [n] is rendered as the text
    of [n]. *)
Lemma format_cell_integral (s : bool) (m : positive) (e n : Z) :
  finite_is_int s m e n ->
  MarkdownExporter._format_cell (VFloat (S754_finite s m e)) = Ok (str_int n).
Proof.
  unfold finite_is_int, MarkdownExporter._format_cell. cbn [isna float_to_int rbind float_ne_int].
  destruct (Z.leb_spec 0 e) as [He|He]; intros Hn.
  - assert ((if s then - (Z.pos m * 2 ^ e) else Z.pos m * 2 ^ e) = n) as ->
      by (destruct s; lia).
    assert (((if s then Z.neg m else Z.pos m) * 2 ^ e =? n) = true) as ->
      by (apply Z.eqb_eq; lia).
    reflexivity.
  - assert (0 < 2 ^ (- e)) as Hd by (apply Z.pow_pos_nonneg; lia).
    assert ((if s then - (Z.pos m / 2 ^ (- e)) else Z.pos m / 2 ^ (- e)) = n) as ->.
    { destruct s.
      - assert (Z.pos m = (- n) * 2 ^ (- e)) as -> by lia.
        rewrite Z.div_mul by lia. lia.
      - rewrite Hn, Z.div_mul by lia. reflexivity. }
    assert (((if s then Z.neg m else Z.pos m) =? n * 2 ^ (- e)) = true) as ->
      by (apply Z.eqb_eq; lia).
    reflexivity.
Qed.

(** A finite float that is not an integer is rendered in fixed notation:
    the sign, the integer part, a point and two digits, the hundredths [q]
    being the nearest to the exact value, the even one on a tie. *)
Lemma format_cell_fractional (s : bool) (m : positive) (e : Z) :
  e < 0 -> Z.pos m mod 2 ^ (- e) <> 0 ->
  exists q : Z,
    MarkdownExporter._format_cell (VFloat (S754_finite s m e))
    = Ok (sign_text s +:+ str_int (q / 100) +:+ "." +:+ two_digits (q mod 100)) /\
    0 <= q /\
    Z.abs (2 * (100 * Z.pos m - q * 2 ^ (- e))) <= 2 ^ (- e) /\
    (Z.abs (2 * (100 * Z.pos m - q * 2 ^ (- e))) = 2 ^ (- e) -> Z.even q = true) /\
    String.length (two_digits (q mod 100)) = 2%nat.
Proof.
  intros He Hfrac.
  assert (0 < 2 ^ (- e)) as Hd by (apply Z.pow_pos_nonneg; lia).
  exists (round_half_even (100 * Z.pos m) (2 ^ (- e))).
  destruct (round_half_even_nearest (100 * Z.pos m) (2 ^ (- e)) ltac:(lia) Hd)
    as (Hq & Hnear & Htie).
  split; [|split; [done|split; [done|split; [done|]]]].
  - unfold MarkdownExporter._format_cell. cbn [isna float_to_int rbind float_ne_int format_2f].
    destruct (Z.leb_spec 0 e) as [?|_]; [lia|].
    pose proof (Z.div_mod (Z.pos m) (2 ^ (- e)) ltac:(lia)) as Hdm.
    assert (((if s then Z.neg m else Z.pos m)
             =? (if s then - (Z.pos m / 2 ^ (- e)) else Z.pos m / 2 ^ (- e)) * 2 ^ (- e))
            = false) as ->.
    { apply Z.eqb_neq. destruct s; lia. }
    reflexivity.
  - apply two_digits_length. apply Z.mod_pos_bound. lia.
Qed.

(** Every other scalar is rendered by [str]. *)
Lemma format_cell_other (value : Cell) :
  isna value = false -> (forall f, value <> VFloat f) ->
  MarkdownExporter._format_cell value
  = Ok (match value with
        | VInt n => str_int n
        | VBool b => str_bool b
        | VStr s | VObj s => s
        | _ => ""
        end).
Proof.
  intros Hna Hf. unfold MarkdownExporter._format_cell. rewrite Hna.
  destruct value; try done. by destruct (Hf f).
Qed.

(** Both infinities raise. *)
Lemma format_cell_infinite (s : bool) :
  exists e, MarkdownExporter._format_cell (VFloat (S754_infinity s)) = Raise e.
Proof. by eexists. Qed.

(** C4 (the code departs from the claim on infinite floats): positive
    infinity is a cell value that is neither missing nor integral nor
    fractional, and [_format_cell] raises [OverflowError] on it, at
    [int(value)], where the claim has every cell value rendered. *)
Theorem format_cell_infinity_raises :
  isna (VFloat Demo.inf) = false /\
  MarkdownExporter._format_cell (VFloat Demo.inf)
  = Raise (Exn OverflowError "cannot convert float infinity to integer").
Proof. split; reflexivity. Qed.

(** C5: the formatter of the Markdown path and the formatter of the HTML
    path return the same text, or raise the same exception, on every cell
    value. *)
Theorem format_cell_paths_agree (value : Cell) :
  MarkdownExporter._format_cell value = HTMLRenderer._format_cell value.
Proof.
  unfold MarkdownExporter._format_cell, HTMLRenderer._format_cell.
  destruct (isna value); [reflexivity|].
  destruct value as [| | |f| | | |]; reflexivity.
Qed.

(** ** The Markdown page *)

Lemma append_cons (x : ascii) (a b : string) :
  String x a +:+ b = String x (a +:+ b).
Proof. reflexivity. Qed.

Lemma append_assoc (a b c : string) : (a +:+ b) +:+ c = a +:+ b +:+ c.
Proof.
  induction a as [|x a IH]; [done|]. rewrite !append_cons. by f_equal.
Qed.

Lemma append_empty_r (a : string) : a +:+ "" = a.
Proof.
  induction a as [|x a IH]; [done|]. rewrite append_cons. by f_equal.
Qed.

Lemma string_of_list_ascii_app (l1 l2 : list ascii) :
  string_of_list_ascii (l1 ++ l2)
  = string_of_list_ascii l1 +:+ string_of_list_ascii l2.
Proof.
  induction l1 as [|x l1 IH]; [done|]. simpl. rewrite append_cons. by f_equal.
Qed.

(** [replace('|', '\\|')] is the escaping of the specification. *)
Lemma replace_pipe_escape (s : string) : replace_pipe s = MarkdownSpec.escape s.
Proof.
  unfold MarkdownSpec.escape. induction s as [|c s IH]; [done|].
  simpl. rewrite string_of_list_ascii_app, <- IH.
  destruct (Ascii.eqb c "|"); reflexivity.
Qed.

Lemma map_replace_pipe (l : list string) :
  map replace_pipe l = MarkdownSpec.escape <$> l.
Proof.
  induction l as [|x l IH]; [done|]. simpl. by rewrite IH, replace_pipe_escape.
Qed.

(** In an escaped text every pipe stands right after a backslash. *)
Lemma escape_guards_pipes (s : string) (i : nat) :
  list_ascii_of_string (MarkdownSpec.escape s) !! i = Some "|"%char ->
  exists j, i = S j /\ list_ascii_of_string (MarkdownSpec.escape s) !! j = Some "\"%char.
Proof.
  unfold MarkdownSpec.escape. rewrite list_ascii_of_string_of_list_ascii.
  revert i. induction s as [|c s IH]; intros i; [done|]. simpl.
  destruct (Ascii.eqb_spec c "|") as [->|Hc]; simpl.
  - destruct i as [|[|i]]; simpl.
    + intros [=].
    + intros _. by exists 0%nat.
    + intros (j & -> & Hj)%IH. by exists (S (S j)).
  - destruct i as [|i]; simpl.
    + intros [=]. congruence.
    + intros (j & -> & Hj)%IH. by exists (S j).
Qed.

Lemma rmap_cons_Ok {A B} (f : A -> result B) (x : A) (l : list A) (ys : list B) :
  rmap f (x :: l) = Ok ys ->
  exists y ys', f x = Ok y /\ rmap f l = Ok ys' /\ ys = y :: ys'.
Proof.
  simpl. destruct (f x) as [y|e]; simpl; [|discriminate].
  destruct (rmap f l) as [ys'|e]; simpl; [|discriminate].
  intros [= <-]. by exists y, ys'.
Qed.

Section MarkdownPage.

Import MarkdownExporter MarkdownSpec.

Variable include_index : bool.

Let prefix (idx : Label) : list string :=
  if include_index then [str_label idx] else [].

(** The loop over the rows: when every cell formats, the lines of the rows
    are appended in order. *)
Lemma rows_fold (items : list (Label * list Cell)) :
  forall (acc : string) (cells : list (list string)),
    rmap (rmap _format_cell) (snd <$> items) = Ok cells ->
    fold_left
      (fun (acc : result string) '(idx, row) =>
         let! markdown := acc in
         let! cells := rmap _format_cell row in
         let row_data := if include_index then str_label idx :: cells else cells in
         let row_data := map replace_pipe row_data in
         Ok (markdown +:+ "| " +:+ String.concat " | " row_data +:+ " |" +:+ LF))
      items (Ok acc)
    = Ok (acc +:+ String.concat ""
            (table_line <$> zip_with (fun idx row => prefix idx ++ row)
                              (fst <$> items) cells)).
Proof.
  induction items as [|[idx row] items IH]; intros acc cells Hc.
  - simpl in *. by rewrite append_empty_r.
  - apply rmap_cons_Ok in Hc as (r & rs & Hr & Hrs & ->). simpl in Hr.
    cbn [fold_left rbind]. rewrite Hr. cbn [rbind].
    rewrite (IH _ rs Hrs). f_equal. rewrite append_assoc. f_equal.
    cbn [fmap list_fmap zip_with fst].
    assert (forall (x : string) (l : list string),
              String.concat "" (x :: l) = x +:+ String.concat "" l) as Hcat.
    { intros x [|y l]; [symmetry; apply append_empty_r | reflexivity]. }
    rewrite Hcat. f_equal. unfold table_line, prefix.
    rewrite map_replace_pipe. by destruct include_index.
Qed.

Lemma iterrows_fst (df : DataFrame) : fst <$> iterrows df = df_index df.
Proof.
  unfold iterrows. apply list_eq. intros i.
  rewrite list_lookup_fmap, list_lookup_imap. by destruct (df_index df !! i).
Qed.

Lemma manual_conversion_table (df : DataFrame) (cells : list (list string)) :
  rmap (rmap _format_cell) (snd <$> iterrows df) = Ok cells ->
  _manual_markdown_conversion df include_index
  = Ok (table (header_texts df include_index) (row_texts df include_index cells)).
Proof.
  intros Hc. unfold _manual_markdown_conversion.
  rewrite (rows_fold _ _ cells Hc), iterrows_fst. f_equal.
  unfold table, header_line, table_line, separator_line, row_texts, header_texts.
  rewrite !append_assoc. rewrite map_replace_pipe.
  assert (forall l : list string, map (fun _ => "---") l = replicate (length l) "---") as Hrep.
  { induction l as [|x l IH]; simpl; [done | by rewrite IH]. }
  rewrite Hrep, length_fmap.
  destruct include_index; simpl; reflexivity.
Qed.

End MarkdownPage.

Import MarkdownSpec.

(** With the built-in [to_markdown] of a current pandas the table of the
    page is the built-in's: the missing value of [Demo.nan_frame] shows as
    [nan] and the pipe of its header is not escaped. *)
Lemma dataframe_to_markdown_builtin_counterexample :
  ~ (forall (str_format : string -> Z -> Z -> Z -> result string)
            (to_markdown : DataFrame -> bool -> result string)
            (config : Config) (df : DataFrame) (page_num start_col end_col : Z)
            (include_index : bool) (label : string) (cells : list (list string)),
       str_format (label_template config) page_num start_col end_col = Ok label ->
       rmap (rmap MarkdownExporter._format_cell) (snd <$> iterrows df) = Ok cells ->
       MarkdownExporter.dataframe_to_markdown str_format to_markdown config df
         page_num start_col end_col include_index
       = Ok (page_of label page_num start_col end_col df include_index cells)).
Proof.
  intros H.
  specialize (H Demo.str_format Demo.new_pandas empty_config Demo.nan_frame 1 0 0
                false "Page 1 – Columns 0-0" [[""]] eq_refl eq_refl).
  vm_compute in H. discriminate H.
Qed.

(** C6 (amended): the page is the heading made from the label template, the
    metadata line, a rule, the table and a trailing rule. The table is what
    the pandas built-in [to_markdown] returns when there is one; when the
    built-in is missing ([AttributeError]) it is the header row, the
    separator row and one row per table row, every cell rendered by the
    cell formatter and every pipe of a header or cell escaped, and a slice
    without rows gets the header and separator rows alone. *)
Theorem dataframe_to_markdown_page
    (str_format : string -> Z -> Z -> Z -> result string)
    (to_markdown : DataFrame -> bool -> result string)
    (config : Config) (df : DataFrame) (page_num start_col end_col : Z)
    (include_index : bool) (label : string)
    (Hlabel : str_format (label_template config) page_num start_col end_col
              = Ok label) :
  let rendered :=
    MarkdownExporter.dataframe_to_markdown str_format to_markdown config df
      page_num start_col end_col include_index in
  match to_markdown df include_index with
  | Ok table_md =>
      rendered = Ok (page_around label page_num start_col end_col table_md)
  | Raise (Exn AttributeError _) =>
      (forall cells : list (list string),
         rmap (rmap MarkdownExporter._format_cell) (snd <$> iterrows df) = Ok cells ->
         rendered
         = Ok (page_of label page_num start_col end_col df include_index cells)) /\
      (df_index df = [] ->
       rendered
       = Ok (page_around label page_num start_col end_col
               (header_line (header_texts df include_index)
                  +:+ separator_line (length (header_texts df include_index)))))
  | Raise e => rendered = Raise e
  end.
Proof.
  intros rendered. subst rendered. unfold MarkdownExporter.dataframe_to_markdown.
  unfold label_template in Hlabel. rewrite Hlabel. cbn [rbind].
  assert (forall table_md : string,
            ((("# " +:+ label +:+ LF +:+ LF)
                +:+ "**Page:** " +:+ str_int page_num +:+ " | **Columns:** "
                +:+ str_int start_col +:+ " to " +:+ str_int end_col +:+ LF +:+ LF)
               +:+ "---" +:+ LF +:+ LF) +:+ table_md
            = ((heading label +:+ metadata_line page_num start_col end_col) +:+ rule)
                +:+ table_md) as Hhead by reflexivity.
  assert (forall table_md : string,
            Ok ((((heading label +:+ metadata_line page_num start_col end_col) +:+ rule)
                   +:+ table_md) +:+ LF +:+ LF +:+ "---" +:+ LF +:+ LF)
            = Ok (page_around label page_num start_col end_col table_md)) as Hpage.
  { intros table_md. unfold page_around. by rewrite !append_assoc. }
  destruct (to_markdown df include_index) as [table_md|[[] msg]] eqn:Hbuiltin;
    cbn [rbind]; try reflexivity.
  - rewrite Hhead. apply Hpage.
  - split.
    + intros cells Hcells.
      rewrite (manual_conversion_table include_index df cells Hcells).
      cbn [rbind]. rewrite Hhead. apply Hpage.
    + intros Hrows.
      assert (iterrows df = []) as Hit by (unfold iterrows; by rewrite Hrows).
      rewrite (manual_conversion_table include_index df []) by (by rewrite Hit).
      cbn [rbind]. rewrite Hhead, Hpage. unfold page_of, table, row_texts.
      rewrite Hrows. simpl. by rewrite append_empty_r.
Qed.

Lemma dataframe_to_markdown_page_witness :
  Demo.str_format (label_template empty_config) 1 0 1 = Ok "Page 1 – Columns 0-1" /\
  MarkdownExporter.dataframe_to_markdown Demo.str_format Demo.old_pandas empty_config
    (Demo.wide_frame 2) 1 0 1 false
  = Ok (page_of "Page 1 – Columns 0-1" 1 0 1 (Demo.wide_frame 2) false
          [["0"; "1"]; ["x|y"; "x|y"]]).
Proof.
  split; [reflexivity|].
  apply (dataframe_to_markdown_page Demo.str_format Demo.old_pandas empty_config
           (Demo.wide_frame 2) 1 0 1 false "Page 1 – Columns 0-1" eq_refl).
  reflexivity.
Defined.

(** ** Combining the artifacts *)

Import CombinerSpec.

Lemma exists_lookup {A} (fs : FS.t A) (p : string) :
  FS.exists_ fs p = match FS.files fs !! p with Some _ => true | None => false end.
Proof.
  unfold FS.exists_. destruct (FS.files fs !! p) as [n|] eqn:Hp.
  - apply bool_decide_eq_true. by eexists.
  - apply bool_decide_eq_false. by intros [n Hn].
Qed.

Lemma concat_lines_cons (x : string) (l : list string) :
  String.concat "" (x :: l) = x +:+ String.concat "" l.
Proof. destruct l; [symmetry; apply append_empty_r | reflexivity]. Qed.

Lemma combine_markdown_step (fs : FS.t string) (acc : string) (log : Log) (p : string) :
  MarkdownExporter.combine_step fs (acc, log) p
  = match FS.files fs !! p with
    | Some (File c) =>
        (acc +:+ universal_newlines c +:+ LF +:+ LF,
         log ++ [(DEBUG, "Added to combined file: " +:+ p)])
    | Some Unreadable =>
        (acc, log ++ [(ERROR, "Error reading Markdown file " +:+ p +:+ ": "
                                +:+ "cannot read file")])
    | None => (acc, log ++ [(WARNING, "Markdown file not found: " +:+ p)])
    end.
Proof.
  unfold MarkdownExporter.combine_step, read_text, FS.read. rewrite exists_lookup.
  by destruct (FS.files fs !! p) as [[c|]|].
Qed.

Lemma combine_pdfs_step (fs : FS.t Pdf) (acc : Pdf) (log : Log) (p : string) :
  PDFExporter.combine_step fs (acc, log) p
  = match FS.files fs !! p with
    | Some (File c) => (acc ++ c, log ++ [(DEBUG, "Added to merger: " +:+ p)])
    | Some Unreadable =>
        (acc, log ++ [(ERROR, "Error adding PDF " +:+ p +:+ ": " +:+ "cannot read file")])
    | None => (acc, log ++ [(WARNING, "PDF file not found: " +:+ p)])
    end.
Proof.
  unfold PDFExporter.combine_step, FS.read. rewrite exists_lookup.
  by destruct (FS.files fs !! p) as [[c|]|].
Qed.

(** The loop of [combine_markdown_files] appends the readable artifacts,
    as they are read, in the order of the paths, keeps what has been
    logged and logs a warning for every missing path. *)
Lemma combine_markdown_fold (fs : FS.t string) (paths : list string) :
  forall (acc : string) (log : Log),
  exists log',
    fold_left (MarkdownExporter.combine_step fs) paths (acc, log)
    = (acc +:+ String.concat ""
                 ((fun c => c +:+ LF +:+ LF)
                    <$> (universal_newlines <$> available fs paths)),
       log ++ log') /\
    forall p, p ∈ paths -> FS.files fs !! p = None ->
      (WARNING, "Markdown file not found: " +:+ p) ∈ log'.
Proof.
  induction paths as [|p paths IH]; intros acc log.
  - exists []. simpl. rewrite append_empty_r, app_nil_r. split; [done|].
    intros p Hp. by apply elem_of_nil in Hp.
  - cbn [fold_left]. rewrite combine_markdown_step.
    unfold available. cbn [omap list_omap].
    destruct (FS.files fs !! p) as [[c|]|] eqn:Hp.
    + destruct (IH (acc +:+ universal_newlines c +:+ LF +:+ LF)
                  (log ++ [(DEBUG, "Added to combined file: " +:+ p)]))
        as (log' & Heq & Hw).
      exists ((DEBUG, "Added to combined file: " +:+ p) :: log').
      rewrite Heq, <- app_assoc. split.
      * f_equal. cbn [fmap list_fmap]. fold (available fs paths).
        rewrite concat_lines_cons. by rewrite !append_assoc.
      * intros q [->|Hq]%elem_of_cons Hnone; [congruence|].
        apply elem_of_cons. right. by apply Hw.
    + destruct (IH acc (log ++ [(ERROR, "Error reading Markdown file " +:+ p +:+ ": "
                                          +:+ "cannot read file")]))
        as (log' & Heq & Hw).
      eexists (_ :: log'). rewrite Heq, <- app_assoc. split; [reflexivity|].
      intros q [->|Hq]%elem_of_cons Hnone; [congruence|].
      apply elem_of_cons. right. by apply Hw.
    + destruct (IH acc (log ++ [(WARNING, "Markdown file not found: " +:+ p)]))
        as (log' & Heq & Hw).
      eexists (_ :: log'). rewrite Heq, <- app_assoc. split; [reflexivity|].
      intros q [->|Hq]%elem_of_cons Hnone.
      * apply elem_of_cons. by left.
      * apply elem_of_cons. right. by apply Hw.
Qed.

Lemma combine_pdfs_fold (fs : FS.t Pdf) (paths : list string) :
  forall (acc : Pdf) (log : Log),
  exists log',
    fold_left (PDFExporter.combine_step fs) paths (acc, log)
    = (acc ++ concat (available fs paths), log ++ log') /\
    forall p, p ∈ paths -> FS.files fs !! p = None ->
      (WARNING, "PDF file not found: " +:+ p) ∈ log'.
Proof.
  induction paths as [|p paths IH]; intros acc log.
  - exists []. simpl. rewrite !app_nil_r. split; [done|].
    intros p Hp. by apply elem_of_nil in Hp.
  - cbn [fold_left]. rewrite combine_pdfs_step.
    unfold available. cbn [omap list_omap].
    destruct (FS.files fs !! p) as [[c|]|] eqn:Hp.
    + destruct (IH (acc ++ c) (log ++ [(DEBUG, "Added to merger: " +:+ p)]))
        as (log' & Heq & Hw).
      eexists (_ :: log'). rewrite Heq, <- !app_assoc. split; [reflexivity|].
      intros q [->|Hq]%elem_of_cons Hnone; [congruence|].
      apply elem_of_cons. right. by apply Hw.
    + destruct (IH acc (log ++ [(ERROR, "Error adding PDF " +:+ p +:+ ": "
                                          +:+ "cannot read file")]))
        as (log' & Heq & Hw).
      eexists (_ :: log'). rewrite Heq, <- app_assoc. split; [reflexivity|].
      intros q [->|Hq]%elem_of_cons Hnone; [congruence|].
      apply elem_of_cons. right. by apply Hw.
    + destruct (IH acc (log ++ [(WARNING, "PDF file not found: " +:+ p)]))
        as (log' & Heq & Hw).
      eexists (_ :: log'). rewrite Heq, <- app_assoc. split; [reflexivity|].
      intros q [->|Hq]%elem_of_cons Hnone.
      * apply elem_of_cons. by left.
      * apply elem_of_cons. right. by apply Hw.
Qed.





(** The scenario of the specification: the second of three pages is
    missing. *)
Example combine_three_pages_one_missing :
  combined_markdown 3 (universal_newlines <$> available Demo.md_fs (Demo.pages3 ".md"))
  = banner 3 +:+ "one" +:+ LF +:+ LF +:+ "three" +:+ LF +:+ LF /\
  combined_pdf (available Demo.pdf_fs (Demo.pages3 ".pdf")) = ["p1"; "p3a"; "p3b"].
Proof. split; reflexivity. Qed.


(** What the code does there: the run succeeds with the first and the
    third page, and an error record for the second. *)
Example combine_three_pages_one_unreadable :
  exists log,
    MarkdownExporter.combine_markdown_files (Demo.pages3 ".md") "out/combined_output"
      Demo.damaged_md
    = (true,
       FS.Make (<["out/combined_output" :=
                    File (banner 3 +:+ "one" +:+ LF +:+ LF +:+ "three" +:+ LF +:+ LF)]>
                  (FS.files Demo.damaged_md)) ∅,
       log) /\
    (ERROR, "Error reading Markdown file out/page_2.md: cannot read file") ∈ log.
Proof.
  eexists. split; [reflexivity|]. cbn. rewrite !elem_of_cons. auto 10.
Qed.

(** A path that cannot be written is what makes combining fail. *)
Lemma combine_markdown_unwritable (paths : list string) (output_path : string)
    (fs : FS.t string) :
  output_path ∈ FS.readonly fs ->
  (MarkdownExporter.combine_markdown_files paths output_path fs).1 = (false, fs).
Proof.
  intros Hro. unfold MarkdownExporter.combine_markdown_files.
  match goal with
  | |- context [fold_left _ paths (?acc, ?log)] =>
      destruct (combine_markdown_fold fs paths acc log) as (log' & -> & _)
  end.
  unfold FS.write. by rewrite bool_decide_eq_true_2.
Qed.

(** ** The pipeline *)

Section Pipeline.

Import ExcelToPDFPipeline PipelineSpec.

Variable pd_read_excel : string -> option string -> result DataFrame.
Variable Template : Type.
Variable str_format : string -> Z -> Z -> Z -> result string.
Variable get_template : string -> string -> result Template.
Variable render : Template -> Config -> HTMLRenderer.TemplateArgs -> result string.
Variable write_pdf : string -> bool -> string -> FS.t Pdf -> result unit * FS.t Pdf.

Let page_step := page_step Template str_format get_template render write_pdf.
Let page_outcomes := page_outcomes Template str_format get_template render write_pdf.
Let fs_after_pages := fs_after_pages Template str_format get_template render write_pdf.
Let process := process pd_read_excel Template str_format get_template render write_pdf.

(** The page loop keeps the paths of the slices that succeeded, in order,
    and goes through every slice. *)
Lemma page_loop_fold (self : t) (items : list (Z * Slice)) :
  forall (pdf_paths : list string) (fs : FS.t Pdf),
    fold_left (page_step self) items (pdf_paths, fs)
    = (pdf_paths ++ successes (page_outcomes self items fs),
       fs_after_pages self items fs).
Proof.
  induction items as [|[idx s] items IH]; intros pdf_paths fs.
  - simpl. by rewrite app_nil_r.
  - cbn [fold_left]. unfold page_step at 2, ExcelToPDFPipeline.page_step.
    unfold page_outcomes, fs_after_pages.
    cbn [PipelineSpec.page_outcomes PipelineSpec.fs_after_pages].
    destruct (process_page Template str_format get_template render write_pdf
                self idx s fs) as [[path|e] fs'].
    + fold (page_step self). rewrite IH. unfold successes. cbn [omap list_omap].
      by rewrite <- app_assoc.
    + fold (page_step self). by rewrite IH.
Qed.

Lemma page_outcomes_length (self : t) (items : list (Z * Slice)) :
  forall fs : FS.t Pdf, length (page_outcomes self items fs) = length items.
Proof.
  induction items as [|[idx s] items IH]; intros fs; [done|].
  unfold page_outcomes in *. cbn [PipelineSpec.page_outcomes].
  destruct (process_page Template str_format get_template render write_pdf
              self idx s fs) as [r fs'].
  simpl. by rewrite IH.
Qed.

Lemma enumerate1_length {A} (l : list A) : length (enumerate1 l) = length l.
Proof. unfold enumerate1. apply length_imap. Qed.

(** C8: with a page width of at least 1, a run whose table cannot be read
    returns a failed result carrying the text of the error; otherwise every
    slice is rendered and exported in turn, the slices that fail are left
    out and the others kept in order, and the run returns a successful
    result whose page count is the number of slices that succeeded, with
    no combined document when none did. *)
Theorem process_partial_failure (self : t) (input_file : string)
    (sheet_name : option string) (fs : FS.t Pdf)
    (HM : 1 <= max_columns_per_page (slicer self)) :
  match read_excel pd_read_excel input_file sheet_name with
  | Raise e =>
      forall fuel : nat,
        process fuel self input_file sheet_name fs
        = Some (Failure (exn_str e) input_file, fs)
  | Ok df =>
      exists slices info outcomes combined fs',
        slice_dataframe (S (length (df_columns df))) (slicer self) df = Some slices /\
        get_slice_info (slicer self) df = Ok info /\
        outcomes = page_outcomes self (enumerate1 slices) fs /\
        length outcomes = length slices /\
        (successes outcomes = [] -> combined = None) /\
        forall fuel : nat,
          (length (df_columns df) < fuel)%nat ->
          process fuel self input_file sheet_name fs
          = Some (Success input_file (Z.of_nat (length (successes outcomes)))
                    (successes outcomes) combined info, fs')
  end.
Proof.
  destruct (read_excel pd_read_excel input_file sheet_name) as [df|e] eqn:Hread.
  - destruct (slicer self) as [M] eqn:Hslicer. simpl in HM.
    destruct (get_slice_info_plan M df HM) as (info & Hinfo & _).
    destruct (slice_dataframe_returns M df HM) as (slices & Hslices).
    set (f0 := S (length (df_columns df))).
    assert (exists combined fs',
              (successes (page_outcomes self (enumerate1 slices) fs) = []
               -> combined = None) /\
              process f0 self input_file sheet_name fs
              = Some (Success input_file
                        (Z.of_nat (length (successes
                                             (page_outcomes self (enumerate1 slices) fs))))
                        (successes (page_outcomes self (enumerate1 slices) fs))
                        combined info, fs')) as (combined & fs' & Hnone & Hrun).
    { unfold process, ExcelToPDFPipeline.process.
      rewrite Hread, Hslicer, Hinfo, (Hslices f0) by (unfold f0; lia).
      fold (page_step self). rewrite page_loop_fold. cbn [app].
      destruct (successes (page_outcomes self (enumerate1 slices) fs)) as [|p ps] eqn:Hs.
      - rewrite andb_false_r. do 2 eexists. split; [|reflexivity]. done.
      - change (0 <? Z.of_nat (length (p :: ps))) with true. rewrite andb_true_r.
        destruct (default true (cfg_combine_pdfs (config self))).
        + destruct (PDFExporter.combine_pdfs (p :: ps)
                      (path_join (default "output" (cfg_output_dir (config self)))
                         "combined_output.pdf")
                      (fs_after_pages self (enumerate1 slices) fs))
            as [[success fs2] log].
          destruct success.
          * do 2 eexists. split; [|reflexivity]. done.
          * do 2 eexists. split; [|reflexivity]. done.
        + do 2 eexists. split; [|reflexivity]. done. }
    exists slices, info, (page_outcomes self (enumerate1 slices) fs), combined, fs'.
    split; [apply Hslices; lia|]. split; [done|]. split; [done|].
    split; [by rewrite page_outcomes_length, enumerate1_length|].
    split; [done|]. intros fuel Hf. rewrite <- Hrun.
    unfold process, ExcelToPDFPipeline.process.
    rewrite Hread, Hslicer, Hinfo, (Hslices f0), (Hslices fuel) by (unfold f0; lia).
    reflexivity.
  - intros fuel. unfold process, ExcelToPDFPipeline.process. by rewrite Hread.
Qed.

(** A page width of zero fails the run at the plan, on the division. *)
Lemma process_zero_width (self : t) (input_file : string)
    (sheet_name : option string) (fs : FS.t Pdf) (df : DataFrame) (fuel : nat) :
  max_columns_per_page (slicer self) = 0 ->
  read_excel pd_read_excel input_file sheet_name = Ok df ->
  process fuel self input_file sheet_name fs
  = Some (Failure (exn_str zero_division) input_file, fs).
Proof.
  intros HM Hread. unfold process, ExcelToPDFPipeline.process.
  rewrite Hread. unfold get_slice_info, floordiv. by rewrite HM.
Qed.

(** With a negative page width and a table that has columns the slicing
    loop is entered and the run never returns. *)
Lemma process_negative_width (self : t) (input_file : string)
    (sheet_name : option string) (fs : FS.t Pdf) (df : DataFrame) (fuel : nat) :
  max_columns_per_page (slicer self) < 0 ->
  read_excel pd_read_excel input_file sheet_name = Ok df ->
  df_columns df <> [] ->
  process fuel self input_file sheet_name fs = None.
Proof.
  intros HM Hread Hcols. unfold process, ExcelToPDFPipeline.process.
  rewrite Hread. destruct (slicer self) as [M]. simpl in HM.
  unfold get_slice_info, floordiv, pymod. simpl.
  destruct (Z.eqb_spec M 0) as [?|_]; [lia|]. simpl.
  rewrite slice_dataframe_diverges; [done | lia | done].
Qed.

End Pipeline.

Lemma process_partial_failure_witness :
  1 <= max_columns_per_page (ExcelToPDFPipeline.slicer (Demo.pipeline 1)) /\
  exists combined info fs',
    ExcelToPDFPipeline.process Demo.pd_read_excel unit Demo.str_format
      Demo.get_template Demo.render Demo.write_pdf 4 (Demo.pipeline 1) "book.xlsx"
      None Demo.no_files
    = Some (ExcelToPDFPipeline.Success "book.xlsx" 2
              ["output/page_1.pdf"; "output/page_3.pdf"] combined info, fs').
Proof.
  assert (1 <= max_columns_per_page (ExcelToPDFPipeline.slicer (Demo.pipeline 1)))
    as HM by (simpl; lia).
  split; [exact HM|].
  pose proof (process_partial_failure Demo.pd_read_excel unit Demo.str_format
                Demo.get_template Demo.render Demo.write_pdf (Demo.pipeline 1)
                "book.xlsx" None Demo.no_files HM) as H.
  change (ExcelToPDFPipeline.read_excel Demo.pd_read_excel "book.xlsx" None)
    with (Ok (Demo.wide_frame 3)) in H.
  destruct H as (slices & info & outcomes & combined & fs' & Hs & _ & Ho & _ & _ & Hrun).
  vm_compute in Hs. injection Hs as <-.
  vm_compute in Ho. subst outcomes.
  exists combined, info, fs'. apply (Hrun 4%nat). simpl. lia.
Defined.

(** A table that cannot be read ends the run with a failed result. *)
Example process_unreadable_table :
  ExcelToPDFPipeline.process Demo.pd_read_excel unit Demo.str_format
    Demo.get_template Demo.render Demo.write_pdf 4 (Demo.pipeline 1) "none.xlsx"
    None Demo.no_files
  = Some (ExcelToPDFPipeline.Failure "No such file or directory: none.xlsx"
            "none.xlsx", Demo.no_files).
Proof. reflexivity. Qed.

(** ** Configuration *)

(** With a page width of zero the run fails at the plan, on the division;
    with a negative width and a table that has columns the slicing loop is
    entered and does not end. *)
Lemma process_width_zero (fuel : nat) :
  ExcelToPDFPipeline.process Demo.pd_read_excel unit Demo.str_format
    Demo.get_template Demo.render Demo.write_pdf fuel (Demo.pipeline 0) "book.xlsx"
    None Demo.no_files
  = Some (ExcelToPDFPipeline.Failure "integer division or modulo by zero"
            "book.xlsx", Demo.no_files).
Proof. reflexivity. Qed.

Lemma process_width_negative (fuel : nat) :
  ExcelToPDFPipeline.process Demo.pd_read_excel unit Demo.str_format
    Demo.get_template Demo.render Demo.write_pdf fuel (Demo.pipeline (-1))
    "book.xlsx" None Demo.no_files
  = None.
Proof.
  unfold ExcelToPDFPipeline.process.
  change (ExcelToPDFPipeline.read_excel Demo.pd_read_excel "book.xlsx" None)
    with (Ok (Demo.wide_frame 3)).
  cbv iota beta.
  change (get_slice_info (ExcelToPDFPipeline.slicer (Demo.pipeline (-1)))
            (Demo.wide_frame 3))
    with (Ok {| total_columns := 3; info_max_columns_per_page := -1;
                num_pages := -1; last_page_columns := -1 |}).
  cbv iota beta.
  change (ExcelToPDFPipeline.slicer (Demo.pipeline (-1)))
    with {| max_columns_per_page := -1 |}.
  rewrite slice_dataframe_diverges; [done | lia | done].
Qed.

(** A page width of zero is accepted by the constructor of the slicer. *)
Lemma init_zero_width_counterexample :
  ~ (forall M : Z, M <= 0 -> exists e, ColumnSlicer.__init__ M = Raise e).
Proof.
  intros H. destruct (H 0 ltac:(lia)) as [e He]. discriminate He.
Qed.

(** C9 (amended): the constructor of the slicer stores whatever page width
    it is given, zero and negative widths included, and the constructor of
    the pipeline, when its set-up steps succeed, passes on the width of the
    loaded configuration (12 when the key is absent); neither rejects a
    width. *)
Theorem init_accepts_any_width (M : Z) (config : Config) (config_path : string) :
  ColumnSlicer.__init__ M = Ok {| max_columns_per_page := M |} /\
  ExcelToPDFPipeline.__init__ (fun _ => Ok (Some config)) Demo.fine Demo.fine Demo.fine
    config_path
  = Ok {| ExcelToPDFPipeline.config := config;
          ExcelToPDFPipeline.slicer :=
            {| max_columns_per_page := default 12 (cfg_max_columns_per_page config) |};
          ExcelToPDFPipeline.renderer :=
            {| HTMLRenderer.template_dir := "templates";
               HTMLRenderer.config := config |};
          ExcelToPDFPipeline.exporter :=
            {| PDFExporter.output_dir := default "output" (cfg_output_dir config);
               PDFExporter.config := config |} |}.
Proof. split; reflexivity. Qed.

Example init_demo_pipeline (width : Z) :
  ExcelToPDFPipeline.__init__ (Demo.yaml_load width) Demo.fine Demo.fine Demo.fine
    "config.yaml"
  = Ok (Demo.pipeline width).
Proof. reflexivity. Qed.

(** * Further properties *)

(** ** The slicer *)

(** The number of columns a slice holds. *)
Lemma kth_slice_width (M : Z) (df : DataFrame) (k : nat) :
  1 <= M -> Z.of_nat k * M < n_columns df ->
  Z.of_nat (length (df_columns (slice_df (kth_slice df M k))))
  = Z.min ((Z.of_nat k + 1) * M) (n_columns df) - Z.of_nat k * M.
Proof.
  intros HM Hk. unfold kth_slice, slice_df, columns_at, span_start, span_end.
  simpl. rewrite length_take, length_drop. unfold n_columns in *. lia.
Qed.

Lemma slice_width_bounds (M : Z) (df : DataFrame) (fuel : nat) (slices : list Slice)
    (HM : 1 <= M) (Hf : (length (df_columns df) < fuel)%nat)
    (Hrun : slice_dataframe fuel {| max_columns_per_page := M |} df = Some slices) :
  Forall (fun s => 1 <= Z.of_nat (length (df_columns (slice_df s))) <= M /\
                   Z.of_nat (length (df_columns (slice_df s)))
                   = slice_end s - slice_start s + 1) slices /\
  (forall (i : nat) (s : Slice),
     (S i < length slices)%nat -> slices !! i = Some s ->
     Z.of_nat (length (df_columns (slice_df s))) = M).
Proof.
  rewrite slice_dataframe_closed in Hrun;
    [|done|pose proof (pages_le_columns M df HM); lia].
  injection Hrun as <-.
  assert (forall k : nat, (k < Z.to_nat ((n_columns df + M - 1) / M))%nat
                          <-> Z.of_nat k * M < n_columns df) as Hlast
    by (intros k; apply (before_last M df HM)).
  split.
  - apply Forall_forall. intros s Hs.
    apply list_elem_of_lookup in Hs as [k [Hk ->]%lookup_closed]; try done.
    apply Hlast in Hk. rewrite kth_slice_width by done.
    unfold slice_start, slice_end. simpl. unfold span_start, span_end. lia.
  - intros i s Hi [Hk ->]%lookup_closed; try done.
    rewrite length_fmap, length_seq in Hi.
    assert (Z.of_nat (S i) * M < n_columns df) by (apply Hlast; lia).
    rewrite kth_slice_width by (try done; apply Hlast; lia). lia.
Qed.

(** X1: no slice is empty or wider than the page width, the width of a
    slice is the length of its span, and every slice but the last is
    exactly as wide as the page width. *)
Theorem slice_widths (M : Z) (df : DataFrame) (fuel : nat) (slices : list Slice)
    (HM : 1 <= M) (Hf : (length (df_columns df) < fuel)%nat)
    (Hrun : slice_dataframe fuel {| max_columns_per_page := M |} df = Some slices) :
  Forall (fun s => 1 <= Z.of_nat (length (df_columns (slice_df s))) <= M /\
                   Z.of_nat (length (df_columns (slice_df s)))
                   = slice_end s - slice_start s + 1) slices /\
  (forall (i : nat) (s : Slice),
     (S i < length slices)%nat -> slices !! i = Some s ->
     Z.of_nat (length (df_columns (slice_df s))) = M).
Proof. by apply (slice_width_bounds M df fuel). Qed.

Lemma slice_widths_witness :
  1 <= 12 /\
  Forall (fun s => 1 <= Z.of_nat (length (df_columns (slice_df s))) <= 12 /\
                   Z.of_nat (length (df_columns (slice_df s)))
                   = slice_end s - slice_start s + 1)
    (default [] (slice_dataframe 26 {| max_columns_per_page := 12 |}
                   (Demo.wide_frame 25))).
Proof.
  split; [lia|].
  destruct (slice_dataframe 26 {| max_columns_per_page := 12 |} (Demo.wide_frame 25))
    as [slices|] eqn:Hrun; [|vm_compute in Hrun; discriminate].
  simpl default.
  apply (slice_widths 12 (Demo.wide_frame 25) 26 slices ltac:(lia)
           ltac:(simpl; lia) Hrun).
Defined.

(** X2: the plan and the slicing agree: [num_pages] is the number of slices,
    and on a table with columns [last_page_columns] is the width of the
    last slice. *)
Theorem plan_matches_slices (M : Z) (df : DataFrame) (fuel : nat)
    (slices : list Slice) (info : SliceInfo)
    (HM : 1 <= M) (Hf : (length (df_columns df) < fuel)%nat)
    (Hrun : slice_dataframe fuel {| max_columns_per_page := M |} df = Some slices)
    (Hinfo : get_slice_info {| max_columns_per_page := M |} df = Ok info) :
  num_pages info = Z.of_nat (length slices) /\
  total_columns info = Z.of_nat (length (df_columns df)) /\
  (forall s, last slices = Some s ->
     last_page_columns info = Z.of_nat (length (df_columns (slice_df s)))).
Proof.
  destruct (get_slice_info_plan M df HM) as (info' & Hi & Htot & _ & Hceil & _).
  rewrite Hinfo in Hi. injection Hi as <-.
  pose proof (pages_ceil M df HM) as Hp.
  assert (Hclosed := Hrun).
  rewrite slice_dataframe_closed in Hclosed;
    [|done|pose proof (pages_le_columns M df HM); lia].
  injection Hclosed as Hs.
  assert (length slices = Z.to_nat ((n_columns df + M - 1) / M)) as Hlen
    by (by rewrite <- Hs, length_fmap, length_seq).
  split; [|split; [done|]].
  - rewrite Hlen. unfold is_ceil in *. nia.
  - intros s Hlast.
    assert (slice_dataframe (S (length (df_columns df)))
              {| max_columns_per_page := M |} df = Some slices) as Hrun'.
    { rewrite <- Hs. apply slice_dataframe_closed; [done|].
      pose proof (pages_le_columns M df HM). lia. }
    rewrite (last_page_columns_is_last_slice M df info slices s HM Hinfo Hrun' Hlast).
    destruct (slice_width_bounds M df fuel slices HM Hf Hrun) as [Hall _].
    rewrite Forall_forall in Hall.
    assert (s ∈ slices) as Hin.
    { rewrite last_lookup in Hlast. by apply list_elem_of_lookup_2 in Hlast. }
    destruct (Hall s Hin) as [_ ->]. done.
Qed.

Lemma plan_matches_slices_witness :
  1 <= 12 /\
  num_pages
    <$> (match get_slice_info {| max_columns_per_page := 12 |} (Demo.wide_frame 25) with
         | Ok info => Some info
         | Raise _ => None
         end)
  = Z.of_nat ∘ length
      <$> slice_dataframe 26 {| max_columns_per_page := 12 |} (Demo.wide_frame 25).
Proof.
  split; [lia|].
  destruct (slice_dataframe 26 {| max_columns_per_page := 12 |} (Demo.wide_frame 25))
    as [slices|] eqn:Hrun; [|vm_compute in Hrun; discriminate].
  destruct (get_slice_info {| max_columns_per_page := 12 |} (Demo.wide_frame 25))
    as [info|e] eqn:Hinfo; [|vm_compute in Hinfo; discriminate].
  destruct (plan_matches_slices 12 (Demo.wide_frame 25) 26 slices info ltac:(lia)
              ltac:(simpl; lia) Hrun Hinfo) as [Hn _].
  simpl. by rewrite Hn.
Defined.

(** [get_slice_info] raises exactly when the page width is zero, and
    what it raises then is the division error, whatever the table. *)
Lemma get_slice_info_raises_iff_zero (M : Z) (df : DataFrame) :
  (M = 0 ->
   get_slice_info {| max_columns_per_page := M |} df = Raise zero_division) /\
  (M <> 0 ->
   exists info, get_slice_info {| max_columns_per_page := M |} df = Ok info /\
                total_columns info = Z.of_nat (length (df_columns df)) /\
                num_pages info = (Z.of_nat (length (df_columns df)) + M - 1) / M).
Proof.
  unfold get_slice_info, floordiv, pymod. simpl. split.
  - intros ->. reflexivity.
  - intros HM. destruct (Z.eqb_spec M 0); [done|]. simpl. by eexists.
Qed.

(** X3: with a page width of zero or less, [slice_dataframe] returns on a
    table without columns (the empty list) and on no other table, whatever
    the fuel. *)
Theorem slice_dataframe_nonpositive_width (M : Z) (df : DataFrame) (fuel : nat)
    (HM : M <= 0) :
  (df_columns df = [] ->
   slice_dataframe fuel {| max_columns_per_page := M |} df = Some []) /\
  (df_columns df <> [] ->
   slice_dataframe fuel {| max_columns_per_page := M |} df = None).
Proof.
  split.
  - intros Hc. unfold slice_dataframe. by rewrite Hc.
  - intros Hc. by apply slice_dataframe_diverges.
Qed.

Lemma slice_dataframe_nonpositive_width_witness :
  -1 <= 0 /\
  slice_dataframe 1000 {| max_columns_per_page := -1 |} (Demo.wide_frame 3) = None /\
  slice_dataframe 0 {| max_columns_per_page := -1 |} Demo.empty_frame = Some [].
Proof.
  split; [lia|]. split.
  - apply (slice_dataframe_nonpositive_width (-1) (Demo.wide_frame 3) 1000 ltac:(lia)).
    discriminate.
  - apply (slice_dataframe_nonpositive_width (-1) Demo.empty_frame 0 ltac:(lia)).
    reflexivity.
Defined.

(** ** Page files *)

Import IndexSpec.

Lemma str_int_inj (a b : Z) : str_int a = str_int b -> a = b.
Proof.
  unfold str_int. intros H. apply DecimalZ.to_int_inj.
  pose proof (NilEmpty.isi (Z.to_int a)) as Ha.
  rewrite H, NilEmpty.isi in Ha. by injection Ha.
Qed.

Lemma append_length (a b : string) :
  String.length (a +:+ b) = (String.length a + String.length b)%nat.
Proof.
  induction a as [|x a IH]; [done|]. rewrite append_cons. simpl. by rewrite IH.
Qed.

Lemma append_inj_l (a b c : string) : a +:+ b = a +:+ c -> b = c.
Proof.
  induction a as [|x a IH]; [done|]. rewrite !append_cons. intros [= H]. auto.
Qed.

Lemma append_inj_r (a b c : string) : a +:+ c = b +:+ c -> a = b.
Proof.
  revert b. induction a as [|x a IH]; intros [|y b] H.
  - done.
  - apply (f_equal String.length) in H. rewrite !append_length in H.
    simpl in H. lia.
  - apply (f_equal String.length) in H. rewrite !append_length in H.
    simpl in H. lia.
  - rewrite !append_cons in H. injection H as -> H. f_equal. by apply IH.
Qed.

(** *** Paths *)

(** A text without a slash is one component, and so are two of them put
    together. *)
Lemma path_split_plain_app (a b : string) :
  path_split a = [a] -> path_split b = [b] -> path_split (a +:+ b) = [a +:+ b].
Proof.
  intros Ha Hb. induction a as [|x a IH]; [done|].
  rewrite append_cons. cbn [path_split] in Ha |- *.
  destruct (Ascii.eqb x "/"); [discriminate|].
  destruct (path_split a) as [|h t] eqn:Hs.
  - injection Ha as <-. discriminate Hs.
  - injection Ha as -> ->. by rewrite IH.
Qed.

Lemma uint_text_no_slash (d : Decimal.uint) :
  path_split (NilEmpty.string_of_uint d) = [NilEmpty.string_of_uint d].
Proof. induction d; cbn [NilEmpty.string_of_uint path_split]; by rewrite ?IHd. Qed.

Lemma str_int_no_slash (n : Z) : path_split (str_int n) = [str_int n].
Proof.
  unfold str_int. destruct (Z.to_int n) as [d|d]; cbn [NilEmpty.string_of_int].
  - apply uint_text_no_slash.
  - cbn [path_split]. by rewrite uint_text_no_slash.
Qed.

Lemma concat_snoc (sep : string) (l : list string) (x : string) :
  String.concat sep (l ++ [x])
  = match l with
    | [] => x
    | _ :: _ => String.concat sep l +:+ sep +:+ x
    end.
Proof.
  induction l as [|y l IH]; [done|]. destruct l as [|z l]; [done|].
  change (String.concat sep ((y :: z :: l) ++ [x]))
    with (y +:+ sep +:+ String.concat sep ((z :: l) ++ [x])).
  rewrite IH.
  change (String.concat sep (y :: z :: l))
    with (y +:+ sep +:+ String.concat sep (z :: l)).
  by rewrite !append_assoc.
Qed.

(** Joining a directory with a name of one component puts the name after
    a text that depends on the directory alone. *)
Lemma path_join_stem (d : string) :
  exists stem, forall name,
    is_absolute name = false -> path_parts name = [name] ->
    path_join d name = stem +:+ name.
Proof.
  exists (match path_parts d with
          | [] => path_root d
          | _ :: _ => path_root d +:+ String.concat "/" (path_parts d) +:+ "/"
          end).
  intros name Ha Hp. unfold path_join. rewrite Ha, Hp. unfold path_str.
  rewrite concat_snoc. destruct (path_parts d) as [|x l].
  - by destruct (path_root d).
  - cbn [app]. rewrite !append_assoc. by destruct (path_root d).
Qed.

Lemma page_file_simple (k : Z) (ext : string) :
  path_split ext = [ext] ->
  is_absolute (page_file k ext) = false /\
  path_parts (page_file k ext) = [page_file k ext].
Proof.
  intros He. split; [reflexivity|]. unfold path_parts, page_file.
  assert (path_split ("page_" +:+ str_int k +:+ ext)
          = ["page_" +:+ str_int k +:+ ext]) as ->; [|reflexivity].
  apply path_split_plain_app; [reflexivity|].
  apply path_split_plain_app; [apply str_int_no_slash | done].
Qed.

Lemma page_path_inj (dir ext : string) (a b : Z) :
  path_split ext = [ext] ->
  path_join dir (page_file a ext) = path_join dir (page_file b ext) -> a = b.
Proof.
  intros He H. destruct (path_join_stem dir) as [stem Hs].
  destruct (page_file_simple a ext He) as [Ha1 Ha2].
  destruct (page_file_simple b ext He) as [Hb1 Hb2].
  rewrite (Hs _ Ha1 Ha2), (Hs _ Hb1 Hb2) in H. unfold page_file in H.
  do 2 apply append_inj_l in H. apply append_inj_r in H. by apply str_int_inj.
Qed.

Lemma fold_append {A} (g : string -> A -> string) (f : A -> string) (l : list A) :
  (forall md x, g md x = md +:+ f x) ->
  forall acc, fold_left g l acc = acc +:+ String.concat "" (f <$> l).
Proof.
  intros Hg. induction l as [|x l IH]; intros acc.
  - simpl. by rewrite append_empty_r.
  - cbn [fold_left fmap list_fmap]. rewrite IH, Hg, concat_lines_cons.
    by rewrite append_assoc.
Qed.

(** X4: exporting a slice to Markdown either fails and leaves the
    file system as it was, or returns the path of [page_<n>.md] in the
    output directory, as [pathlib] writes it; the file there then holds
    exactly the rendered page (read in text mode, with its carriage returns
    as line feeds), no other path has changed, and no other page number
    has this path. *)
Theorem export_slice_writes_page
    (str_format : string -> Z -> Z -> Z -> result string)
    (to_markdown : DataFrame -> bool -> result string)
    (self : MarkdownExporter.t) (df : DataFrame) (page_num start_col end_col : Z)
    (fs : FS.t string) :
  match MarkdownExporter.export_dataframe_slice str_format to_markdown self df
          page_num start_col end_col fs with
  | (Ok path, fs') =>
      path = path_join (MarkdownExporter.output_dir self) (page_file page_num ".md") /\
      (exists content,
         MarkdownExporter.dataframe_to_markdown str_format to_markdown
           (MarkdownExporter.config self) df page_num start_col end_col false
         = Ok content /\
         FS.files fs' !! path = Some (File content) /\
         read_text fs' path = Ok (universal_newlines content)) /\
      (forall q, q <> path -> FS.files fs' !! q = FS.files fs !! q) /\
      FS.readonly fs' = FS.readonly fs /\
      (forall n : Z,
         path_join (MarkdownExporter.output_dir self) (page_file n ".md") = path ->
         n = page_num)
  | (Raise _, fs') => fs' = fs
  end.
Proof.
  unfold MarkdownExporter.export_dataframe_slice.
  destruct (MarkdownExporter.dataframe_to_markdown str_format to_markdown
              (MarkdownExporter.config self) df page_num start_col end_col false)
    as [content|e]; [|done].
  unfold FS.write. case_bool_decide as Hro; [done|].
  split; [done|]. split; [|split; [|split; [done|]]].
  - exists content. split; [done|]. unfold read_text, FS.read. simpl.
    by rewrite lookup_insert_eq.
  - intros q Hq. simpl. by rewrite lookup_insert_ne.
  - intros n Hn. by apply (page_path_inj _ ".md") in Hn.
Qed.

(** X5: the index is the title, the source section when there is
    information to show (one line per item, in the order of the items),
    the page count, one link per page from 1 to [num_pages] in ascending
    order, each to the file name the exporter gives that page, and the
    footer; with [num_pages <= 0] it has no link. *)
Theorem create_index_closed_form (num_pages : Z)
    (sheet_info : option (list (Label * Label))) :
  MarkdownExporter.create_index num_pages sheet_info
  = index num_pages (default [] sheet_info) /\
  length (link_line <$> seqZ 1 num_pages) = Z.to_nat num_pages /\
  (forall (k : nat), (k < Z.to_nat num_pages)%nat ->
     (link_line <$> seqZ 1 num_pages) !! k = Some (link_line (Z.of_nat k + 1))).
Proof.
  split; [|split].
  - unfold MarkdownExporter.create_index, index.
    rewrite (fold_append _ link_line) by (intros; unfold link_line, page_file;
                                          by rewrite !append_assoc).
    destruct sheet_info as [[|item items]|]; simpl default; unfold source_section.
    + by rewrite !append_assoc.
    + rewrite (fold_append _ info_line)
        by (intros md [key value]; unfold info_line; reflexivity).
      by rewrite !append_assoc.
    + by rewrite !append_assoc.
  - by rewrite length_fmap, length_seqZ.
  - intros k Hk. rewrite list_lookup_fmap, lookup_seqZ_lt by lia.
    simpl. f_equal. f_equal. lia.
Qed.

(** ** Files written one after the other *)

Import FilesSpec.

Lemma write_all_cons {A} (p : string) (c : A) (kvs : list (string * A))
    (m : gmap string (Node A)) :
  write_all ((p, c) :: kvs) m = write_all kvs (<[p := File c]> m).
Proof. reflexivity. Qed.

Lemma write_all_other {A} (kvs : list (string * A)) :
  forall (m : gmap string (Node A)) (k : string),
    k ∉ kvs.*1 -> write_all kvs m !! k = m !! k.
Proof.
  induction kvs as [|[p c] kvs IH]; intros m k Hk; [done|].
  simpl in Hk. apply not_elem_of_cons in Hk as [Hne Hk].
  rewrite write_all_cons, IH by done. by rewrite lookup_insert_ne.
Qed.

Lemma write_all_lookup {A} (kvs : list (string * A)) :
  forall (m : gmap string (Node A)) (j : nat) (k : string) (v : A),
    NoDup kvs.*1 -> kvs !! j = Some (k, v) ->
    write_all kvs m !! k = Some (File v).
Proof.
  induction kvs as [|[p c] kvs IH]; intros m j k v Hnd Hj; [done|].
  simpl in Hnd. apply NoDup_cons in Hnd as [Hp Hnd].
  rewrite write_all_cons. destruct j as [|j].
  - injection Hj as -> ->. rewrite write_all_other by done.
    by rewrite lookup_insert_eq.
  - by apply (IH _ j).
Qed.

Lemma available_all {A} (fs : FS.t A) (paths : list string) (cs : list A) :
  Forall2 (fun p c => FS.files fs !! p = Some (File c)) paths cs ->
  available fs paths = cs.
Proof.
  induction 1 as [|p c paths cs Hp _ IH]; [done|].
  unfold available in *. cbn [omap list_omap]. rewrite Hp. by rewrite IH.
Qed.

Lemma enumerate1_fst {A} (l : list A) :
  (ExcelToPDFPipeline.enumerate1 l).*1 = seqZ 1 (Z.of_nat (length l)).
Proof.
  apply list_eq. intros i. unfold ExcelToPDFPipeline.enumerate1.
  rewrite list_lookup_fmap, list_lookup_imap.
  destruct (l !! i) as [x|] eqn:Hi.
  - apply lookup_lt_Some in Hi as Hlt. rewrite lookup_seqZ_lt by lia.
    simpl. f_equal. lia.
  - apply lookup_ge_None in Hi. rewrite lookup_seqZ_ge by lia. done.
Qed.

(** What combining writes when the output path can be written. *)
Lemma combine_markdown_written (paths : list string) (output_path : string)
    (fs : FS.t string) :
  output_path ∉ FS.readonly fs ->
  (MarkdownExporter.combine_markdown_files paths output_path fs).1
  = (true,
     FS.Make (<[output_path :=
                  File (combined_markdown (length paths)
                          (universal_newlines <$> available fs paths))]>
                (FS.files fs)) (FS.readonly fs)).
Proof.
  intros Hro. unfold MarkdownExporter.combine_markdown_files.
  match goal with
  | |- context [fold_left _ paths (?acc, ?log)] =>
      destruct (combine_markdown_fold fs paths acc log) as (log' & -> & _)
  end.
  unfold FS.write. rewrite bool_decide_eq_false_2 by done. simpl.
  do 3 f_equal. unfold combined_markdown, banner, str_len.
  by rewrite !append_assoc.
Qed.

Lemma combine_pdfs_written (paths : list string) (output_path : string)
    (fs : FS.t Pdf) :
  output_path ∉ FS.readonly fs ->
  (PDFExporter.combine_pdfs paths output_path fs).1
  = (true,
     FS.Make (<[output_path := File (combined_pdf (available fs paths))]>
                (FS.files fs)) (FS.readonly fs)).
Proof.
  intros Hro. unfold PDFExporter.combine_pdfs.
  match goal with
  | |- context [fold_left _ paths (?acc, ?log)] =>
      destruct (combine_pdfs_fold fs paths acc log) as (log' & -> & _)
  end.
  unfold FS.write. by rewrite bool_decide_eq_false_2.
Qed.

Lemma combine_pdfs_unwritable (paths : list string) (output_path : string)
    (fs : FS.t Pdf) :
  output_path ∈ FS.readonly fs ->
  (PDFExporter.combine_pdfs paths output_path fs).1 = (false, fs).
Proof.
  intros Hro. unfold PDFExporter.combine_pdfs.
  match goal with
  | |- context [fold_left _ paths (?acc, ?log)] =>
      destruct (combine_pdfs_fold fs paths acc log) as (log' & -> & _)
  end.
  unfold FS.write. by rewrite bool_decide_eq_true_2.
Qed.

(** ** The Markdown run *)

Section MarkdownRun.

Import RunEnhanced.

Variable str_format : string -> Z -> Z -> Z -> result string.
Variable to_markdown : DataFrame -> bool -> result string.
Variable mkdir : string -> result unit.

Let export_step := export_step str_format to_markdown.
Let process_markdown_format := process_markdown_format str_format to_markdown mkdir.

(** The rendering of an enumerated slice and the path of its page. *)
Let rendering (ex : MarkdownExporter.t) (item : Z * Slice) : result string :=
  MarkdownExporter.dataframe_to_markdown str_format to_markdown
    (MarkdownExporter.config ex) (slice_df item.2) item.1 (slice_start item.2)
    (slice_end item.2) false.

Let page_path (ex : MarkdownExporter.t) (idx : Z) : string :=
  path_join (MarkdownExporter.output_dir ex) (page_file idx ".md").

Lemma export_loop_raised (ex : MarkdownExporter.t) (items : list (Z * Slice))
    (e : exn) (fs : FS.t string) :
  fold_left (export_step ex) items (Raise e, fs) = (Raise e, fs).
Proof. induction items as [|item items IH]; [done|]. simpl. apply IH. Qed.

(** A loop that ends without an exception has rendered and written every
    slice, in order. *)
Lemma export_loop_ok (ex : MarkdownExporter.t) (items : list (Z * Slice)) :
  forall (acc : list string) (fs : FS.t string) (paths : list string)
         (fs' : FS.t string),
    fold_left (export_step ex) items (Ok acc, fs) = (Ok paths, fs') ->
    exists cs : list string,
      Forall2 (fun item c => rendering ex item = Ok c) items cs /\
      paths = acc ++ (page_path ex <$> items.*1) /\
      fs' = FS.Make (write_all (zip (page_path ex <$> items.*1) cs) (FS.files fs))
              (FS.readonly fs).
Proof.
  induction items as [|[idx [[d s] e]] items IH]; intros acc fs paths fs' Hrun.
  - simpl in Hrun. injection Hrun as <- <-. exists []. split; [constructor|].
    rewrite app_nil_r. split; [done|]. by destruct fs.
  - cbn [fold_left] in Hrun. unfold export_step at 2 in Hrun.
    unfold RunEnhanced.export_step in Hrun.
    unfold MarkdownExporter.export_dataframe_slice in Hrun.
    destruct (MarkdownExporter.dataframe_to_markdown str_format to_markdown
                (MarkdownExporter.config ex) d idx s e false) as [c|err] eqn:Hc.
    + unfold FS.write in Hrun. case_bool_decide as Hro.
      * fold (export_step ex) in Hrun. rewrite export_loop_raised in Hrun.
        discriminate Hrun.
      * fold (export_step ex) in Hrun. apply IH in Hrun as (cs & Hcs & -> & ->).
        exists (c :: cs). split; [by constructor|]. split.
        -- rewrite <- app_assoc. reflexivity.
        -- reflexivity.
    + fold (export_step ex) in Hrun. rewrite export_loop_raised in Hrun.
      discriminate Hrun.
Qed.

(** When every slice renders and nothing is read-only, the loop ends
    without an exception. *)
Lemma export_loop_runs (ex : MarkdownExporter.t) (items : list (Z * Slice)) :
  forall (acc : list string) (fs : FS.t string) (cs : list string),
    FS.readonly fs = ∅ ->
    Forall2 (fun item c => rendering ex item = Ok c) items cs ->
    fold_left (export_step ex) items (Ok acc, fs)
    = (Ok (acc ++ (page_path ex <$> items.*1)),
       FS.Make (write_all (zip (page_path ex <$> items.*1) cs) (FS.files fs))
         (FS.readonly fs)).
Proof.
  induction items as [|[idx [[d s] e]] items IH]; intros acc fs cs Hro Hcs.
  - apply Forall2_nil_inv_l in Hcs as ->. simpl. rewrite app_nil_r. by destruct fs.
  - apply Forall2_cons_inv_l in Hcs as (c & cs' & Hc & Hcs & ->).
    cbn [fold_left]. unfold export_step at 2, RunEnhanced.export_step.
    unfold MarkdownExporter.export_dataframe_slice.
    unfold rendering, slice_df, slice_start, slice_end in Hc. simpl in Hc.
    rewrite Hc. unfold FS.write. rewrite Hro.
    rewrite bool_decide_eq_false_2 by apply not_elem_of_empty.
    fold (export_step ex). rewrite (IH _ _ cs') by done.
    rewrite <- app_assoc. reflexivity.
Qed.

Lemma other_file_is_no_page (dir name ext : string) (k : Z) (c : ascii) (rest : string) :
  name = String c rest -> c <> "p"%char ->
  is_absolute name = false -> path_parts name = [name] ->
  path_split ext = [ext] ->
  path_join dir name <> path_join dir (page_file k ext).
Proof.
  intros -> Hc Ha Hp He H. destruct (path_join_stem dir) as [stem Hs].
  destruct (page_file_simple k ext He) as [Hk1 Hk2].
  rewrite (Hs _ Ha Hp), (Hs _ Hk1 Hk2) in H. unfold page_file in H.
  apply append_inj_l in H. injection H as H _. done.
Qed.

(** The information [process_markdown_format] puts in the index. *)
Let sheet_info (df : DataFrame) (sheet_name : string) (n : nat)
    : option (list (Label * Label)) :=
  Some [(LStr "Sheet Name", LStr sheet_name);
        (LStr "Total Rows", LInt (Z.of_nat (length (df_index df))));
        (LStr "Total Columns", LInt (Z.of_nat (length (df_columns df))));
        (LStr "Pages Generated", LInt (Z.of_nat n))].

(** X6: a successful Markdown run has exported every slice: it
    reports as many pages as the table has slices, the files
    [page_1.md .. page_n.md] of the sheet's directory in that order, with
    the paths as [pathlib] writes them, and the index file it has written
    holds the index of those pages. A slice that fails to render or to be
    written never yields a shorter success. *)
Theorem markdown_run_success_is_complete (fuel : nat) (df : DataFrame)
    (sheet_name : string) (max_cols : Z) (output_dir : string) (fs fs' : FS.t string)
    (name : string) (total : Z) (files : list string) (combined index dir : string)
    (Hrun : process_markdown_format fuel df sheet_name max_cols output_dir fs
            = Some (Success name total files combined index dir, fs')) :
  exists slices,
    slice_dataframe fuel {| max_columns_per_page := max_cols |} df = Some slices /\
    name = sheet_name /\
    dir = path_join output_dir ("markdown_" +:+ replace_space sheet_name) /\
    total = Z.of_nat (length slices) /\
    files = (fun k => path_join dir (page_file k ".md"))
              <$> seqZ 1 (Z.of_nat (length slices)) /\
    combined = path_join dir "combined_output.md" /\
    index = path_join dir "index.md" /\
    FS.files fs' !! index
    = Some (File (MarkdownExporter.create_index total
                    (sheet_info df sheet_name (length slices)))).
Proof.
  unfold process_markdown_format, RunEnhanced.process_markdown_format in Hrun.
  unfold MarkdownExporter.__init__, ColumnSlicer.__init__ in Hrun.
  destruct (mkdir (path_join output_dir ("markdown_" +:+ replace_space sheet_name)))
    as [[]|e]; [|cbv beta iota in Hrun; discriminate].
  cbn [rbind default] in Hrun.
  destruct (get_slice_info {| max_columns_per_page := max_cols |} df)
    as [info|e]; [|cbv beta iota in Hrun; discriminate].
  destruct (slice_dataframe fuel {| max_columns_per_page := max_cols |} df)
    as [slices|]; [|cbv beta iota in Hrun; discriminate].
  exists slices. split; [done|]. fold (export_step) in Hrun.
  match type of Hrun with
  | context [fold_left (export_step ?ex) ?items ?st] =>
      destruct (fold_left (export_step ex) items st) as [[paths|e] fs1] eqn:Hloop;
        [|cbv beta iota in Hrun; discriminate];
      apply export_loop_ok in Hloop as (cs & Hcs & Hpaths & Hfs1)
  end.
  rewrite enumerate1_fst in Hpaths. simpl in Hpaths.
  destruct (MarkdownExporter.combine_markdown_files paths _ fs1) as [[ok fs2] log].
  unfold FS.write in Hrun. case_bool_decide as Hro; [cbv beta iota in Hrun; discriminate|].
  injection Hrun as <- <- <- <- <- <- <-.
  assert (length paths = length slices) as Hlen
    by (by rewrite Hpaths, length_fmap, length_seqZ, Nat2Z.id).
  rewrite Hlen. repeat split; try done.
  simpl. by rewrite lookup_insert_eq.
Qed.

(** X7: when the sheet directory can be made, the page width is not
    zero, the slicing returns, no path is read-only and every page of the
    run renders, the Markdown run succeeds; afterwards every page file
    holds the rendering of its slice, the combined file holds the banner
    followed by those renderings as they are read back in text mode (a
    carriage return as a line feed), in page order, and the index file
    holds the index of the run. *)
Theorem markdown_run_writes_everything (fuel : nat) (df : DataFrame)
    (sheet_name : string) (max_cols : Z) (output_dir : string) (fs : FS.t string)
    (slices : list Slice) (cs : list string)
    (Hmk : mkdir (path_join output_dir ("markdown_" +:+ replace_space sheet_name))
           = Ok tt)
    (HM : max_cols <> 0)
    (Hslices : slice_dataframe fuel {| max_columns_per_page := max_cols |} df
               = Some slices)
    (Hro : FS.readonly fs = ∅)
    (Hrender :
       Forall2 (fun (item : Z * Slice) c =>
                  MarkdownExporter.dataframe_to_markdown str_format to_markdown
                    empty_config (slice_df item.2) item.1 (slice_start item.2)
                    (slice_end item.2) false = Ok c)
         (ExcelToPDFPipeline.enumerate1 slices) cs) :
  let dir := path_join output_dir ("markdown_" +:+ replace_space sheet_name) in
  let pages := (fun k => path_join dir (page_file k ".md"))
                 <$> seqZ 1 (Z.of_nat (length slices)) in
  exists fs' : FS.t string,
    process_markdown_format fuel df sheet_name max_cols output_dir fs
    = Some (Success sheet_name (Z.of_nat (length slices)) pages
              (path_join dir "combined_output.md") (path_join dir "index.md") dir,
            fs') /\
    Forall2 (fun p c => FS.files fs' !! p = Some (File c)) pages cs /\
    FS.files fs' !! path_join dir "combined_output.md"
    = Some (File (combined_markdown (length slices) (universal_newlines <$> cs))) /\
    FS.files fs' !! path_join dir "index.md"
    = Some (File (MarkdownExporter.create_index (Z.of_nat (length slices))
                    (sheet_info df sheet_name (length slices)))).
Proof.
  intros dir pages.
  set (ex := {| MarkdownExporter.output_dir := dir;
                MarkdownExporter.config := empty_config |}).
  destruct (proj2 (get_slice_info_raises_iff_zero max_cols df) HM)
    as (info & Hinfo & _).
  assert (Forall2 (fun item c => rendering ex item = Ok c)
            (ExcelToPDFPipeline.enumerate1 slices) cs) as Hcs by exact Hrender.
  change pages with (page_path ex <$> seqZ 1 (Z.of_nat (length slices))).
  clear pages.
  set (paths := page_path ex <$> seqZ 1 (Z.of_nat (length slices))).
  assert (length cs = length slices) as Hlencs.
  { apply Forall2_length in Hcs. by rewrite enumerate1_length in Hcs. }
  assert (length paths = length slices) as Hlen
    by (unfold paths; by rewrite length_fmap, length_seqZ, Nat2Z.id).
  assert (NoDup paths) as Hnd.
  { unfold paths. apply NoDup_fmap_2_strong; [|apply NoDup_seqZ].
    intros a b _ _ H. by apply (page_path_inj _ ".md") in H. }
  set (files1 := write_all (zip paths cs) (FS.files fs)).
  assert (Forall2 (fun p c => files1 !! p = Some (File c)) paths cs) as Hpages.
  { apply Forall2_same_length_lookup. split; [lia|].
    intros j p c Hp Hc. unfold files1.
    apply (write_all_lookup _ _ j).
    - rewrite fst_zip by lia. done.
    - rewrite lookup_zip_with, Hp. simpl. by rewrite Hc. }
  set (fs1 := FS.Make files1 (FS.readonly fs)).
  set (combined := path_join dir "combined_output.md").
  set (index := path_join dir "index.md").
  set (content := combined_markdown (length slices) (universal_newlines <$> cs)).
  set (fs2 := FS.Make (<[combined := File content]> files1) (FS.readonly fs)).
  assert ((MarkdownExporter.combine_markdown_files paths combined fs1).1
          = (true, fs2)) as Hcomb.
  { rewrite combine_markdown_written
      by (simpl; rewrite Hro; apply not_elem_of_empty).
    unfold fs2, content. rewrite Hlen. simpl.
    by rewrite (available_all fs1 paths cs Hpages). }
  set (idx := MarkdownExporter.create_index (Z.of_nat (length slices))
                (sheet_info df sheet_name (length slices))).
  exists (FS.Make (<[index := File idx]> (<[combined := File content]> files1))
            (FS.readonly fs)).
  assert (index <> combined) as Hic.
  { unfold index, combined. destruct (path_join_stem dir) as [stem Hs].
    rewrite !Hs by reflexivity. intros H. apply append_inj_l in H. discriminate H. }
  assert (forall p, p ∈ paths -> p <> combined /\ p <> index) as Hpc.
  { intros p [k [-> _]]%list_elem_of_fmap. unfold page_path. simpl. split; intros H.
    - symmetry in H.
      by apply (other_file_is_no_page _ _ _ _ "c" "ombined_output.md") in H.
    - symmetry in H. by apply (other_file_is_no_page _ _ _ _ "i" "ndex.md") in H. }
  split; [|split; [|split]].
  - unfold process_markdown_format, RunEnhanced.process_markdown_format.
    unfold MarkdownExporter.__init__, ColumnSlicer.__init__.
    rewrite Hmk. cbn [rbind default]. fold dir. fold ex. rewrite Hinfo, Hslices.
    fold export_step. rewrite (export_loop_runs ex _ [] fs cs Hro Hcs).
    rewrite enumerate1_fst. cbn [app]. fold paths. fold files1. fold fs1.
    fold combined.
    destruct (MarkdownExporter.combine_markdown_files paths combined fs1)
      as [[ok fs2'] log]. simpl in Hcomb. injection Hcomb as -> ->.
    unfold FS.write, fs2. simpl. rewrite Hro.
    rewrite bool_decide_eq_false_2 by apply not_elem_of_empty.
    rewrite Hlen. reflexivity.
  - apply Forall2_same_length_lookup. split; [lia|].
    intros j p c Hp Hc. simpl.
    destruct (Hpc p) as [H1 H2]; [by eapply list_elem_of_lookup_2|].
    rewrite !lookup_insert_ne by done.
    rewrite Forall2_lookup in Hpages. specialize (Hpages j).
    rewrite Hp, Hc in Hpages. inversion Hpages as [? ? Hl|]; subst. by rewrite Hl.
  - simpl. rewrite lookup_insert_ne by done. by rewrite lookup_insert_eq.
  - simpl. by rewrite lookup_insert_eq.
Qed.

End MarkdownRun.

Lemma markdown_run_success_is_complete_witness :
  match RunEnhanced.process_markdown_format Demo.str_format Demo.old_pandas Demo.fine
          4 (Demo.wide_frame 3) "Sheet 1" 2 "out" Demo.no_pages with
  | Some (RunEnhanced.Success _ total files _ _ _, _) =>
      total = 2 /\
      files = ["out/markdown_Sheet_1/page_1.md"; "out/markdown_Sheet_1/page_2.md"]
  | _ => False
  end.
Proof.
  destruct (RunEnhanced.process_markdown_format Demo.str_format Demo.old_pandas
              Demo.fine 4 (Demo.wide_frame 3) "Sheet 1" 2 "out" Demo.no_pages)
    as [[[name total files combined index dir|err] fs']|] eqn:Hrun.
  - destruct (markdown_run_success_is_complete _ _ _ _ _ _ _ _ _ _ _ _ _ _ _ _ Hrun)
      as (slices & Hs & _ & -> & -> & -> & _).
    vm_compute in Hs. injection Hs as <-. split; reflexivity.
  - vm_compute in Hrun. discriminate.
  - vm_compute in Hrun. discriminate.
Defined.

Lemma markdown_run_writes_everything_witness :
  exists (slices : list Slice) (cs : list string) (fs' : FS.t string),
    slice_dataframe 4 {| max_columns_per_page := 2 |} (Demo.wide_frame 3)
    = Some slices /\
    length cs = 2%nat /\
    FS.files fs' !! "out/markdown_Sheet_1/combined_output.md"
    = Some (File (combined_markdown 2 (universal_newlines <$> cs))) /\
    Forall2 (fun p c => FS.files fs' !! p = Some (File c))
      ["out/markdown_Sheet_1/page_1.md"; "out/markdown_Sheet_1/page_2.md"] cs.
Proof.
  destruct (slice_dataframe 4 {| max_columns_per_page := 2 |} (Demo.wide_frame 3))
    as [slices|] eqn:Hs; [|vm_compute in Hs; discriminate].
  set (page := fun item : Z * Slice =>
         match MarkdownExporter.dataframe_to_markdown Demo.str_format
                 Demo.old_pandas empty_config (slice_df item.2) item.1
                 (slice_start item.2) (slice_end item.2) false with
         | Ok c => c
         | Raise _ => ""
         end).
  set (cs := page <$> ExcelToPDFPipeline.enumerate1 slices).
  assert (Forall2 (fun (item : Z * Slice) c =>
                     MarkdownExporter.dataframe_to_markdown Demo.str_format
                       Demo.old_pandas empty_config (slice_df item.2) item.1
                       (slice_start item.2) (slice_end item.2) false = Ok c)
            (ExcelToPDFPipeline.enumerate1 slices) cs) as Hrender.
  { vm_compute in Hs. injection Hs as <-. repeat constructor. }
  destruct (markdown_run_writes_everything Demo.str_format Demo.old_pandas Demo.fine
              4 (Demo.wide_frame 3) "Sheet 1" 2 "out" Demo.no_pages slices cs
              eq_refl ltac:(lia) Hs eq_refl Hrender)
    as (fs' & _ & Hpages & Hcomb & _).
  assert (length slices = 2%nat) as Hlen
    by (vm_compute in Hs; by injection Hs as <-).
  exists slices, cs, fs'. rewrite Hlen in Hpages, Hcomb.
  split; [done|]. split; [|split].
  - unfold cs. by rewrite length_fmap, enumerate1_length.
  - exact Hcomb.
  - exact Hpages.
Defined.

(** ** More on combining *)

(** X8: whether it succeeds or not, combining changes no
    path but the output path, and leaves the read-only paths as they
    were. *)
Theorem combine_touches_only_output (paths : list string) (output_path q : string)
    (md : FS.t string) (pdf : FS.t Pdf) (Hq : q <> output_path) :
  let md' := (MarkdownExporter.combine_markdown_files paths output_path md).1.2 in
  let pdf' := (PDFExporter.combine_pdfs paths output_path pdf).1.2 in
  FS.files md' !! q = FS.files md !! q /\ FS.readonly md' = FS.readonly md /\
  FS.files pdf' !! q = FS.files pdf !! q /\ FS.readonly pdf' = FS.readonly pdf.
Proof.
  intros md' pdf'. subst md' pdf'.
  destruct (decide (output_path ∈ FS.readonly md)) as [Hm|Hm];
    destruct (decide (output_path ∈ FS.readonly pdf)) as [Hp|Hp];
    rewrite ?combine_markdown_unwritable, ?combine_markdown_written,
      ?combine_pdfs_unwritable, ?combine_pdfs_written by done;
    simpl; rewrite ?lookup_insert_ne by done; done.
Qed.

Lemma combine_touches_only_output_witness :
  "out/page_1.md" <> "out/combined_output" /\
  FS.files (MarkdownExporter.combine_markdown_files (Demo.pages3 ".md")
              "out/combined_output" Demo.md_fs).1.2 !! "out/page_1.md"
  = Some (File "one").
Proof.
  assert ("out/page_1.md" <> "out/combined_output") as Hq by discriminate.
  split; [exact Hq|].
  destruct (combine_touches_only_output (Demo.pages3 ".md") "out/combined_output"
              "out/page_1.md" Demo.md_fs Demo.pdf_fs Hq) as [-> _].
  reflexivity.
Defined.

(** X9: when the output path cannot be written, both
    combiners return [False] and leave the file system exactly as it
    was, whatever the input paths. *)
Theorem combine_unwritable_output (paths : list string) (output_path : string)
    (md : FS.t string) (pdf : FS.t Pdf)
    (Hmd : output_path ∈ FS.readonly md) (Hpdf : output_path ∈ FS.readonly pdf) :
  (MarkdownExporter.combine_markdown_files paths output_path md).1 = (false, md) /\
  (PDFExporter.combine_pdfs paths output_path pdf).1 = (false, pdf).
Proof.
  split; [by apply combine_markdown_unwritable | by apply combine_pdfs_unwritable].
Qed.

Lemma combine_unwritable_output_witness :
  ("out/combined_output" ∈ FS.readonly Demo.locked_md) /\
  ("out/combined_output" ∈ FS.readonly Demo.locked_pdf) /\
  (MarkdownExporter.combine_markdown_files ["out/page_1.md"] "out/combined_output"
     Demo.locked_md).1 = (false, Demo.locked_md).
Proof.
  assert ("out/combined_output" ∈ FS.readonly Demo.locked_md) as Hmd
    by (simpl; by apply elem_of_singleton).
  assert ("out/combined_output" ∈ FS.readonly Demo.locked_pdf) as Hpdf
    by (simpl; by apply elem_of_singleton).
  split; [exact Hmd|]. split; [exact Hpdf|].
  apply (combine_unwritable_output ["out/page_1.md"] "out/combined_output"
           Demo.locked_md Demo.locked_pdf Hmd Hpdf).
Defined.

(** ** More on the cell formatter *)

(** X10: a finite float whose value is an integer [n] is rendered,
    by both copies of the formatter, as the decimal text of [n], which
    holds no decimal point; a zero of either sign is rendered as [0]. *)
Theorem format_cell_integral_float (s : bool) (m : positive) (e n : Z)
    (Hint : finite_is_int s m e n) :
  MarkdownExporter._format_cell (VFloat (S754_finite s m e)) = Ok (str_int n) /\
  HTMLRenderer._format_cell (VFloat (S754_finite s m e)) = Ok (str_int n) /\
  ("."%char ∉ list_ascii_of_string (str_int n)) /\
  (forall z : bool, MarkdownExporter._format_cell (VFloat (S754_zero z)) = Ok "0").
Proof.
  split; [by apply format_cell_integral|].
  split; [by apply (format_cell_integral s m e n)|].
  split; [apply str_int_has_no_point|]. intros z. reflexivity.
Qed.

Lemma format_cell_integral_float_witness :
  finite_is_int false 5427189394702336 (-42) 1234 /\
  MarkdownExporter._format_cell (VFloat Demo.f1234_0) = Ok "1234".
Proof.
  assert (finite_is_int false 5427189394702336 (-42) 1234) as Hint
    by (vm_compute; reflexivity).
  split; [exact Hint|].
  apply (format_cell_integral_float false 5427189394702336 (-42) 1234 Hint).
Defined.

(** X11: a finite float that is not an integer is rendered in
    fixed notation as the sign, the integer part, a point and exactly two
    digits, where the number of hundredths is the nearest to the exact
    value and the even one on a tie. *)
Theorem format_cell_fractional_float (s : bool) (m : positive) (e : Z)
    (He : e < 0) (Hfrac : Z.pos m mod 2 ^ (- e) <> 0) :
  exists q : Z,
    MarkdownExporter._format_cell (VFloat (S754_finite s m e))
    = Ok (sign_text s +:+ str_int (q / 100) +:+ "." +:+ two_digits (q mod 100)) /\
    0 <= q /\
    Z.abs (2 * (100 * Z.pos m - q * 2 ^ (- e))) <= 2 ^ (- e) /\
    (Z.abs (2 * (100 * Z.pos m - q * 2 ^ (- e))) = 2 ^ (- e) -> Z.even q = true) /\
    String.length (two_digits (q mod 100)) = 2%nat.
Proof. by apply format_cell_fractional. Qed.

Lemma format_cell_fractional_float_witness :
  -3 < 0 /\ 1 mod 2 ^ (- -3) <> 0 /\
  MarkdownExporter._format_cell (VFloat (S754_finite false 1 (-3))) = Ok "0.12" /\
  MarkdownExporter._format_cell (VFloat (S754_finite false 3 (-3))) = Ok "0.38".
Proof.
  assert (1 mod 2 ^ (- -3) <> 0) as Hfrac by (vm_compute; discriminate).
  split; [lia|]. split; [exact Hfrac|].
  destruct (format_cell_fractional_float false 1 (-3) ltac:(lia) Hfrac)
    as (q & Hq & _).
  split; reflexivity.
Defined.

(** ** Tables that hold an infinite float *)

Lemma format_cell_only_overflows (value : Cell) (e : exn) :
  MarkdownExporter._format_cell value = Raise e -> e = overflow.
Proof.
  unfold MarkdownExporter._format_cell.
  destruct (isna value) eqn:Hna; [discriminate|].
  destruct value as [| | |[z|z| |z m x]| | | |]; try discriminate.
  - cbn [float_to_int rbind]. by intros [= <-].
  - cbn [float_to_int rbind]. by destruct (float_ne_int _ _).
Qed.

Lemma rmap_raises {A B} (f : A -> result B) (e0 : exn) (l : list A) :
  (forall x e, f x = Raise e -> e = e0) ->
  (exists x e, x ∈ l /\ f x = Raise e) ->
  rmap f l = Raise e0.
Proof.
  intros Honly (x & e & Hx & Hfx). induction l as [|y l IH].
  - by apply elem_of_nil in Hx.
  - cbn [rmap]. destruct (f y) as [b|e'] eqn:Hy; cbn [rbind].
    + apply elem_of_cons in Hx as [->|Hx]; [congruence|]. by rewrite IH.
    + by rewrite (Honly y e' Hy).
Qed.

Lemma rmap_only {A B} (f : A -> result B) (e0 : exn) (l : list A) (e : exn) :
  (forall x e, f x = Raise e -> e = e0) -> rmap f l = Raise e -> e = e0.
Proof.
  intros Honly. induction l as [|y l IH]; [discriminate|].
  cbn [rmap]. destruct (f y) as [b|e'] eqn:Hy; cbn [rbind].
  - destruct (rmap f l) as [bs|e'']; cbn [rbind]; [discriminate|].
    intros [= <-]. by apply IH.
  - intros [= <-]. by apply (Honly y).
Qed.

Lemma infinite_cell_rows (df : DataFrame) :
  has_infinite_cell df ->
  rmap (rmap MarkdownExporter._format_cell) (snd <$> iterrows df) = Raise overflow.
Proof.
  intros (i & c & s & Hi & Hc & Hv).
  apply rmap_raises.
  - intros row e. apply rmap_only, format_cell_only_overflows.
  - exists (row_values df i), overflow. split.
    + apply list_elem_of_lookup. exists i. unfold iterrows.
      rewrite list_lookup_fmap, list_lookup_imap.
      destruct (df_index df !! i) as [idx|] eqn:Hidx; [done|].
      apply lookup_ge_None in Hidx. lia.
    + apply rmap_raises; [apply format_cell_only_overflows|].
      exists (VFloat (S754_infinity s)), overflow. split; [|done].
      unfold row_values. apply list_elem_of_In, in_map_iff.
      exists c. split; [by rewrite Hv | by apply list_elem_of_In].
Qed.

Lemma rows_fold_raised (include_index : bool) (items : list (Label * list Cell))
    (e : exn) :
  fold_left
    (fun (acc : result string) '(idx, row) =>
       let! markdown := acc in
       let! cells := rmap MarkdownExporter._format_cell row in
       let row_data := if include_index then str_label idx :: cells else cells in
       let row_data := map replace_pipe row_data in
       Ok (markdown +:+ "| " +:+ String.concat " | " row_data +:+ " |" +:+ LF))
    items (Raise e)
  = Raise e.
Proof. induction items as [|[idx row] items IH]; [done|]. simpl. apply IH. Qed.

Lemma rows_fold_fails (include_index : bool) (items : list (Label * list Cell))
    (e : exn) :
  rmap (rmap MarkdownExporter._format_cell) (snd <$> items) = Raise e ->
  forall acc : string,
    fold_left
      (fun (acc : result string) '(idx, row) =>
         let! markdown := acc in
         let! cells := rmap MarkdownExporter._format_cell row in
         let row_data := if include_index then str_label idx :: cells else cells in
         let row_data := map replace_pipe row_data in
         Ok (markdown +:+ "| " +:+ String.concat " | " row_data +:+ " |" +:+ LF))
      items (Ok acc)
    = Raise e.
Proof.
  induction items as [|[idx row] items IH]; intros Hr acc; [discriminate|].
  cbn [fmap list_fmap rmap snd] in Hr. cbn [fold_left rbind].
  destruct (rmap MarkdownExporter._format_cell row) as [cells|e'] eqn:Hrow;
    cbn [rbind] in *.
  - apply IH.
    destruct (rmap (rmap MarkdownExporter._format_cell) (snd <$> items));
      cbn [rbind] in Hr; [discriminate | done].
  - injection Hr as ->. apply rows_fold_raised.
Qed.

(** X12: a table that holds an infinite float cannot be rendered by
    the code of this repository: the manual Markdown conversion raises the
    overflow error of [int], so does the Markdown page when pandas has no
    [to_markdown] and the label formats, the HTML renderer raises whatever
    its template does, and the pipeline's page step fails without touching
    the file system, so that the slice is left out of the run. *)
Theorem infinite_cell_fails_rendering (df : DataFrame) (Hinf : has_infinite_cell df) :
  (forall include_index,
     MarkdownExporter._manual_markdown_conversion df include_index = Raise overflow) /\
  (forall str_format to_markdown config page_num start_col end_col include_index
          label msg,
     str_format (label_template config) page_num start_col end_col = Ok label ->
     to_markdown df include_index = Raise (Exn AttributeError msg) ->
     MarkdownExporter.dataframe_to_markdown str_format to_markdown config df
       page_num start_col end_col include_index = Raise overflow) /\
  (forall Template str_format get_template render self page_num start_col end_col
          page_label,
     exists e,
       HTMLRenderer.render_table Template str_format get_template render self df
         page_num start_col end_col page_label = Raise e) /\
  (forall Template str_format get_template render write_pdf self idx
          start_col end_col fs,
     exists e,
       ExcelToPDFPipeline.process_page Template str_format get_template render
         write_pdf self idx (df, start_col, end_col) fs = (Raise e, fs) /\
       ExcelToPDFPipeline.page_step Template str_format get_template render
         write_pdf self ([], fs) (idx, (df, start_col, end_col)) = ([], fs)).
Proof.
  pose proof (infinite_cell_rows df Hinf) as Hrows.
  assert (forall ii, MarkdownExporter._manual_markdown_conversion df ii = Raise overflow)
    as Hmanual.
  { intros ii. unfold MarkdownExporter._manual_markdown_conversion.
    by apply rows_fold_fails. }
  assert (forall Template str_format get_template render self page_num start_col
                 end_col page_label,
            exists e,
              HTMLRenderer.render_table Template str_format get_template render self
                df page_num start_col end_col page_label = Raise e) as Hhtml.
  { intros. unfold HTMLRenderer.render_table.
    destruct (get_template _ _) as [t|e]; cbn [rbind]; [|by eexists].
    assert (rmap (rmap HTMLRenderer._format_cell) (map snd (iterrows df))
            = Raise overflow) as Hrows' by exact Hrows.
    destruct page_label as [l|]; cbn [rbind].
    - eexists. rewrite Hrows'. reflexivity.
    - destruct (str_format _ _ _ _) as [l|e]; cbn [rbind]; [|by eexists].
      eexists. rewrite Hrows'. reflexivity. }
  split; [exact Hmanual|]. split; [|split; [exact Hhtml|]].
  - intros str_format to_markdown config page_num start_col end_col include_index
      label msg Hlabel Hbuiltin.
    unfold MarkdownExporter.dataframe_to_markdown.
    unfold label_template in Hlabel. rewrite Hlabel, Hbuiltin. cbn [rbind].
    by rewrite Hmanual.
  - intros. destruct (Hhtml Template str_format get_template render
                        (ExcelToPDFPipeline.renderer self) idx start_col end_col None)
      as [e He].
    exists e. unfold ExcelToPDFPipeline.page_step, ExcelToPDFPipeline.process_page.
    by rewrite He.
Qed.

Lemma infinite_cell_fails_rendering_witness :
  has_infinite_cell Demo.inf_frame /\
  MarkdownExporter._manual_markdown_conversion Demo.inf_frame false = Raise overflow.
Proof.
  assert (has_infinite_cell Demo.inf_frame) as Hinf.
  { exists 0%nat, {| col_name := LStr "v"; col_values := [VFloat Demo.inf] |}, false.
    split; [simpl; lia|]. split; [apply list_elem_of_here | reflexivity]. }
  split; [exact Hinf|].
  destruct (infinite_cell_fails_rendering Demo.inf_frame Hinf) as [H _].
  apply H.
Defined.

(** ** More on the pipeline *)

Lemma unlink_quietly_files (fs : FS.t Pdf) (p : string) :
  FS.readonly (ExcelToPDFPipeline.unlink_quietly fs p) = FS.readonly fs /\
  FS.files (ExcelToPDFPipeline.unlink_quietly fs p)
  = if bool_decide (p ∈ FS.readonly fs) then FS.files fs else delete p (FS.files fs).
Proof.
  unfold ExcelToPDFPipeline.unlink_quietly, FS.unlink.
  case_bool_decide as Hro; [done|]. rewrite exists_lookup.
  destruct (FS.files fs !! p) as [n|] eqn:Hp; simpl; [done|].
  split; [done|]. symmetry. by apply delete_id.
Qed.

(** Deleting the listed files: a listed path that is not read-only is
    gone, a path that is not listed is as it was. *)
Lemma unlink_all (ps : list string) :
  forall fs : FS.t Pdf,
    let fs' := fold_left ExcelToPDFPipeline.unlink_quietly ps fs in
    FS.readonly fs' = FS.readonly fs /\
    (forall p, p ∈ ps -> p ∉ FS.readonly fs -> FS.files fs' !! p = None) /\
    (forall q, q ∉ ps -> FS.files fs' !! q = FS.files fs !! q).
Proof.
  induction ps as [|p ps IH]; intros fs fs'.
  - subst fs'. simpl. split; [done|]. split; [|done].
    intros p Hp. by apply elem_of_nil in Hp.
  - subst fs'. cbn [fold_left].
    destruct (unlink_quietly_files fs p) as [Hro Hfiles].
    destruct (IH (ExcelToPDFPipeline.unlink_quietly fs p)) as (IHro & IHin & IHout).
    rewrite Hro in IHro, IHin. split; [done|]. split.
    + intros q Hq Hnro. destruct (decide (q ∈ ps)) as [Hin|Hnin]; [by apply IHin|].
      apply elem_of_cons in Hq as [->|Hq]; [|done].
      rewrite IHout, Hfiles by done.
      rewrite bool_decide_eq_false_2 by done. apply lookup_delete_eq.
    + intros q Hq. apply not_elem_of_cons in Hq as [Hne Hq].
      rewrite IHout, Hfiles by done.
      case_bool_decide; [done|]. by rewrite lookup_delete_ne.
Qed.

Lemma num_pages_is_length (M : Z) (df : DataFrame) (fuel : nat) (slices : list Slice)
    (info : SliceInfo) :
  1 <= M -> (length (df_columns df) < fuel)%nat ->
  slice_dataframe fuel {| max_columns_per_page := M |} df = Some slices ->
  get_slice_info {| max_columns_per_page := M |} df = Ok info ->
  num_pages info = Z.of_nat (length slices).
Proof.
  intros HM Hf Hrun Hinfo.
  destruct (get_slice_info_plan M df HM) as (info' & Hi & _ & _ & Hceil & _).
  rewrite Hinfo in Hi. injection Hi as <-.
  pose proof (pages_ceil M df HM) as Hp.
  rewrite slice_dataframe_closed in Hrun;
    [|done|pose proof (pages_le_columns M df HM); lia].
  injection Hrun as <-. rewrite length_fmap, length_seq.
  unfold is_ceil in *. nia.
Qed.

Section PipelineRuns.

Import ExcelToPDFPipeline PipelineSpec.

Variable pd_read_excel : string -> option string -> result DataFrame.
Variable Template : Type.
Variable str_format : string -> Z -> Z -> Z -> result string.
Variable get_template : string -> string -> result Template.
Variable render : Template -> Config -> HTMLRenderer.TemplateArgs -> result string.
Variable write_pdf : string -> bool -> string -> FS.t Pdf -> result unit * FS.t Pdf.

Let page_step := page_step Template str_format get_template render write_pdf.
Let page_outcomes := page_outcomes Template str_format get_template render write_pdf.
Let fs_after_pages := fs_after_pages Template str_format get_template render write_pdf.
Let process := process pd_read_excel Template str_format get_template render write_pdf.

(** The path of the PDF of page [k]. *)
Let pdf_path (self : t) (k : Z) : string :=
  path_join (PDFExporter.output_dir (exporter self)) (page_file k ".pdf").

(** The pages that succeed keep the number of their slice. *)
Lemma page_outcomes_named (self : t) (items : list (Z * Slice)) :
  forall fs : FS.t Pdf,
  exists ks : list Z,
    successes (page_outcomes self items fs) = pdf_path self <$> ks /\
    sublist ks items.*1.
Proof.
  induction items as [|[idx [[d a] b]] items IH]; intros fs.
  - exists []. split; [done | constructor].
  - unfold page_outcomes. cbn [PipelineSpec.page_outcomes].
    unfold process_page, PDFExporter.export_dataframe_slice.
    destruct (HTMLRenderer.render_table Template str_format get_template render
                (renderer self) d idx a b None) as [html|e].
    + destruct (PDFExporter.html_to_pdf write_pdf html _ fs) as [[] fs1].
      * destruct (IH fs1) as (ks & Hks & Hsub). exists (idx :: ks).
        split; [|by constructor].
        unfold successes in *. cbn [omap list_omap fmap list_fmap].
        fold (page_outcomes self items fs1). by rewrite Hks.
      * destruct (IH fs1) as (ks & Hks & Hsub). exists ks.
        split; [exact Hks | by constructor].
    + destruct (IH fs) as (ks & Hks & Hsub). exists ks.
      split; [exact Hks | by constructor].
Qed.

(** The shape of a run whose table is read, under a page width of at
    least 1. *)
Lemma process_shape (self : t) (input_file : string) (sheet_name : option string)
    (fs : FS.t Pdf) (df : DataFrame) :
  1 <= max_columns_per_page (slicer self) ->
  read_excel pd_read_excel input_file sheet_name = Ok df ->
  exists slices info combined fs2,
    get_slice_info (slicer self) df = Ok info /\
    num_pages info = Z.of_nat (length slices) /\
    (successes (page_outcomes self (enumerate1 slices) fs) = [] -> combined = None) /\
    forall fuel : nat,
      (length (df_columns df) < fuel)%nat ->
      process fuel self input_file sheet_name fs
      = Some (Success input_file
                (Z.of_nat (length (successes (page_outcomes self (enumerate1 slices) fs))))
                (successes (page_outcomes self (enumerate1 slices) fs))
                combined info,
              if negb (default true (cfg_keep_individual_pages (config self)))
              then fold_left unlink_quietly
                     (successes (page_outcomes self (enumerate1 slices) fs)) fs2
              else fs2).
Proof.
  intros HM Hread.
  destruct (slicer self) as [M] eqn:Hslicer. simpl in HM.
  destruct (get_slice_info_plan M df HM) as (info & Hinfo & _).
  destruct (slice_dataframe_returns M df HM) as (slices & Hslices).
  set (succ := successes (page_outcomes self (enumerate1 slices) fs)).
  set (fs1 := fs_after_pages self (enumerate1 slices) fs).
  set (cpath := path_join (default "output" (cfg_output_dir (config self)))
                  "combined_output.pdf").
  set (cf := if default true (cfg_combine_pdfs (config self))
                && (0 <? Z.of_nat (length succ))
             then (if (PDFExporter.combine_pdfs succ cpath fs1).1.1
                   then Some cpath else None,
                   (PDFExporter.combine_pdfs succ cpath fs1).1.2)
             else (None, fs1)).
  exists slices, info, cf.1, cf.2.
  split; [done|]. split.
  { apply (num_pages_is_length M df (S (length (df_columns df)))); try done; try lia.
    apply Hslices. lia. }
  split.
  { intros Hnil. unfold cf. fold succ in Hnil. rewrite Hnil. simpl.
    by rewrite andb_false_r. }
  intros fuel Hf. unfold process, ExcelToPDFPipeline.process.
  rewrite Hread, Hslicer, Hinfo, (Hslices fuel Hf).
  rewrite page_loop_fold. cbn [app].
  fold page_outcomes fs_after_pages. fold succ. fold fs1. fold cpath.
  unfold cf.
  destruct (default true (cfg_combine_pdfs (config self)) && (0 <? Z.of_nat (length succ)));
    [|reflexivity].
  destruct (PDFExporter.combine_pdfs succ cpath fs1) as [[[] fs2] log]; reflexivity.
Qed.

(** X13: in a successful run the individual PDFs are files
    [page_<k>.pdf] of the exporter's directory whose numbers [k] are slice
    numbers in ascending order: a page keeps the number of its slice, so a
    slice that failed leaves a gap; the page count is the number of these
    files and never exceeds the planned number of pages; and there is a
    combined PDF only if some page succeeded. *)
Theorem process_pages_named (self : t) (input_file : string)
    (sheet_name : option string) (fs fs' : FS.t Pdf) (df : DataFrame) (fuel : nat)
    (inp : string) (total : Z) (paths : list string) (combined : option string)
    (info : SliceInfo)
    (HM : 1 <= max_columns_per_page (slicer self))
    (Hread : read_excel pd_read_excel input_file sheet_name = Ok df)
    (Hf : (length (df_columns df) < fuel)%nat)
    (Hrun : process fuel self input_file sheet_name fs
            = Some (Success inp total paths combined info, fs')) :
  exists ks : list Z,
    paths = pdf_path self <$> ks /\
    sublist ks (seqZ 1 (num_pages info)) /\
    total = Z.of_nat (length ks) /\
    total <= num_pages info /\
    inp = input_file /\
    (paths = [] -> combined = None).
Proof.
  destruct (process_shape self input_file sheet_name fs df HM Hread)
    as (slices & info0 & combined0 & fs2 & Hinfo & Hpages & Hnone & Hshape).
  rewrite (Hshape fuel Hf) in Hrun. injection Hrun as <- <- <- <- <- _.
  destruct (page_outcomes_named self (enumerate1 slices) fs) as (ks & Hks & Hsub).
  rewrite enumerate1_fst in Hsub. rewrite <- Hpages in Hsub.
  exists ks. rewrite Hks, length_fmap. split; [done|]. split; [done|].
  split; [done|]. split; [|split; [done|]].
  - apply sublist_length in Hsub. rewrite length_seqZ in Hsub.
    rewrite Hpages in *. lia.
  - rewrite <- Hks. exact Hnone.
Qed.

(** X14: when the configuration says not to keep the individual
    pages, every individual PDF a successful run lists has been deleted by
    the end of the run, unless its path is read-only: the paths in the
    result name files that are no longer there. *)
Theorem process_cleanup (self : t) (input_file : string)
    (sheet_name : option string) (fs fs' : FS.t Pdf) (df : DataFrame) (fuel : nat)
    (inp : string) (total : Z) (paths : list string) (combined : option string)
    (info : SliceInfo)
    (HM : 1 <= max_columns_per_page (slicer self))
    (Hkeep : cfg_keep_individual_pages (config self) = Some false)
    (Hread : read_excel pd_read_excel input_file sheet_name = Ok df)
    (Hf : (length (df_columns df) < fuel)%nat)
    (Hrun : process fuel self input_file sheet_name fs
            = Some (Success inp total paths combined info, fs')) :
  forall p, p ∈ paths -> p ∉ FS.readonly fs' -> FS.files fs' !! p = None.
Proof.
  destruct (process_shape self input_file sheet_name fs df HM Hread)
    as (slices & info0 & combined0 & fs2 & Hinfo & Hpages & Hnone & Hshape).
  rewrite (Hshape fuel Hf), Hkeep in Hrun. simpl in Hrun.
  injection Hrun as <- <- <- <- <- <-.
  intros p Hp Hro.
  destruct (unlink_all (successes (page_outcomes self (enumerate1 slices) fs)) fs2)
    as (Hsame & Hgone & _).
  apply Hgone; [done|]. by rewrite <- Hsame.
Qed.

(** X15: on a table without columns, with any page width but
    zero, the run succeeds with no page, no individual file and no combined
    PDF, and leaves the file system as it was. *)
Theorem process_empty_table (self : t) (input_file : string)
    (sheet_name : option string) (fs : FS.t Pdf) (df : DataFrame) (fuel : nat)
    (HM : max_columns_per_page (slicer self) <> 0)
    (Hread : read_excel pd_read_excel input_file sheet_name = Ok df)
    (Hcols : df_columns df = []) :
  exists info,
    get_slice_info (slicer self) df = Ok info /\
    total_columns info = 0 /\
    process fuel self input_file sheet_name fs
    = Some (Success input_file 0 [] None info, fs).
Proof.
  unfold process, ExcelToPDFPipeline.process. rewrite Hread.
  destruct (slicer self) as [M]. simpl in HM.
  unfold get_slice_info, floordiv, pymod, slice_dataframe.
  rewrite Hcols. simpl. destruct (Z.eqb_spec M 0) as [?|_]; [done|]. simpl.
  eexists. split; [reflexivity|]. split; [reflexivity|].
  rewrite andb_false_r. by destruct (negb _).
Qed.

End PipelineRuns.

Lemma process_pages_named_witness :
  match ExcelToPDFPipeline.process Demo.pd_read_excel unit Demo.str_format
          Demo.get_template Demo.render Demo.write_pdf 4 (Demo.pipeline 1)
          "book.xlsx" None Demo.no_files with
  | Some (ExcelToPDFPipeline.Success _ total paths _ info, _) =>
      total <= num_pages info /\
      exists ks, paths = (fun k => path_join "output" (page_file k ".pdf")) <$> ks /\
                 sublist ks (seqZ 1 (num_pages info))
  | _ => False
  end.
Proof.
  destruct (ExcelToPDFPipeline.process Demo.pd_read_excel unit Demo.str_format
              Demo.get_template Demo.render Demo.write_pdf 4 (Demo.pipeline 1)
              "book.xlsx" None Demo.no_files)
    as [[[inp total paths combined info|err inp] fs']|] eqn:Hrun.
  - destruct (process_pages_named Demo.pd_read_excel unit Demo.str_format
                Demo.get_template Demo.render Demo.write_pdf (Demo.pipeline 1)
                "book.xlsx" None Demo.no_files fs' (Demo.wide_frame 3) 4 inp total
                paths combined info ltac:(simpl; lia) eq_refl ltac:(simpl; lia) Hrun)
      as (ks & Hp & Hsub & _ & Hle & _).
    split; [exact Hle|]. exists ks. split; [exact Hp | exact Hsub].
  - vm_compute in Hrun. discriminate.
  - vm_compute in Hrun. discriminate.
Defined.

Lemma process_cleanup_witness :
  match ExcelToPDFPipeline.process Demo.pd_read_excel unit Demo.str_format
          Demo.get_template Demo.render Demo.write_pdf 4 Demo.tidy_pipeline
          "book.xlsx" None Demo.no_files with
  | Some (ExcelToPDFPipeline.Success _ _ paths _ _, fs') =>
      paths = ["output/page_1.pdf"; "output/page_3.pdf"] /\
      FS.files fs' !! "output/page_1.pdf" = None
  | _ => False
  end.
Proof.
  destruct (ExcelToPDFPipeline.process Demo.pd_read_excel unit Demo.str_format
              Demo.get_template Demo.render Demo.write_pdf 4 Demo.tidy_pipeline
              "book.xlsx" None Demo.no_files)
    as [[[inp total paths combined info|err inp] fs']|] eqn:Hrun.
  - pose proof (process_cleanup Demo.pd_read_excel unit Demo.str_format
                  Demo.get_template Demo.render Demo.write_pdf Demo.tidy_pipeline
                  "book.xlsx" None Demo.no_files fs' (Demo.wide_frame 3) 4 inp total
                  paths combined info ltac:(simpl; lia) eq_refl eq_refl
                  ltac:(simpl; lia) Hrun) as Hgone.
    vm_compute in Hrun. injection Hrun as <- <- <- <- <- <-.
    split; [reflexivity|]. apply Hgone; [apply list_elem_of_here|].
    simpl. apply not_elem_of_empty.
  - vm_compute in Hrun. discriminate.
  - vm_compute in Hrun. discriminate.
Defined.

Lemma process_empty_table_witness :
  max_columns_per_page (ExcelToPDFPipeline.slicer (Demo.pipeline (-3))) <> 0 /\
  exists info,
    ExcelToPDFPipeline.process Demo.read_empty unit Demo.str_format
      Demo.get_template Demo.render Demo.write_pdf 0 (Demo.pipeline (-3))
      "any.xlsx" None Demo.no_files
    = Some (ExcelToPDFPipeline.Success "any.xlsx" 0 [] None info, Demo.no_files).
Proof.
  assert (max_columns_per_page (ExcelToPDFPipeline.slicer (Demo.pipeline (-3))) <> 0)
    as HM by (simpl; lia).
  split; [exact HM|].
  destruct (process_empty_table Demo.read_empty unit Demo.str_format
              Demo.get_template Demo.render Demo.write_pdf (Demo.pipeline (-3))
              "any.xlsx" None Demo.no_files Demo.empty_frame 0 HM eq_refl eq_refl)
    as (info & _ & _ & Hrun).
  exists info. exact Hrun.
Defined.

(** X16: with a page width of zero, every run whose table is read
    ends as a failed result that carries the text of the division error;
    nothing is sliced and the file system is left as it was. *)
Theorem process_fails_on_zero_width
    (pd_read_excel : string -> option string -> result DataFrame)
    (Template : Type) (str_format : string -> Z -> Z -> Z -> result string)
    (get_template : string -> string -> result Template)
    (render : Template -> Config -> HTMLRenderer.TemplateArgs -> result string)
    (write_pdf : string -> bool -> string -> FS.t Pdf -> result unit * FS.t Pdf)
    (self : ExcelToPDFPipeline.t) (input_file : string) (sheet_name : option string)
    (fs : FS.t Pdf) (df : DataFrame) (fuel : nat)
    (HM : max_columns_per_page (ExcelToPDFPipeline.slicer self) = 0)
    (Hread : ExcelToPDFPipeline.read_excel pd_read_excel input_file sheet_name = Ok df) :
  ExcelToPDFPipeline.process pd_read_excel Template str_format get_template render
    write_pdf fuel self input_file sheet_name fs
  = Some (ExcelToPDFPipeline.Failure (exn_str zero_division) input_file, fs) /\
  get_slice_info (ExcelToPDFPipeline.slicer self) df = Raise zero_division.
Proof.
  split; [by apply (process_zero_width _ _ _ _ _ _ _ _ _ _ df)|].
  unfold get_slice_info, floordiv. by rewrite HM.
Qed.

Lemma process_fails_on_zero_width_witness :
  max_columns_per_page (ExcelToPDFPipeline.slicer (Demo.pipeline 0)) = 0 /\
  ExcelToPDFPipeline.process Demo.pd_read_excel unit Demo.str_format
    Demo.get_template Demo.render Demo.write_pdf 4 (Demo.pipeline 0) "book.xlsx"
    None Demo.no_files
  = Some (ExcelToPDFPipeline.Failure "integer division or modulo by zero"
            "book.xlsx", Demo.no_files).
Proof.
  split; [reflexivity|].
  apply (process_fails_on_zero_width Demo.pd_read_excel unit Demo.str_format
           Demo.get_template Demo.render Demo.write_pdf (Demo.pipeline 0)
           "book.xlsx" None Demo.no_files (Demo.wide_frame 3) 4 eq_refl eq_refl).
Defined.

(** ** Escaping *)

Lemma replace_pipe_plain (s : string) :
  "|"%char ∉ list_ascii_of_string s -> replace_pipe s = s.
Proof.
  induction s as [|c s IH]; [done|]. simpl. intros [Hc Hs]%not_elem_of_cons.
  destruct (Ascii.eqb_spec c "|") as [->|_]; [done|]. by rewrite IH.
Qed.

(** X17: in the text [replace_pipe] returns every pipe stands right
    after a backslash, and a text without pipes is returned as it is. *)
Theorem replace_pipe_guards (s : string) (i : nat)
    (Hi : list_ascii_of_string (replace_pipe s) !! i = Some "|"%char) :
  (exists j, i = S j /\
             list_ascii_of_string (replace_pipe s) !! j = Some "\"%char) /\
  (forall t, "|"%char ∉ list_ascii_of_string t -> replace_pipe t = t).
Proof.
  split; [|apply replace_pipe_plain].
  rewrite replace_pipe_escape in *. by apply escape_guards_pipes.
Qed.

Lemma replace_pipe_guards_witness :
  list_ascii_of_string (replace_pipe "a|b") !! 2%nat = Some "|"%char /\
  list_ascii_of_string (replace_pipe "a|b") !! 1%nat = Some "\"%char.
Proof.
  assert (list_ascii_of_string (replace_pipe "a|b") !! 2%nat = Some "|"%char) as Hi
    by reflexivity.
  split; [exact Hi|].
  destruct (replace_pipe_guards "a|b" 2 Hi) as [(j & Hj & Hb) _].
  injection Hj as <-. exact Hb.
Defined.

(** ** Reading the Markdown back *)

Import AnalyzeData ParserSpec.

Lemma space2_lead (a b : ascii) : space2 a b = true -> N_of_ascii a = 194%N.
Proof. unfold space2. intros [_ H]%andb_prop. by apply N.eqb_eq. Qed.

Lemma space3_lead (a b c : ascii) :
  space3 a b c = true -> (225 <= N_of_ascii a <= 227)%N.
Proof.
  unfold space3. intros H.
  repeat match type of H with
         | (_ || _)%bool = true => apply orb_prop in H as [H|H]
         end;
    apply andb_prop in H as [_ H]; apply N.eqb_eq in H; lia.
Qed.

(** A character of one byte that is no white space stops [lstrip]. *)
Lemma lstrip_stop (a : ascii) (r : string) :
  space1 a = false -> (N_of_ascii a < 128)%N -> lstrip (String a r) = String a r.
Proof.
  intros H1 Ha. cbn [lstrip]. rewrite H1.
  destruct r as [|b r]; [done|].
  destruct (space2 a b) eqn:H2; [apply space2_lead in H2; lia|].
  destruct r as [|c r]; [done|].
  destruct (space3 a b c) eqn:H3; [apply space3_lead in H3; lia|]. done.
Qed.

Lemma lstrip_pipe (r : string) : lstrip (String "|" r) = String "|" r.
Proof. by apply lstrip_stop. Qed.

Lemma strip_pipe (r : string) : startswith "|" (strip (String "|" r)) = true.
Proof.
  unfold strip. rewrite lstrip_pipe. cbn [rstrip]. unfold all_space.
  rewrite lstrip_pipe. unfold startswith. cbn. by destruct (rstrip r).
Qed.

Lemma split_app (c : ascii) (a rest : string) :
  has_char c a = false -> split c (a +:+ String c rest) = a :: split c rest.
Proof.
  induction a as [|x a IH]; intros H.
  - change ("" +:+ String c rest) with (String c rest). cbn [split].
    by rewrite Ascii.eqb_refl.
  - cbn [has_char] in H. apply orb_false_elim in H as [Hx Ha].
    change (String x a +:+ String c rest) with (String x (a +:+ String c rest)).
    cbn [split]. rewrite Hx, (IH Ha). reflexivity.
Qed.

Lemma has_char_app (c : ascii) (a b : string) :
  has_char c (a +:+ b) = has_char c a || has_char c b.
Proof.
  induction a as [|x a IH]; [done|]. rewrite append_cons. cbn [has_char].
  by rewrite IH, orb_assoc.
Qed.

Lemma has_char_concat (c : ascii) (sep : string) (l : list string) :
  has_char c sep = false -> Forall (fun t => has_char c t = false) l ->
  has_char c (String.concat sep l) = false.
Proof.
  intros Hsep. induction 1 as [|t l Ht Hl IH]; [done|].
  destruct l as [|t' l]; [done|].
  change (String.concat sep (t :: t' :: l))
    with (t +:+ sep +:+ String.concat sep (t' :: l)).
  by rewrite !has_char_app, Ht, Hsep, IH.
Qed.

Lemma has_char_escape (c : ascii) (t : string) :
  has_char c t = false -> Ascii.eqb "\" c = false ->
  has_char c (escape t) = false.
Proof.
  rewrite <- replace_pipe_escape. intros Ht Hb.
  induction t as [|x t IH]; [done|].
  cbn [has_char] in Ht. apply orb_false_elim in Ht as [Hx Ht].
  cbn [replace_pipe]. destruct (Ascii.eqb_spec x "|") as [->|_]; cbn [has_char].
  - by rewrite Hb, Hx, (IH Ht).
  - by rewrite Hx, (IH Ht).
Qed.

Lemma escape_plain (t : string) : no_pipe t -> escape t = t.
Proof.
  rewrite <- replace_pipe_escape. unfold no_pipe.
  induction t as [|x t IH]; [done|]. cbn [has_char replace_pipe].
  intros [Hx Ht]%orb_false_elim. by rewrite Hx, (IH Ht).
Qed.

Lemma line_of_one_line (texts : list string) :
  Forall one_line texts -> one_line (line_of texts).
Proof.
  intros H. unfold one_line, line_of. rewrite !has_char_app.
  rewrite has_char_concat; [done..|].
  apply Forall_fmap. eapply Forall_impl; [exact H|].
  intros t Ht. by apply has_char_escape.
Qed.

Lemma table_line_line_of (texts : list string) :
  table_line texts = line_of texts +:+ LF.
Proof. unfold table_line, line_of. by rewrite !append_assoc. Qed.

(** The separator line without its line feed. *)
Lemma separator_line_rule (n : nat) :
  separator_line n
  = ("| " +:+ String.concat " | " (replicate n "---") +:+ " |") +:+ LF.
Proof. unfold separator_line. by rewrite !append_assoc. Qed.

Lemma split_lines (lines : list string) :
  Forall one_line lines ->
  split (ascii_of_nat 10) (String.concat "" ((fun l => l +:+ LF) <$> lines))
  = lines ++ [""].
Proof.
  induction 1 as [|l lines Hl _ IH]; [done|].
  cbn [fmap list_fmap]. rewrite concat_lines_cons, append_assoc.
  change (LF +:+ ?r) with (String (ascii_of_nat 10) r).
  by rewrite (split_app _ _ _ Hl), IH.
Qed.

Lemma table_lines_of (hs : list string) (rows : list (list string)) :
  table hs rows
  = String.concat ""
      ((fun l => l +:+ LF)
         <$> (line_of hs :: ("| " +:+ String.concat " | " (replicate (length hs) "---")
                             +:+ " |") :: (line_of <$> rows))).
Proof.
  unfold table, header_line. cbn [fmap list_fmap].
  rewrite !concat_lines_cons, <- table_line_line_of, <- separator_line_rule.
  do 2 f_equal. rewrite <- list_fmap_compose. f_equal.
  apply list_fmap_ext. intros _ r _. apply table_line_line_of.
Qed.

Lemma line_of_pipe (texts : list string) :
  exists r, line_of texts = String "|" (String " " r).
Proof. by eexists. Qed.

Lemma line_of_starts (texts : list string) :
  startswith "|" (strip (line_of texts)) = true.
Proof. destruct (line_of_pipe texts) as [r ->]. apply strip_pipe. Qed.

(** The separator line of a table with columns is recognised. *)
Lemma rule_line_matches (n : nat) :
  let line := "| " +:+ String.concat " | " (replicate (S n) "---") +:+ " |" in
  startswith "|" (strip line) = true /\ re_match_separator line = true /\
  one_line line.
Proof.
  intros line. split; [apply strip_pipe|]. split.
  - assert (exists r, line = String "|" (String " " (String "-" r))) as [r ->].
    { unfold line. destruct n; by eexists. }
    assert (lstrip (String " " (String "-" r)) = String "-" r) as Hl.
    { change (lstrip (String " " (String "-" r))) with (lstrip (String "-" r)).
      by apply lstrip_stop. }
    unfold re_match_separator. by rewrite Hl.
  - unfold one_line, line. rewrite !has_char_app, has_char_concat; [done..|].
    by apply Forall_replicate.
Qed.

(** After the first table line the second loop keeps the lines that are
    no separators until the first line that does not start with a pipe. *)
Lemma table_loop_rows (ls more : list string) (stop : string) :
  Forall (fun l => startswith "|" (strip l) = true) ls ->
  startswith "|" (strip stop) = false ->
  forall acc, acc <> [] ->
    table_loop (ls ++ stop :: more) acc = acc ++ List.filter kept ls.
Proof.
  intros Hls Hstop. induction Hls as [|l ls Hl _ IH]; intros acc Hacc.
  - cbn [app table_loop List.filter]. rewrite Hstop, app_nil_r.
    by destruct acc.
  - cbn [app table_loop List.filter]. rewrite Hl. unfold kept at 1.
    destruct (negb (re_match_separator l)).
    + rewrite IH; [by rewrite <- app_assoc | by destruct acc].
    + by apply IH.
Qed.

Section Parsing.

Variable pd_DataFrame : list (list string) -> list string -> result DataFrame.
Variable to_numeric : list Cell -> result (list Cell).

(** Parsing the text of a table with at least one column. *)
Lemma parse_table (hs : list string) (rows : list (list string)) :
  hs <> [] -> Forall (Forall one_line) (hs :: rows) ->
  no_rule (line_of hs) = true -> kept (line_of hs) = true ->
  parse_markdown_table pd_DataFrame to_numeric (table hs rows)
  = match List.filter kept (line_of <$> rows) with
    | [] => Ok empty_frame
    | _ :: lines =>
        let! df := pd_DataFrame (row_cells <$> List.filter no_rule lines)
                     (row_cells (line_of hs)) in
        Ok (numeric_columns to_numeric df)
    end.
Proof.
  intros Hhs Hone Hrule Hkept. apply Forall_cons in Hone as [Hh Hr].
  destruct hs as [|h hs]; [done|]. set (texts := h :: hs) in *.
  destruct (rule_line_matches (length hs)) as (Hs1 & Hs2 & Hs3).
  unfold parse_markdown_table. rewrite table_lines_of, split_lines.
  2:{ constructor; [by apply line_of_one_line|]. constructor; [exact Hs3|].
      apply Forall_fmap. eapply Forall_impl; [exact Hr|].
      intros r. apply line_of_one_line. }
  cbn [app table_start]. rewrite line_of_starts. fold (no_rule (line_of texts)).
  rewrite Hrule. cbn [andb drop table_loop]. rewrite line_of_starts.
  fold (kept (line_of texts)). rewrite Hkept. cbn [app].
  change (length texts) with (S (length hs)).
  rewrite Hs1, Hs2. cbn [negb].
  rewrite (table_loop_rows _ [] ""); [| |done|done].
  2:{ apply Forall_fmap, Forall_true. intros r. apply line_of_starts. }
  cbn [app]. destruct (List.filter kept (line_of <$> rows)); reflexivity.
Qed.

End Parsing.

(** ** Cells *)

Lemma lstrip_app_space (n : nat) :
  forall t, (String.length t <= n)%nat ->
    lstrip (t +:+ " ") = if all_space t then "" else lstrip t +:+ " ".
Proof.
  induction n as [|n IH]; intros t Hn.
  - destruct t; [reflexivity | simpl in Hn; lia].
  - destruct t as [|a r]; [reflexivity|]. simpl in Hn.
    rewrite append_cons. unfold all_space. cbn [lstrip].
    destruct (space1 a) eqn:H1; [apply IH; lia|].
    destruct r as [|b r2]; [reflexivity|]. simpl in Hn. rewrite append_cons.
    destruct (space2 a b) eqn:H2; [apply IH; lia|].
    destruct r2 as [|c r3]; [reflexivity|]. simpl in Hn. rewrite append_cons.
    destruct (space3 a b c) eqn:H3; [apply IH; lia|]. reflexivity.
Qed.

Lemma all_space_app_space (t : string) : all_space (t +:+ " ") = all_space t.
Proof.
  unfold all_space at 1. rewrite (lstrip_app_space (String.length t)); [|lia].
  destruct (all_space t) eqn:Ht; [done|].
  unfold all_space in Ht. by destruct (lstrip t).
Qed.

Lemma rstrip_app_space (t : string) : rstrip (t +:+ " ") = rstrip t.
Proof.
  induction t as [|a r IH]; [reflexivity|].
  rewrite append_cons. cbn [rstrip]. rewrite <- append_cons, all_space_app_space.
  by rewrite IH.
Qed.

(** The blanks around a cell are stripped. *)
Lemma strip_pad (t : string) : strip (" " +:+ t +:+ " ") = strip t.
Proof.
  unfold strip. change (lstrip (" " +:+ t +:+ " ")) with (lstrip (t +:+ " ")).
  rewrite (lstrip_app_space (String.length t)); [|lia].
  destruct (all_space t) eqn:Ht.
  - unfold all_space in Ht. by destruct (lstrip t).
  - apply rstrip_app_space.
Qed.

Lemma split_padded (texts : list string) :
  texts <> [] -> Forall no_pipe texts ->
  split "|" (" " +:+ String.concat " | " texts +:+ " |")
  = ((fun t => " " +:+ t +:+ " ") <$> texts) ++ [""].
Proof.
  intros Hne H. induction H as [|t l Ht Hl IH]; [done|].
  assert (has_char "|" (" " +:+ t +:+ " ") = false) as Hpad.
  { unfold no_pipe in Ht. by rewrite !has_char_app, Ht. }
  destruct l as [|t' l].
  - change (" " +:+ String.concat " | " [t] +:+ " |")
      with (" " +:+ t +:+ " |").
    replace (" " +:+ t +:+ " |") with ((" " +:+ t +:+ " ") +:+ String "|" "")
      by (by rewrite !append_assoc).
    by rewrite (split_app _ _ _ Hpad).
  - change (String.concat " | " (t :: t' :: l))
      with (t +:+ " | " +:+ String.concat " | " (t' :: l)).
    replace (" " +:+ (t +:+ " | " +:+ String.concat " | " (t' :: l)) +:+ " |")
      with ((" " +:+ t +:+ " ")
              +:+ String "|" (" " +:+ String.concat " | " (t' :: l) +:+ " |"))
      by (by rewrite !append_assoc).
    rewrite (split_app _ _ _ Hpad), IH; done.
Qed.

Lemma py_slice_inner {A} (x y : A) (l : list A) :
  py_slice (x :: l ++ [y]) 1 (-1) = l.
Proof.
  unfold py_slice, clamp_index. cbn [length]. rewrite length_app. cbn [length].
  change (1 <? 0) with false. change (-1 <? 0) with true. cbv iota.
  replace (Z.to_nat (Z.min 1 (Z.of_nat (S (length l + 1))))) with 1%nat by lia.
  replace (Z.to_nat (Z.max (-1 + Z.of_nat (S (length l + 1))) 0
                     - Z.min 1 (Z.of_nat (S (length l + 1)))))
    with (length l) by lia.
  cbn [drop]. rewrite drop_0. by rewrite take_app_length.
Qed.

Lemma row_cells_line_of (texts : list string) :
  texts <> [] -> Forall no_pipe texts ->
  row_cells (line_of texts) = strip <$> texts.
Proof.
  intros Hne Hp. unfold row_cells, line_of.
  assert (escape <$> texts = texts) as ->.
  { clear Hne. induction Hp as [|t l Ht _ IH]; [done|]. cbn [fmap list_fmap].
    by rewrite escape_plain, IH. }
  change ("| " +:+ ?r) with (String "|" (" " +:+ r)).
  cbn [split]. change (Ascii.eqb "|" "|") with true. cbv iota.
  rewrite split_padded by done. pose proof (py_slice_inner "" "" ((fun t => " " +:+ t +:+ " ") <$> texts)) as E.
  rewrite E, <- list_fmap_compose.
  apply list_fmap_ext. intros _ t _. apply strip_pad.
Qed.

Lemma rmap_Forall2 {A B} (f : A -> result B) (l : list A) (ys : list B) :
  rmap f l = Ok ys -> Forall2 (fun x y => f x = Ok y) l ys.
Proof.
  revert ys. induction l as [|x l IH]; intros ys H.
  - injection H as <-. constructor.
  - apply rmap_cons_Ok in H as (y & ys' & Hy & Hys & ->). constructor; auto.
Qed.

(** Every row of a table has as many texts as the header. *)
Lemma row_texts_length (df : DataFrame) (include_index : bool)
    (cells : list (list string)) :
  rmap (rmap MarkdownExporter._format_cell) (snd <$> iterrows df) = Ok cells ->
  Forall (fun r => length r = length (header_texts df include_index))
    (row_texts df include_index cells).
Proof.
  intros H. apply rmap_Forall2 in H.
  assert (Forall (fun r : list string => length r = length (df_columns df)) cells) as Hc.
  { apply Forall_forall. intros r Hr.
    apply list_elem_of_lookup in Hr as [i Hi].
    destruct (Forall2_lookup_r _ _ _ _ _ H Hi) as (vs & Hvs & Hf).
    apply rmap_Forall2, Forall2_length in Hf. rewrite <- Hf.
    apply list_lookup_fmap_Some in Hvs as ([idx vs'] & -> & Hit).
    unfold iterrows in Hit. apply list_lookup_imap_Some in Hit as (x & _ & [= _ ->]).
    unfold row_values. cbn [snd]. by rewrite length_map. }
  unfold row_texts, header_texts. revert Hc. generalize (df_index df). clear H.
  induction cells as [|r cells IH]; intros idx Hc; [by destruct idx; constructor|].
  apply Forall_cons in Hc as [Hr Hc]. destruct idx as [|i idx]; [constructor|].
  cbn [zip_with]. constructor; [|by apply IH].
  rewrite !length_app, length_fmap, Hr. by destruct include_index.
Qed.


Lemma split_length (c : ascii) (s : string) :
  length (split c s) = S (count_char c s).
Proof.
  induction s as [|a r IH]; [done|]. cbn [split count_char].
  destruct (Ascii.eqb a c); cbn [length]; [by rewrite IH|].
  destruct (split c r); [discriminate|]. cbn [length] in *. lia.
Qed.

Lemma count_char_app (c : ascii) (a b : string) :
  count_char c (a +:+ b) = (count_char c a + count_char c b)%nat.
Proof.
  induction a as [|x a IH]; [done|]. rewrite append_cons. cbn [count_char].
  rewrite IH. lia.
Qed.

Lemma count_char_escape (t : string) :
  count_char "|" (escape t) = count_char "|" t.
Proof.
  rewrite <- replace_pipe_escape. induction t as [|x t IH]; [done|].
  cbn [replace_pipe count_char].
  destruct (Ascii.eqb_spec x "|") as [->|Hx]; cbn [count_char].
  - rewrite IH. reflexivity.
  - by rewrite IH, (proj2 (Ascii.eqb_neq _ _) Hx).
Qed.

Lemma count_char_joined (texts : list string) :
  texts <> [] ->
  count_char "|" (String.concat " | " (escape <$> texts))
  = (sum_list (count_char "|" <$> texts) + length texts - 1)%nat.
Proof.
  induction texts as [|t l IH]; [done|]. intros _.
  destruct l as [|t' l].
  - cbn [fmap list_fmap String.concat sum_list sum_list_with length].
    rewrite count_char_escape. unfold id. lia.
  - change (String.concat " | " (escape <$> t :: t' :: l))
      with (escape t +:+ " | " +:+ String.concat " | " (escape <$> t' :: l)).
    rewrite !count_char_app, count_char_escape, IH by done.
    cbn [fmap list_fmap sum_list sum_list_with length].
    change (count_char "|" " | ") with 1%nat. unfold id. lia.
Qed.

Lemma py_slice_inner_length {A} (l : list A) :
  length (py_slice l 1 (-1)) = (length l - 2)%nat.
Proof.
  unfold py_slice, clamp_index. change (1 <? 0) with false.
  change (-1 <? 0) with true. cbv iota. rewrite length_take, length_drop. lia.
Qed.


(** X18: parsing the text the manual conversion makes of a table with a header:
    of the rows whose line does not look like a separator (a first text
    that starts with [-] or [:]) the first one is dropped with the
    separator line, the parsed table is made of the others that hold no
    [---]; with no such row the result is the empty table, without the
    header. *)
Theorem parse_drops_first_kept_row
    (pd_DataFrame : list (list string) -> list string -> result DataFrame)
    (to_numeric : list Cell -> result (list Cell))
    (df : DataFrame) (include_index : bool) (cells : list (list string))
    (Hcells : rmap (rmap MarkdownExporter._format_cell) (snd <$> iterrows df)
              = Ok cells)
    (Hcols : header_texts df include_index <> [])
    (Hlines : Forall (Forall one_line)
                (header_texts df include_index :: row_texts df include_index cells))
    (Hhead : no_rule (line_of (header_texts df include_index)) = true /\
             kept (line_of (header_texts df include_index)) = true) :
  exists md,
    MarkdownExporter._manual_markdown_conversion df include_index = Ok md /\
    parse_markdown_table pd_DataFrame to_numeric md
    = match List.filter kept (line_of <$> row_texts df include_index cells) with
      | [] => Ok empty_frame
      | _ :: lines =>
          let! parsed := pd_DataFrame (row_cells <$> List.filter no_rule lines)
                           (row_cells (line_of (header_texts df include_index))) in
          Ok (numeric_columns to_numeric parsed)
      end.
Proof.
  exists (table (header_texts df include_index) (row_texts df include_index cells)).
  split; [by apply manual_conversion_table|].
  destruct Hhead. by apply parse_table.
Qed.

Lemma parse_drops_first_kept_row_witness :
  exists md,
    MarkdownExporter._manual_markdown_conversion ParseDemo.deltas false = Ok md /\
    parse_markdown_table ParseDemo.frame_of ParseDemo.unchanged md
    = Ok {| df_index := [LInt 0];
            df_columns :=
              [{| col_name := LStr "Delta"; col_values := [VStr "4"] |};
               {| col_name := LStr "Note"; col_values := [VStr "c"] |}] |}.
Proof.
  destruct (parse_drops_first_kept_row ParseDemo.frame_of ParseDemo.unchanged
              ParseDemo.deltas false [["-5"; "a"]; ["3"; "b"]; ["4"; "c"]])
    as (md & Hmd & Hparse).
  - reflexivity.
  - discriminate.
  - repeat constructor.
  - split; reflexivity.
  - exists md. split; [exact Hmd|]. rewrite Hparse. reflexivity.
Defined.

(** X19: the round trip of a table through the manual conversion and the
    parser loses the first row. When no text holds a line feed or a pipe,
    and no line holds [---] or looks like a separator, the parsed table
    is made of the stripped header texts and of the stripped texts of all
    rows but the first; a table without rows comes back as the empty
    table. *)
Theorem round_trip_loses_first_row
    (pd_DataFrame : list (list string) -> list string -> result DataFrame)
    (to_numeric : list Cell -> result (list Cell))
    (df : DataFrame) (include_index : bool) (cells : list (list string))
    (Hcells : rmap (rmap MarkdownExporter._format_cell) (snd <$> iterrows df)
              = Ok cells)
    (Hcols : header_texts df include_index <> [])
    (Hlines : Forall (Forall one_line)
                (header_texts df include_index :: row_texts df include_index cells))
    (Hpipes : Forall (Forall no_pipe)
                (header_texts df include_index :: row_texts df include_index cells))
    (Hrows : Forall (fun r => kept (line_of r) = true /\ no_rule (line_of r) = true)
               (header_texts df include_index :: row_texts df include_index cells)) :
  exists md,
    MarkdownExporter._manual_markdown_conversion df include_index = Ok md /\
    parse_markdown_table pd_DataFrame to_numeric md
    = match row_texts df include_index cells with
      | [] => Ok empty_frame
      | _ :: rest =>
          let! parsed := pd_DataFrame ((fun r : list string => strip <$> r) <$> rest)
                           (strip <$> header_texts df include_index) in
          Ok (numeric_columns to_numeric parsed)
      end.
Proof.
  set (hs := header_texts df include_index) in *.
  set (rows := row_texts df include_index cells) in *.
  exists (table hs rows). split; [by apply manual_conversion_table|].
  apply Forall_cons in Hrows as [[Hk0 Hn0] Hrows].
  rewrite parse_table by done.
  apply Forall_cons in Hpipes as [Hph Hpr].
  assert (forall l : list (list string),
            Forall (fun r => kept (line_of r) = true) l ->
            List.filter kept (line_of <$> l) = line_of <$> l) as Hk.
  { induction 1 as [|r l Hr _ IH]; [done|].
    cbn [fmap list_fmap List.filter]. by rewrite Hr, IH. }
  assert (forall l : list (list string),
            Forall (fun r => no_rule (line_of r) = true) l ->
            List.filter no_rule (line_of <$> l) = line_of <$> l) as Hn.
  { induction 1 as [|r l Hr _ IH]; [done|].
    cbn [fmap list_fmap List.filter]. by rewrite Hr, IH. }
  rewrite Hk by (eapply Forall_impl; [exact Hrows|]; by intros r [? ?]).
  pose proof (row_texts_length df include_index cells Hcells) as Hlen.
  fold rows hs in Hlen. clearbody rows hs.
  destruct rows as [|r rest]; [done|]. cbn [fmap list_fmap].
  apply Forall_cons in Hrows as [_ Hrest]. apply Forall_cons in Hpr as [_ Hprest].
  apply Forall_cons in Hlen as [_ Hlen].
  rewrite Hn by (eapply Forall_impl; [exact Hrest|]; by intros ? [? ?]).
  rewrite (row_cells_line_of hs) by done.
  replace (row_cells <$> (line_of <$> rest))
    with ((fun r : list string => strip <$> r) <$> rest); [done|].
  rewrite <- list_fmap_compose. apply Forall_fmap_ext_1.
  rewrite Forall_forall in Hlen, Hprest. apply Forall_forall. intros x Hx.
  symmetry. apply row_cells_line_of; [|by apply Hprest].
  intros ->. specialize (Hlen _ Hx). by destruct hs.
Qed.

Lemma round_trip_loses_first_row_witness :
  exists md,
    MarkdownExporter._manual_markdown_conversion ParseDemo.ledger false = Ok md /\
    parse_markdown_table ParseDemo.frame_of ParseDemo.unchanged md
    = Ok {| df_index := [LInt 0];
            df_columns :=
              [{| col_name := LStr "Item"; col_values := [VStr "food"] |};
               {| col_name := LStr "Cost"; col_values := [VStr "7"] |}] |}.
Proof.
  destruct (round_trip_loses_first_row ParseDemo.frame_of ParseDemo.unchanged
              ParseDemo.ledger false [["rent"; "12"]; ["food"; "7"]])
    as (md & Hmd & Hparse).
  - reflexivity.
  - discriminate.
  - repeat constructor.
  - repeat constructor.
  - repeat constructor.
  - exists md. split; [exact Hmd|]. rewrite Hparse. reflexivity.
Defined.

(** X20: a line of the exporter read back by the parser: it yields one cell
    per text and one more per pipe in the texts, so a pipe inside a text
    starts a new cell although it is escaped; without pipes the texts come
    back, stripped of the white space around them. *)
Theorem row_cells_of_exported_line (texts : list string) (Hne : texts <> []) :
  length (row_cells (line_of texts))
  = (length texts + sum_list (count_char "|" <$> texts))%nat /\
  (Forall no_pipe texts -> row_cells (line_of texts) = strip <$> texts).
Proof.
  split; [|by apply row_cells_line_of].
  unfold row_cells. rewrite length_fmap, py_slice_inner_length, split_length.
  unfold line_of. rewrite !count_char_app, count_char_joined by done.
  change (count_char "|" "| ") with 1%nat. change (count_char "|" " |") with 1%nat.
  destruct texts; [done|]. cbn [length]. unfold id. lia.
Qed.

Lemma row_cells_of_exported_line_witness :
  length (row_cells (line_of ["a|b"; "c"])) = 3%nat /\
  row_cells (line_of [" rent"; "12 "]) = ["rent"; "12"].
Proof.
  split.
  - apply (proj1 (row_cells_of_exported_line ["a|b"; "c"] ltac:(discriminate))).
  - apply (proj2 (row_cells_of_exported_line [" rent"; "12 "] ltac:(discriminate))).
    repeat constructor.
Defined.
